(** * Dashagent: the spreadsheet cache and the webhook dispatcher

    A shallow embedding of the two pieces of logic of the dashboard that
    are more than widget glue:

    - [pages/record.py]: [format_file_size], [send_to_webhook] and
      [send_to_multiple_webhooks];
    - [pages/10_Project_Management.py]: [auto_load_project_data],
      [force_reload_project_data] and the submit handler of
      [render_add_project_tab], running against the sheets manager of
      [utils/gsheet_manager.py].

    Python code is embedded in a state-and-exception monad: a computation
    takes the world (session state plus the observable environment) and
    returns either a value or a raised exception, together with the new
    world.  State changes made before an exception is raised persist, as in
    Python. *)

From Stdlib Require Import ZArith NArith QArith String Ascii List Bool Lia.
From stdpp Require Import base tactics option list gmap strings.

Local Open Scope Z_scope.
Local Open Scope string_scope.
Local Open Scope list_scope.

(** ** Python fragments shared by both pages *)

(** The exception classes that occur in the modelled code.  [SSLError] is a
    subclass of [ConnectionError] in [requests]; [RequestException] stands
    for the remaining exceptions of [requests] (invalid URL, too many
    redirects, ...).  [PayloadTooLargeError] carries the formatted size of
    its message and the value of the local [payload_size] at the raise,
    which is what the handler of [send_to_webhook] reads back through
    [locals()].  [OverflowError] is raised by [math.pow] and by the
    conversion of an integer to a float; its two texts are not told apart.
    [RerunException] is what [st.rerun()] raises to stop the script run; it
    derives from [BaseException], not from [Exception]. *)
Inductive Exn : Type :=
| ValidationError (errors : list string)
| PayloadTooLargeError (payload_size : N) (unit_name : string)
| RateLimitError (msg : string)
| Timeout
| ConnectionError (msg : string)
| SSLError (msg : string)
| RequestException (msg : string)
| TypeError (msg : string)
| KeyError (key : string)
| IndexError (msg : string)
| OverflowError
| AttributeError (msg : string)
| UnboundLocalError (name : string)
| DataSourceError (cause : string)
| RerunException.

(** The classes named in [except] clauses. *)
Inductive ExnClass : Type :=
| CValidationError
| CPayloadTooLargeError
| CRateLimitError
| CTimeout
| CConnectionError
| CSSLError
| CException.

(** [isinstance(e, cls)] for an exception [e]. *)
Definition exn_isinstance (e : Exn) (c : ExnClass) : bool :=
  match c, e with
  | CException, RerunException => false
  | CException, _ => true
  | CValidationError, ValidationError _ => true
  | CPayloadTooLargeError, PayloadTooLargeError _ _ => true
  | CRateLimitError, RateLimitError _ => true
  | CTimeout, Timeout => true
  | CConnectionError, ConnectionError _ => true
  | CConnectionError, SSLError _ => true
  | CSSLError, SSLError _ => true
  | _, _ => false
  end.

(** [type(e).__name__] *)
Definition exn_type_name (e : Exn) : string :=
  match e with
  | ValidationError _ => "ValidationError"
  | PayloadTooLargeError _ _ => "PayloadTooLargeError"
  | RateLimitError _ => "RateLimitError"
  | Timeout => "Timeout"
  | ConnectionError _ => "ConnectionError"
  | SSLError _ => "SSLError"
  | RequestException _ => "RequestException"
  | TypeError _ => "TypeError"
  | KeyError _ => "KeyError"
  | IndexError _ => "IndexError"
  | OverflowError => "OverflowError"
  | AttributeError _ => "AttributeError"
  | UnboundLocalError _ => "UnboundLocalError"
  | DataSourceError _ => "DataSourceError"
  | RerunException => "RerunException"
  end.

(** The outcome of running a piece of Python: a value or a raised
    exception. *)
Inductive Res (A : Type) : Type :=
| Ret (a : A)
| Raise (e : Exn).
Arguments Ret {A} a.
Arguments Raise {A} e.

Definition is_ret {A} (r : Res A) : bool :=
  match r with Ret _ => true | Raise _ => false end.

(** Computations over a world [W]. *)
Definition M (W A : Type) : Type := W → Res A * W.

Definition ret {W A} (a : A) : M W A := λ w, (Ret a, w).

Definition raise {W A} (e : Exn) : M W A := λ w, (Raise e, w).

Definition bind {W A B} (c : M W A) (k : A → M W B) : M W B :=
  λ w, match c w with
       | (Ret a, w') => k a w'
       | (Raise e, w') => (Raise e, w')
       end.

Definition gets {W A} (f : W → A) : M W A := λ w, (Ret (f w), w).

Definition modify {W} (f : W → W) : M W unit := λ w, (Ret tt, f w).

Declare Scope py_scope.
Delimit Scope py_scope with py.
Notation "'do' x <- c ; k" := (bind c (λ x, k))
  (at level 10, x name, c at level 100, k at level 200,
   format "'[v' 'do'  x  <-  c ; '/' k ']'") : py_scope.
Notation "'do' ' p <- c ; k" := (bind c (λ x, match x with p => k end))
  (at level 10, p pattern, c at level 100, k at level 200,
   format "'[v' 'do'  ' p  <-  c ; '/' k ']'") : py_scope.
Notation "'run' c ; k" := (bind c (λ _, k))
  (at level 10, c at level 100, k at level 200,
   format "'[v' 'run'  c ; '/' k ']'") : py_scope.
Local Open Scope py_scope.

(** One [except] clause: the class expression, which is itself evaluated
    when the clause is reached and may raise, and the handler. *)
Definition ExceptClause (W A : Type) : Type := Res ExnClass * (Exn → M W A).

(** The clauses of a [try] statement are tried in order.  The class
    expression of a clause is only evaluated when no earlier clause matched;
    an exception raised by that evaluation leaves the [try] statement, and
    no later clause of the same statement can catch it. *)
Fixpoint dispatch_except {W A} (clauses : list (ExceptClause W A)) (e : Exn)
  : M W A :=
  match clauses with
  | [] => raise e
  | (Raise e', _) :: _ => raise e'
  | (Ret c, handler) :: rest =>
      if exn_isinstance e c then handler e else dispatch_except rest e
  end.

Definition try_except {W A} (body : M W A) (clauses : list (ExceptClause W A))
  : M W A :=
  λ w, match body w with
       | (Ret a, w') => (Ret a, w')
       | (Raise e, w') => dispatch_except clauses e w'
       end.

(** Unfolds the monad around the primitives of a page. *)
Ltac py_red :=
  cbv beta iota zeta delta
    [bind gets modify ret raise try_except dispatch_except negb andb orb fst snd].

(** Values stored in the dictionaries the pages build.  [VTime t] is a
    [datetime] (or its ISO text) for the clock reading [t]; [VErrorsOf e] is
    [e.errors if hasattr(e, 'errors') else [str(e)]]; [VExnStr e] is
    [str(e)]; [VTraceback] is [traceback.format_exc()]. *)
Inductive PyVal : Type :=
| VNone
| VBool (b : bool)
| VInt (n : Z)
| VStr (s : string)
| VStrList (l : list string)
| VTime (t : Z)
| VErrorsOf (e : Exn)
| VExnStr (e : Exn)
| VTraceback.

(** A [dict] with string keys, in insertion order. *)
Definition Dict : Type := list (string * PyVal).

Fixpoint dict_get (k : string) (d : Dict) : option PyVal :=
  match d with
  | [] => None
  | (k', v) :: rest => if String.eqb k k' then Some v else dict_get k rest
  end.

(** [s[:n]] *)
Fixpoint str_take (n : nat) (s : string) : string :=
  match n, s with
  | S n', String c s' => String c (str_take n' s')
  | _, _ => EmptyString
  end.

(** The clock counts microseconds, the resolution of [datetime]. *)
Definition seconds (s : Z) : Z := s * 1000000.

(** ** [pages/record.py]: the webhook dispatcher *)

Module record.

(** Calls that leave the process, in the order they are made. *)
Inductive Event : Type :=
| EvRateCheck (user_id webhook_type : string)
| EvValidate
| EvSanitize
| EvDumps
| EvPost (url : string)
| EvSleep (secs : Z)
| EvLogError (webhook_type : string).

Definition is_post (e : Event) : bool :=
  match e with EvPost _ => true | _ => false end.

(** What [requests.post] does: a response, whatever its status, or an
    exception. *)
Inductive HttpOutcome : Type :=
| Responded (status_code : Z) (text : string)
| Failed (e : Exn).

(** The collaborators of the dispatcher: [validation_utils] (or the fallback
    definitions at the top of the file), [json.dumps] and [requests.post].
    The rate limiter and the transport may answer differently from call to
    call: they see the calls made so far.  [json_dumps_len p] is
    [len(json.dumps(p).encode('utf-8'))], or the exception [json.dumps]
    raises on a payload it cannot serialise. *)
Class Collaborators (Payload : Type) : Type := {
  validate_webhook_payload : Payload → bool * list string;
  sanitize_payload : Payload → Payload;
  check_rate_limit : list Event → string → string → bool * string;
  json_dumps_len : Payload → Res N;
  requests_post : list Event → string → Payload → HttpOutcome
}.

(** [WEBHOOK_URLS] *)
Definition WEBHOOK_URLS : list (string * string) :=
  [ ("audio", "https://agentonline-u29564.vm.elestio.app/webhook-test/audio-files");
    ("books", "https://agentonline-u29564.vm.elestio.app/webhook-test/books-content");
    ("lectures", "https://agentonline-u29564.vm.elestio.app/webhook-test/lectures-education");
    ("podcasts", "https://agentonline-u29564.vm.elestio.app/webhook-test/podcasts-episodes");
    ("notes", "https://agentonline-u29564.vm.elestio.app/webhook-test/notes-thoughts");
    ("documents", "https://agentonline-u29564.vm.elestio.app/webhook-test/documents-files");
    ("videos", "https://agentonline-u29564.vm.elestio.app/webhook-test/videos-content");
    ("images", "https://agentonline-u29564.vm.elestio.app/webhook-test/images-photos");
    ("research", "https://agentonline-u29564.vm.elestio.app/webhook-test/research-data");
    ("meetings", "https://agentonline-u29564.vm.elestio.app/webhook-test/meetings-records") ].

(** [CONTENT_TYPES], restricted to the ['name'] entry, the only one the
    dispatcher reads. *)
Definition CONTENT_TYPES : list (string * string) :=
  [ ("audio", "🎵 Audio Files");
    ("books", "📚 Books");
    ("lectures", "🎓 Lectures");
    ("podcasts", "🎙️ Podcasts");
    ("notes", "📝 Notes");
    ("documents", "📄 Documents");
    ("videos", "🎬 Videos");
    ("images", "🖼️ Images");
    ("research", "🔬 Research");
    ("meetings", "🤝 Meetings") ].

Fixpoint assoc (k : string) (l : list (string * string)) : option string :=
  match l with
  | [] => None
  | (k', v) :: rest => if String.eqb k k' then Some v else assoc k rest
  end.

(** One entry of [st.session_state.webhook_stats]. *)
Record Stats : Type := mkStats { sent : Z; success : Z; errors : Z }.

(** The world of the page: the session-state keys the dispatcher touches,
    the clock, and the calls made so far. *)
Record World : Type := mkWorld {
  selected_webhook_type : string;
  webhook_urls : gmap string string;
  user_name : option string;
  webhook_responses : list Dict;
  webhook_stats : gmap string Stats;
  clock : Z;
  events : list Event
}.

Definition with_responses (f : list Dict → list Dict) (w : World) : World :=
  mkWorld (selected_webhook_type w) (webhook_urls w) (user_name w)
          (f (webhook_responses w)) (webhook_stats w) (clock w) (events w).

Definition with_stats (f : gmap string Stats → gmap string Stats) (w : World)
  : World :=
  mkWorld (selected_webhook_type w) (webhook_urls w) (user_name w)
          (webhook_responses w) (f (webhook_stats w)) (clock w) (events w).

Definition with_clock (f : Z → Z) (w : World) : World :=
  mkWorld (selected_webhook_type w) (webhook_urls w) (user_name w)
          (webhook_responses w) (webhook_stats w) (f (clock w)) (events w).

Definition with_event (e : Event) (w : World) : World :=
  mkWorld (selected_webhook_type w) (webhook_urls w) (user_name w)
          (webhook_responses w) (webhook_stats w) (clock w) (events w ++ [e]).

(** The session state [initialize_session_state] builds. *)
Definition initial_world : World :=
  mkWorld "audio" (list_to_map WEBHOOK_URLS) (Some "Multi-Webhook User") []
          (list_to_map (map (λ kv, (fst kv, mkStats 0 0 0)) WEBHOOK_URLS))
          0 [].

(** The text [format_file_size] returns, [f"{s} {size_names[i]}"]: the unit
    is computed, the rounded floating-point quotient [s] is kept as the
    size it was computed from. *)
Record FileSize : Type := mkFileSize { size_of : N; unit_of : string }.

Definition size_names : list string := ["B"; "KB"; "MB"; "GB"].

(** [int(math.floor(math.log(size_bytes, 1024)))], computed exactly.  Below
    1 TiB the floating-point quotient of logarithms can differ from it only
    at an exact power of 1024, where it may give the unit below. *)
Definition log1024 (size_bytes : N) : nat := N.to_nat (N.log2 size_bytes / 10).

(** [math.pow(1024, i)] is a float up to [1024^102]; from [i = 103] on the
    power is out of the range of a float and the call raises
    [OverflowError]. *)
Definition math_pow_1024 (i : nat) : Res N :=
  if (103 <=? i)%nat then Raise OverflowError else Ret (1024 ^ N.of_nat i)%N.

(** The least integer Python cannot convert to a float: the integers from
    [2^1024 - 2^970] on round to [2^1024], which is no float. *)
Definition float_overflow : N := 2 ^ 1024 - 2 ^ 970.

(** [size_bytes / p] for a float [p]: the integer is converted to a float
    first, which raises [OverflowError] when it is too large.  The quotient
    itself is not kept. *)
Definition int_by_float (size_bytes p : N) : Res unit :=
  if (float_overflow <=? size_bytes)%N then Raise OverflowError else Ret tt.

(** [format_file_size].  The power and the quotient are computed before
    the list of units is indexed.  From 1 TiB on, where the call raises
    whatever the index is, the floating-point logarithm may round a size
    just below a power of 1024 up to it; the size then is so close to the
    power that the same exception is raised. *)
Definition format_file_size (size_bytes : N) : Res FileSize :=
  if (size_bytes =? 0)%N then Ret (mkFileSize 0 "B")
  else
    let i := log1024 size_bytes in
    match math_pow_1024 i with
    | Raise e => Raise e
    | Ret p =>
        match int_by_float size_bytes p with
        | Raise e => Raise e
        | Ret _ =>
            match size_names !! i with
            | Some name => Ret (mkFileSize size_bytes name)
            | None => Raise (IndexError "list index out of range")
            end
        end
    end.

(** The messages of the result triples, one constructor per f-string of the
    source, carrying the values interpolated into it. *)
Inductive Message : Type :=
| MsgSent (name : string)
| MsgServerRateLimited
| MsgServerError (status_code : Z)
| MsgRequestError (status_code : Z) (text100 : string)
| MsgUnexpectedResponse (status_code : Z)
| MsgValidationFailed (e : Exn)
| MsgPayloadTooLarge (e : Exn)
| MsgRateLimit (e : Exn)
| MsgTimedOut
| MsgCouldNotConnect
| MsgSSL
| MsgJSONEncoding
| MsgUnexpectedError (e : Exn)
| MsgFanValidationFailed (first3 : list string)
| MsgInvalidWebhookType (webhook_type : string)
| MsgErrorSendingTo (webhook_type : string) (e : Exn).

Section Dispatcher.

Context {Payload : Type} {env : Collaborators Payload}.

(** *** Primitive actions *)

Definition emit (e : Event) : M World unit := modify (with_event e).

(** [datetime.now()] *)
Definition datetime_now : M World Z := gets clock.

(** [time.sleep(secs)] *)
Definition time_sleep (secs : Z) : M World unit :=
  run modify (with_clock (λ t, t + seconds secs));
  emit (EvSleep secs).

(** [rate_limiter.check_rate_limit(user_id, webhook_type)] *)
Definition rate_limiter_check (user_id webhook_type : string)
  : M World (bool * string) :=
  do seen <- gets events;
  run emit (EvRateCheck user_id webhook_type);
  ret (check_rate_limit seen user_id webhook_type).

(** [WebhookValidator.validate_webhook_payload(payload)] *)
Definition validator_validate (payload : Payload) : M World (bool * list string) :=
  run emit EvValidate;
  ret (validate_webhook_payload payload).

(** [WebhookValidator.sanitize_payload(payload)] *)
Definition validator_sanitize (payload : Payload) : M World Payload :=
  run emit EvSanitize;
  ret (sanitize_payload payload).

(** [len(json.dumps(payload).encode('utf-8'))] *)
Definition dumps_len (payload : Payload) : M World N :=
  run emit EvDumps;
  match json_dumps_len payload with
  | Ret n => ret n
  | Raise e => raise e
  end.

(** [requests.post(url, json=payload, headers=headers, timeout=30,
    verify=True)] *)
Definition post (url : string) (payload : Payload) : M World (Z * string) :=
  do seen <- gets events;
  run emit (EvPost url);
  match requests_post seen url payload with
  | Responded status_code text => ret (status_code, text)
  | Failed e => raise e
  end.

(** [log_webhook_error(webhook_type, e, ...)] *)
Definition log_webhook_error (webhook_type : string) : M World unit :=
  emit (EvLogError webhook_type).

(** [st.session_state.webhook_urls[webhook_type]] *)
Definition session_webhook_url (webhook_type : string) : M World string :=
  do urls <- gets webhook_urls;
  match urls !! webhook_type with
  | Some url => ret url
  | None => raise (KeyError webhook_type)
  end.

(** [CONTENT_TYPES[webhook_type]['name']] *)
Definition content_type_name (webhook_type : string) : M World string :=
  match assoc webhook_type CONTENT_TYPES with
  | Some name => ret name
  | None => raise (KeyError webhook_type)
  end.

Inductive Counter : Type := CSent | CSuccess | CErrors.

Definition bump (c : Counter) (s : Stats) : Stats :=
  match c with
  | CSent => mkStats (sent s + 1) (success s) (errors s)
  | CSuccess => mkStats (sent s) (success s + 1) (errors s)
  | CErrors => mkStats (sent s) (success s) (errors s + 1)
  end.

(** [st.session_state.webhook_stats[webhook_type][counter] += 1] *)
Definition stats_incr (webhook_type : string) (c : Counter) : M World unit :=
  do stats <- gets webhook_stats;
  match stats !! webhook_type with
  | Some s => modify (with_stats (λ m, <[webhook_type := bump c s]> m))
  | None => raise (KeyError webhook_type)
  end.

(** [st.session_state.webhook_responses.insert(0, data)] *)
Definition responses_insert0 (data : Dict) : M World unit :=
  modify (with_responses (λ l, data :: l)).

(** [st.session_state.webhook_responses =
     st.session_state.webhook_responses[:20]] *)
Definition responses_keep20 : M World unit :=
  modify (with_responses (take 20)).

(** [webhook_type or st.session_state.selected_webhook_type] *)
Definition or_selected (webhook_type : option string) (selected : string)
  : string :=
  match webhook_type with
  | Some s => if String.eqb s "" then selected else s
  | None => selected
  end.

(** *** The retry loop *)

Definition max_retries : Z := 3.
Definition retry_delay : Z := 1.

(** [range(max_retries)] *)
Definition attempts : list Z := [0; 1; 2].

(** The handler shared by the two inner [except] clauses. *)
Definition retry_or_reraise (attempt : Z) (again : M World (Z * string * Z))
  (e : Exn) : M World (Z * string * Z) :=
  if (attempt =? max_retries - 1)%Z then raise e
  else run time_sleep (retry_delay * (attempt + 1)); again.

(** The [for attempt in range(max_retries)] loop.  It returns the response
    and the value [attempt] has when the loop is left by [break]; if the
    range ran out without a [break], [response] would be unbound at its
    first use below the loop. *)
Fixpoint retry_loop (url : string) (payload : Payload) (todo : list Z)
  : M World (Z * string * Z) :=
  match todo with
  | [] => raise (UnboundLocalError "response")
  | attempt :: rest =>
      try_except
        (do '(status_code, text) <- post url payload;
         ret (status_code, text, attempt))
        [ (Ret CTimeout,
           retry_or_reraise attempt (retry_loop url payload rest));
          (Ret CConnectionError,
           retry_or_reraise attempt (retry_loop url payload rest)) ]
  end.

(** *** [send_to_webhook] *)

(** The dictionary stored when a response arrived. *)
Definition response_data (now : Z) (webhook_type url : string)
  (status_code : Z) (text : string) (payload_size : N) (attempt : Z) : Dict :=
  [ ("timestamp", VTime now);
    ("webhook_type", VStr webhook_type);
    ("status_code", VInt status_code);
    ("success", VBool (status_code =? 200)%Z);
    ("payload_size", VInt (Z.of_N payload_size));
    ("response_text",
      if String.eqb text "" then VNone else VStr (str_take 500 text));
    ("url", VStr url);
    ("attempt_count", VInt (attempt + 1));
    ("validation_passed", VBool true) ].

(** The size gate: [if payload_size > 10 * 1024 * 1024: raise
    PayloadTooLargeError(f"... {format_file_size(payload_size)} ...")]. *)
Definition check_payload_size (payload_size : N) : M World unit :=
  if (10 * 1024 * 1024 <? payload_size)%N then
    match format_file_size payload_size with
    | Ret text => raise (PayloadTooLargeError payload_size (unit_of text))
    | Raise e => raise e
    end
  else ret tt.

(** The [if]/[elif] chain on the status code, below the history update. *)
Definition classify_response (webhook_type : string) (status_code : Z)
  (text : string) (data : Dict) : M World (bool * Message * Dict) :=
  if (status_code =? 200)%Z then
    run stats_incr webhook_type CSuccess;
    do name <- content_type_name webhook_type;
    ret (true, MsgSent name, data)
  else if (status_code =? 429)%Z then
    run stats_incr webhook_type CErrors;
    ret (false, MsgServerRateLimited, data)
  else if (500 <=? status_code)%Z then
    run stats_incr webhook_type CErrors;
    ret (false, MsgServerError status_code, data)
  else if (400 <=? status_code)%Z then
    run stats_incr webhook_type CErrors;
    ret (false, MsgRequestError status_code (str_take 100 text), data)
  else
    run stats_incr webhook_type CErrors;
    ret (false, MsgUnexpectedResponse status_code, data).

(** The [try] body from "Send request with retry logic" on: the retry
    loop, the history update and the classification of the response. *)
Definition deliver (webhook_type url : string) (payload : Payload)
  (payload_size : N) : M World (bool * Message * Dict) :=
  do '(status_code, text, attempt) <- retry_loop url payload attempts;
  do now <- datetime_now;
  let data :=
    response_data now webhook_type url status_code text payload_size attempt in
  run responses_insert0 data;
  run responses_keep20;
  classify_response webhook_type status_code text data.

(** The body of the [try] statement. *)
Definition send_body (webhook_type url : string) (payload : Payload)
  : M World (bool * Message * Dict) :=
  do user_id <- gets (λ w, default "anonymous" (user_name w));
  do '(rate_ok, rate_msg) <- rate_limiter_check user_id webhook_type;
  if negb rate_ok then raise (RateLimitError rate_msg) else
  do '(is_valid, validation_errors) <- validator_validate payload;
  if negb is_valid then raise (ValidationError validation_errors) else
  do payload <- validator_sanitize payload;
  do payload_size <- dumps_len payload;
  run check_payload_size payload_size;
  run stats_incr webhook_type CSent;
  deliver webhook_type url payload payload_size.

(** What every handler does once it has built its dictionary. *)
Definition record_error (webhook_type : string) (error_data : Dict)
  (msg : Message) : M World (bool * Message * Dict) :=
  run responses_insert0 error_data;
  run stats_incr webhook_type CErrors;
  run log_webhook_error webhook_type;
  ret (false, msg, error_data).

(** [payload_size if 'payload_size' in locals() else 0] *)
Definition local_payload_size (e : Exn) : Z :=
  match e with
  | PayloadTooLargeError n _ => Z.of_N n
  | _ => 0
  end.

(** The [except] clauses of [send_to_webhook], in source order.  The seventh
    names [json.JSONEncodeError], an attribute the [json] module does not
    have: evaluating it raises [AttributeError]. *)
Definition handlers (webhook_type url : string)
  : list (ExceptClause World (bool * Message * Dict)) :=
  [ (Ret CValidationError, λ e,
      do now <- datetime_now;
      record_error webhook_type
        [ ("error", VStr "Validation failed");
          ("timestamp", VTime now);
          ("webhook_type", VStr webhook_type);
          ("url", VStr url);
          ("validation_errors", VErrorsOf e);
          ("validation_passed", VBool false) ]
        (MsgValidationFailed e));
    (Ret CPayloadTooLargeError, λ e,
      do now <- datetime_now;
      record_error webhook_type
        [ ("error", VStr "Payload too large");
          ("timestamp", VTime now);
          ("webhook_type", VStr webhook_type);
          ("url", VStr url);
          ("payload_size", VInt (local_payload_size e)) ]
        (MsgPayloadTooLarge e));
    (Ret CRateLimitError, λ e,
      do now <- datetime_now;
      record_error webhook_type
        [ ("error", VStr "Rate limit exceeded");
          ("timestamp", VTime now);
          ("webhook_type", VStr webhook_type);
          ("url", VStr url) ]
        (MsgRateLimit e));
    (Ret CTimeout, λ e,
      do now <- datetime_now;
      record_error webhook_type
        [ ("error", VStr "Request timeout");
          ("timestamp", VTime now);
          ("webhook_type", VStr webhook_type);
          ("url", VStr url);
          ("timeout_duration", VInt 30) ]
        MsgTimedOut);
    (Ret CConnectionError, λ e,
      do now <- datetime_now;
      record_error webhook_type
        [ ("error", VStr "Connection error");
          ("timestamp", VTime now);
          ("webhook_type", VStr webhook_type);
          ("url", VStr url);
          ("connection_error", VExnStr e) ]
        MsgCouldNotConnect);
    (Ret CSSLError, λ e,
      do now <- datetime_now;
      record_error webhook_type
        [ ("error", VStr "SSL certificate error");
          ("timestamp", VTime now);
          ("webhook_type", VStr webhook_type);
          ("url", VStr url);
          ("ssl_error", VExnStr e) ]
        MsgSSL);
    (Raise (AttributeError "module 'json' has no attribute 'JSONEncodeError'"),
      λ e,
      do now <- datetime_now;
      record_error webhook_type
        [ ("error", VStr "JSON encoding error");
          ("timestamp", VTime now);
          ("webhook_type", VStr webhook_type);
          ("url", VStr url);
          ("json_error", VExnStr e) ]
        MsgJSONEncoding);
    (Ret CException, λ e,
      do now <- datetime_now;
      record_error webhook_type
        [ ("error", VStr "Unexpected error");
          ("timestamp", VTime now);
          ("webhook_type", VStr webhook_type);
          ("url", VStr url);
          ("exception_type", VStr (exn_type_name e));
          ("exception_message", VExnStr e);
          ("traceback", VTraceback) ]
        (MsgUnexpectedError e)) ].

Definition send_to_webhook (payload : Payload) (webhook_type : option string)
  : M World (bool * Message * Dict) :=
  do selected <- gets selected_webhook_type;
  let webhook_type := or_selected webhook_type selected in
  do url <- session_webhook_url webhook_type;
  try_except (send_body webhook_type url payload) (handlers webhook_type url).

(** *** [send_to_multiple_webhooks] *)

(** A value of the dictionary [send_to_multiple_webhooks] returns: the text
    under ['error'] when no type was given, otherwise the
    [{'success', 'message', 'data'}] dictionary of an endpoint. *)
Inductive FanVal : Type :=
| FanText (s : string)
| FanResult (ok : bool) (message : Message) (data : Dict).

(** [webhook_type in CONTENT_TYPES] *)
Definition in_content_types (webhook_type : string) : bool :=
  match assoc webhook_type CONTENT_TYPES with
  | Some _ => true
  | None => false
  end.

(** One turn of [for webhook_type in webhook_types]. *)
Definition fan_one (payload : Payload) (webhook_type : string)
  (results : gmap string FanVal) : M World (gmap string FanVal) :=
  try_except
    (if negb (in_content_types webhook_type) then
       ret (<[webhook_type :=
               FanResult false (MsgInvalidWebhookType webhook_type)
                 [("error", VStr "Invalid webhook type")]]> results)
     else
       do '(ok, message, data) <- send_to_webhook payload (Some webhook_type);
       ret (<[webhook_type := FanResult ok message data]> results))
    [ (Ret CException, λ e,
        run log_webhook_error webhook_type;
        ret (<[webhook_type :=
                FanResult false (MsgErrorSendingTo webhook_type e)
                  [ ("error", VExnStr e);
                    ("exception_type", VStr (exn_type_name e)) ]]> results)) ].

Fixpoint fan_loop (payload : Payload) (webhook_types : list string)
  (results : gmap string FanVal) : M World (gmap string FanVal) :=
  match webhook_types with
  | [] => ret results
  | webhook_type :: rest =>
      do results <- fan_one payload webhook_type results;
      fan_loop payload rest results
  end.

(** The dictionary comprehension of the early return. *)
Definition uniform_failure (webhook_types : list string)
  (validation_errors : list string) : gmap string FanVal :=
  list_to_map
    (map (λ webhook_type,
            (webhook_type,
             FanResult false (MsgFanValidationFailed (take 3 validation_errors))
               [("validation_errors", VStrList validation_errors)]))
         webhook_types).

Definition send_to_multiple_webhooks (payload : Payload)
  (webhook_types : list string) : M World (gmap string FanVal) :=
  match webhook_types with
  | [] => ret {[ "error" := FanText "No webhook types specified" ]}
  | _ =>
      do '(is_valid, validation_errors) <- validator_validate payload;
      if negb is_valid then ret (uniform_failure webhook_types validation_errors)
      else fan_loop payload webhook_types ∅
  end.

(** *** Vocabulary of the statements about the dispatcher *)

(** [st.session_state.get('user_name', 'anonymous')] *)
Definition user_id (w : World) : string := default "anonymous" (user_name w).

(** The webhook type a call works with: the argument, or the selected type
    when the argument is [None] or empty. *)
Definition resolved (wt : option string) (w : World) : string :=
  or_selected wt (selected_webhook_type w).

(** The world after one [requests.post] to [url]. *)
Definition after_post (url : string) (w : World) : World :=
  with_event (EvPost url) w.

(** The world after [time.sleep(secs)]. *)
Definition slept (secs : Z) (w : World) : World :=
  with_event (EvSleep secs) (with_clock (λ t, t + seconds secs) w).

(** The exceptions the retry loop catches. *)
Definition retryable (e : Exn) : bool :=
  exn_isinstance e CTimeout || exn_isinstance e CConnectionError.

(** What evaluating [json.JSONEncodeError] raises. *)
Definition attribute_error : Exn :=
  AttributeError "module 'json' has no attribute 'JSONEncodeError'".

(** The record and message of the handler that catches [e], if one does:
    the table of the first six [except] clauses, read by exception. *)
Definition failure_record (now : Z) (webhook_type url : string) (e : Exn)
  : option (Dict * Message) :=
  let common label :=
    [ ("error", VStr label); ("timestamp", VTime now);
      ("webhook_type", VStr webhook_type); ("url", VStr url) ] in
  match e with
  | ValidationError _ =>
      Some (common "Validation failed" ++
              [("validation_errors", VErrorsOf e); ("validation_passed", VBool false)],
            MsgValidationFailed e)
  | PayloadTooLargeError n _ =>
      Some (common "Payload too large" ++ [("payload_size", VInt (Z.of_N n))],
            MsgPayloadTooLarge e)
  | RateLimitError _ => Some (common "Rate limit exceeded", MsgRateLimit e)
  | Timeout =>
      Some (common "Request timeout" ++ [("timeout_duration", VInt 30)], MsgTimedOut)
  | ConnectionError _ | SSLError _ =>
      Some (common "Connection error" ++ [("connection_error", VExnStr e)],
            MsgCouldNotConnect)
  | _ => None
  end.

(** The world after a handler recorded [d] for an endpoint whose counters
    were [s]. *)
Definition recorded (webhook_type : string) (d : Dict) (s : Stats) (w : World)
  : World :=
  with_event (EvLogError webhook_type)
    (with_stats (λ m, <[webhook_type := bump CErrors s]> m)
       (with_responses (λ l, d :: l) w)).

(** The world after the four gates were evaluated. *)
Definition gated (wt : string) (w : World) : World :=
  with_event EvDumps
    (with_event EvSanitize
       (with_event EvValidate (with_event (EvRateCheck (user_id w) wt) w))).

(** The record of a response and the world after the history update. *)
Definition answered (wt url : string) (n : N) (status_code : Z) (text : string)
  (attempt : Z) (w : World) : Dict * World :=
  let data := response_data (clock w) wt url status_code text n attempt in
  (data, with_responses (λ l, take 20 (data :: l)) w).

(** The world after a call whose first request was answered; [c] is the
    counter the answer bumps. *)
Definition answered_world (wt url : string) (s : Stats) (data : Dict)
  (c : Counter) (w : World) : World :=
  with_stats (λ m, <[wt := bump c (bump CSent s)]> m)
    (with_responses (λ l, take 20 (data :: l))
       (after_post url
          (with_stats (λ m, <[wt := bump CSent s]> m) (gated wt w)))).

(** The message for a response whose status is not 200. *)
Definition response_message (status_code : Z) (text : string) : Message :=
  if (status_code =? 429)%Z then MsgServerRateLimited
  else if (500 <=? status_code)%Z then MsgServerError status_code
  else if (400 <=? status_code)%Z then
    MsgRequestError status_code (str_take 100 text)
  else MsgUnexpectedResponse status_code.

(** The record of the [requests.exceptions.Timeout] handler. *)
Definition timeout_record (now : Z) (wt url : string) : Dict :=
  [ ("error", VStr "Request timeout");
    ("timestamp", VTime now);
    ("webhook_type", VStr wt);
    ("url", VStr url);
    ("timeout_duration", VInt 30) ].

(** The events the retry loop may add. *)
Definition loop_event (url : string) (e : Event) : Prop :=
  match e with
  | EvPost url' => url' = url
  | EvSleep _ => True
  | _ => False
  end.

(** The gates and sends among the events, without sleeps and log lines. *)
Definition is_gate (e : Event) : bool :=
  match e with
  | EvSleep _ | EvLogError _ => false
  | _ => true
  end.

(** The number of calls of the validator among the events. *)
Definition is_validate (e : Event) : bool :=
  match e with EvValidate => true | _ => false end.

Definition validations_in (l : list Event) : nat :=
  length (filter (λ e, is_validate e = true) l).

(** What the transport answered to each [EvPost] of [new], the events a
    call added to [seen], for the payload [q] it sent. *)
Fixpoint post_outcomes (seen new : list Event) (q : Payload)
  : list HttpOutcome :=
  match new with
  | [] => []
  | e :: rest =>
      match e with
      | EvPost url => [requests_post seen url q]
      | _ => []
      end ++ post_outcomes (seen ++ [e]) rest q
  end.

(** Every attempt that was followed by another one failed with an
    exception the loop retries. *)
Definition only_last_may_differ (outs : list HttpOutcome) : Prop :=
  ∀ i o, outs !! i = Some o → (S i < length outs)%nat →
         ∃ e, o = Failed e ∧ retryable e = true.

(** The gate events of a call, by the answers of the collaborators. *)
Definition gates_run (p : Payload) (wt : string) (w : World) : list Event :=
  EvRateCheck (user_id w) wt ::
  (if fst (check_rate_limit (events w) (user_id w) wt) then
     EvValidate ::
     (if fst (validate_webhook_payload p) then [EvSanitize; EvDumps] else [])
   else []).

(** The payload does not get through the size gate. *)
Definition size_gate_fails (p : Payload) : Prop :=
  match json_dumps_len (sanitize_payload p) with
  | Ret n => (10 * 1024 * 1024 < n)%N
  | Raise _ => True
  end.

(** Some gate refuses the call. *)
Definition gates_fail (p : Payload) (wt : string) (w : World) : Prop :=
  fst (check_rate_limit (events w) (user_id w) wt) = false ∨
  fst (validate_webhook_payload p) = false ∨
  size_gate_fails p.

(** Every gate lets the call through. *)
Definition gates_pass (p : Payload) (wt : string) (w : World) : Prop :=
  fst (check_rate_limit (events w) (user_id w) wt) = true ∧
  fst (validate_webhook_payload p) = true ∧
  ∃ n, json_dumps_len (sanitize_payload p) = Ret n ∧ (n ≤ 10 * 1024 * 1024)%N.

(** The serialised payload exceeds 10 MiB, and is smaller than 1 TiB, the
    sizes [format_file_size] has a unit for. *)
Definition oversized (p : Payload) : Prop :=
  ∃ n, json_dumps_len (sanitize_payload p) = Ret n ∧
       (10 * 1024 * 1024 < n < 2 ^ 40)%N.

(** The ['error'] text of the first gate, in the order of the code, that
    refuses the call. *)
Definition first_failed_gate (p : Payload) (wt : string) (w : World) : string :=
  if negb (fst (check_rate_limit (events w) (user_id w) wt)) then
    "Rate limit exceeded"
  else if negb (fst (validate_webhook_payload p)) then "Validation failed"
  else "Payload too large".

(** The order of the gates as the specification words it: validate,
    sanitize, size-check, rate-check, send. *)
Definition claimed_gate_order (user wt url : string) : list Event :=
  [ EvValidate; EvSanitize; EvDumps; EvRateCheck user wt;
    EvPost url; EvPost url; EvPost url ].

(** What a dispatch leaves untouched: the configured URLs, and which
    endpoints have counters. *)
Definition stable (w w' : World) : Prop :=
  webhook_urls w' = webhook_urls w ∧
  ∀ k, is_Some (webhook_stats w !! k) → is_Some (webhook_stats w' !! k).

Definition keeps {A} (c : M World A) : Prop := ∀ w, stable w (snd (c w)).

(** An endpoint result, as opposed to the ['error'] text. *)
Definition is_result (v : FanVal) : Prop :=
  match v with FanResult _ _ _ => True | FanText _ => False end.

(** The endpoint is configured, never throttled, and the payload gets
    through the size gate. *)
Definition endpoint_ready (p : Payload) (wt url : string) (w : World) : Prop :=
  webhook_urls w !! wt = Some url ∧
  is_Some (webhook_stats w !! wt) ∧
  (∀ seen u, fst (check_rate_limit seen u wt) = true) ∧
  ∃ n, json_dumps_len (sanitize_payload p) = Ret n ∧ (n ≤ 10 * 1024 * 1024)%N.

Definition always_answers_200 (p : Payload) (url : string) : Prop :=
  ∀ seen, ∃ text, requests_post seen url (sanitize_payload p) = Responded 200 text.

Definition always_times_out (p : Payload) (url : string) : Prop :=
  ∀ seen, requests_post seen url (sanitize_payload p) = Failed Timeout.

(** [n] calls of [send_to_webhook], one after the other. *)
Fixpoint send_many (n : nat) (payload : Payload) (webhook_type : string)
  : M World unit :=
  match n with
  | O => ret tt
  | S n' =>
      run send_to_webhook payload (Some webhook_type);
      send_many n' payload webhook_type
  end.


(** The number of requests among the events. *)
Definition posts_in (l : list Event) : nat :=
  length (filter (λ e, is_post e = true) l).


End Dispatcher.

(** The fallback collaborators [record.py] defines when [validation_utils]
    cannot be imported: every payload is valid, sanitising changes nothing
    and the rate limiter always agrees.  Serialisation and transport remain
    parameters. *)
Definition fallback {Payload : Type} (dumps : Payload → Res N)
  (transport : list Event → string → Payload → HttpOutcome)
  : Collaborators Payload :=
  {| validate_webhook_payload := λ _, (true, []);
     sanitize_payload := λ p, p;
     check_rate_limit := λ _ _ _, (true, "OK");
     json_dumps_len := dumps;
     requests_post := transport |}.

(** *** Collaborators of the examples: the payload is a text, serialised to
    as many bytes as it has *)

Definition text_len (p : string) : Res N := Ret (N.of_nat (String.length p)).

(** No request gets through. *)
Definition network_down : list Event → string → string → HttpOutcome :=
  λ _ _ _, Failed Timeout.

Definition offline : Collaborators string := fallback text_len network_down.

(** A validator and a rate limiter that both refuse. *)
Definition refusing : Collaborators string :=
  {| validate_webhook_payload := λ _, (false, ["content: field required"]);
     sanitize_payload := λ p, p;
     check_rate_limit := λ _ _ _, (false, "Too many requests");
     json_dumps_len := text_len;
     requests_post := network_down |}.

(** A payload [json.dumps] cannot serialise. *)
Definition unserialisable : Collaborators string :=
  fallback (λ _, Raise (TypeError "Object of type bytes is not JSON serializable"))
           network_down.

(** A transport failure that is neither a timeout nor a connection error. *)
Definition redirect_loop : Collaborators string :=
  fallback text_len
           (λ _ _ _, Failed (RequestException "Exceeded 30 redirects."))%string.

(** The first request times out, the endpoint then answers 503. *)
Definition flaky : Collaborators string :=
  fallback text_len
           (λ seen _ _, if existsb is_post seen then Responded 503 "busy"
                        else Failed Timeout).

Definition audio_url : string :=
  "https://agentonline-u29564.vm.elestio.app/webhook-test/audio-files".

Definition books_url : string :=
  "https://agentonline-u29564.vm.elestio.app/webhook-test/books-content".

(** The audio endpoint is unreachable, every other one answers 200. *)
Definition audio_down : Collaborators string :=
  fallback text_len
           (λ _ url _,
              if String.eqb url audio_url then Failed Timeout
              else Responded 200 "ok").


(** *** [render_webhook_stats] *)

(** [sum(stat[counter] for stat in stats.values())] *)
Definition total (counter : Stats → Z) (stats : gmap string Stats) : Z :=
  foldl (λ acc stat, acc + counter stat) 0 (snd <$> map_to_list stats).

(** The five metrics at the head of the statistics tab.  The rate is a
    rational standing for the float. *)
Record Metrics : Type := mkMetrics {
  total_sent : Z;
  total_success : Z;
  total_errors : Z;
  success_rate : Q;
  active_webhooks : nat
}.

(** [render_webhook_stats], down to the metrics grid; the listing of the
    endpoints below the grid shows the counters as they are. *)
Definition render_webhook_stats (w : World) : Metrics :=
  let stats := webhook_stats w in
  let total_sent := total sent stats in
  let total_success := total success stats in
  let total_errors := total errors stats in
  let success_rate :=
    if (0 <? total_sent)%Z
    then (inject_Z total_success / inject_Z total_sent * 100)%Q
    else 0%Q in
  mkMetrics total_sent total_success total_errors success_rate
    (length (filter (λ kv, (0 < sent (snd kv))%Z) (map_to_list stats))).

(** The counters of every endpoint are counts, and no endpoint counts more
    successes than requests. *)
Definition counters_sound (w : World) : Prop :=
  map_Forall (λ _ s, (0 ≤ success s ≤ sent s)%Z ∧ (0 ≤ errors s)%Z)
             (webhook_stats w).

(** *** [render_webhook_history] *)

Section History.

(** The texts and lists Python computes from an exception, the ISO text of
    a clock reading and the text of the traceback: values the records hold
    and the dispatcher never looks into. *)
Context (exn_str : Exn → string) (exn_errors : Exn → list string)
        (isoformat : Z → string) (format_exc : string).

(** The text of a stored value that is a [str]. *)
Definition text_of (v : PyVal) : option string :=
  match v with
  | VStr s => Some s
  | VTime t => Some (isoformat t)
  | VExnStr e => Some (exn_str e)
  | VTraceback => Some format_exc
  | VNone | VBool _ | VInt _ | VStrList _ | VErrorsOf _ => None
  end.

(** Truth value of a stored value. *)
Definition truthy (v : PyVal) : bool :=
  match v with
  | VNone => false
  | VBool b => b
  | VInt n => negb (n =? 0)%Z
  | VStrList l => match l with [] => false | _ :: _ => true end
  | VErrorsOf e => match exn_errors e with [] => false | _ :: _ => true end
  | VStr _ | VTime _ | VExnStr _ | VTraceback =>
      match text_of v with
      | Some s => negb (String.eqb s "")
      | None => false
      end
  end.

(** [r.get(key, default)] where a condition is expected. *)
Definition get_flag (key : string) (default : bool) (r : Dict) : bool :=
  match dict_get key r with
  | Some v => truthy v
  | None => default
  end.

(** [r.get('webhook_type') == filter_type] *)
Definition has_type (filter_type : string) (r : Dict) : bool :=
  match dict_get "webhook_type" r ≫= text_of with
  | Some s => String.eqb s filter_type
  | None => false
  end.

(** The choices of "Filter by status:". *)
Inductive StatusFilter : Type :=
| AllStatuses
| OnlySuccess
| OnlyError
| OnlyValidationFailed.

(** The conditions of the three list comprehensions on the status. *)
Definition has_status (filter_status : StatusFilter) (r : Dict) : bool :=
  match filter_status with
  | AllStatuses => true
  | OnlySuccess => get_flag "success" false r
  | OnlyError =>
      negb (get_flag "success" true r) && get_flag "validation_passed" true r
  | OnlyValidationFailed => negb (get_flag "validation_passed" true r)
  end.

(** [filtered_responses]; [filter_type] is [None] for the choice 'All'. *)
Definition filter_responses (filter_type : option string)
  (filter_status : StatusFilter) (responses : list Dict) : list Dict :=
  let by_type :=
    match filter_type with
    | None => responses
    | Some t => filter (λ r, has_type t r = true) responses
    end in
  filter (λ r, has_status filter_status r = true) by_type.

(** The status a card shows. *)
Inductive CardStatus : Type := CardSuccess | CardValidationFailed | CardError.

(** The [if]/[elif]/[else] that picks [status_text]. *)
Definition status_text (response : Dict) : CardStatus :=
  if get_flag "success" false response then CardSuccess
  else if negb (get_flag "validation_passed" true response)
       then CardValidationFailed
  else CardError.

(** The four numbers under the cards. *)
Record Summary : Type := mkSummary {
  total_responses : Z;
  successful : Z;
  validation_failed : Z;
  other_errors : Z
}.

Definition count (cond : Dict → bool) (l : list Dict) : Z :=
  Z.of_nat (length (filter (λ r, cond r = true) l)).

(** The block under [if filtered_responses:]. *)
Definition summary (filtered_responses : list Dict) : option Summary :=
  match filtered_responses with
  | [] => None
  | _ :: _ =>
      let total_responses := Z.of_nat (length filtered_responses) in
      let successful := count (get_flag "success" false) filtered_responses in
      let validation_failed :=
        count (λ r, negb (get_flag "validation_passed" true r))
              filtered_responses in
      let errors := total_responses - successful in
      Some (mkSummary total_responses successful validation_failed
                      (errors - validation_failed))
  end.

(** [render_webhook_history]: nothing but a notice when the history is
    empty, otherwise a card with its status for each of the first fifteen
    filtered records, and the summary of all of them.  The texts inside the
    cards are left out. *)
Definition render_webhook_history (filter_type : option string)
  (filter_status : StatusFilter) (w : World)
  : option (list (Dict * CardStatus) * option Summary) :=
  match webhook_responses w with
  | [] => None
  | _ :: _ =>
      let filtered_responses :=
        filter_responses filter_type filter_status (webhook_responses w) in
      Some (map (λ response, (response, status_text response))
                (take 15 filtered_responses),
            summary filtered_responses)
  end.

Definition CardStatus_eqb (a b : CardStatus) : bool :=
  match a, b with
  | CardSuccess, CardSuccess
  | CardValidationFailed, CardValidationFailed
  | CardError, CardError => true
  | _, _ => false
  end.

(** The number of cards of a status among the records. *)
Definition cards_with (c : CardStatus) (l : list Dict) : Z :=
  count (λ r, CardStatus_eqb (status_text r) c) l.

(** A record the dispatcher writes: the one of a response, or the one of a
    handler. *)
Definition dispatch_made (d : Dict) : Prop :=
  (∃ now wt url status_code text n attempt,
      d = response_data now wt url status_code text n attempt) ∨
  (∃ now wt url e m, failure_record now wt url e = Some (d, m)).

End History.

(** *** Texts for the examples *)

(** The text of an exception, taken to be the name of its type, and no
    error list. *)
Definition plain_str (e : Exn) : string := exn_type_name e.

Definition no_errors (e : Exn) : list string := [].

(** A clock reading as text, taken to be the same for every reading. *)
Definition flat_isoformat (t : Z) : string := "2024-05-01T12:00:00".
End record.

(** ** [utils/gsheet_manager.py]: the sheets manager

    The file is not part of the sources at hand: the page only imports
    [get_sheets_manager] from it.  The manager is modelled from sections 3
    and 4.1 of the specification. *)

Module gsheet_manager.

(** A cell of a sheet.  A date is kept as its ISO text, which is also what
    [strftime("%Y-%m-%d")] returns for it; a number is a rational standing
    for the float. *)
Inductive Cell : Type :=
| CellNone
| CellStr (s : string)
| CellNum (q : Q)
| CellDate (iso : string).

(** A [DataFrame]: "ordered sequence of rows", the cells of a row in the
    order of the columns. *)
Record Table : Type := mkTable {
  columns : list string;
  rows : list (list Cell)
}.

(** [df.empty]: some axis has length zero. *)
Definition empty (t : Table) : bool :=
  match columns t, rows t with
  | _ :: _, _ :: _ => false
  | _, _ => true
  end.

(** Modelled from the spec: the cache key of [utils/gsheet_manager.py],
    "composite of (source identifier, worksheet/collection name)". *)
Abbreviation Key := (string * option string)%type.

(** Modelled from the spec: the cache entry of [utils/gsheet_manager.py],
    "value: a tabular dataset; fetched_at: timestamp". *)
Record CacheEntry : Type := mkEntry { value : Table; fetched_at : Z }.

(** Modelled from the spec: the requests [utils/gsheet_manager.py] sends to
    the remote source, "read-all-rows, append-row, replace-all-rows". *)
Inductive RemoteCall : Type :=
| ReadAllRows (k : Key)
| AppendOneRow (k : Key)
| ReplaceAllRows (k : Key).

(** Modelled from the spec: the manager object of
    [utils/gsheet_manager.py] with the remote source it talks to: its cache,
    the worksheets that exist remotely, whether the remote answers at all,
    and the requests sent so far. *)
Record Manager : Type := mkManager {
  cache : gmap Key CacheEntry;
  remote : gmap Key Table;
  online : bool;
  remote_calls : list RemoteCall
}.

Definition with_cache (f : gmap Key CacheEntry → gmap Key CacheEntry)
  (m : Manager) : Manager :=
  mkManager (f (cache m)) (remote m) (online m) (remote_calls m).

Definition with_remote (f : gmap Key Table → gmap Key Table) (m : Manager)
  : Manager :=
  mkManager (cache m) (f (remote m)) (online m) (remote_calls m).

Definition with_call (c : RemoteCall) (m : Manager) : Manager :=
  mkManager (cache m) (remote m) (online m) (remote_calls m ++ [c]).

(** Modelled from the spec: the cache TTL of [utils/gsheet_manager.py],
    "TTL = 300s observed". *)
Definition TTL : Z := seconds 300.

(** Modelled from the spec: the freshness test of the manager, "an entry is
    considered fresh while [now - fetched_at < TTL]". *)
Definition fresh (now : Z) (e : CacheEntry) : bool := (now - fetched_at e <? TTL)%Z.

Definition is_space (c : ascii) : bool :=
  let n := nat_of_ascii c in
  ((n =? 32) || ((9 <=? n) && (n <=? 13)))%nat.

Fixpoint lstrip (s : string) : string :=
  match s with
  | String c s' => if is_space c then lstrip s' else s
  | EmptyString => EmptyString
  end.

Fixpoint rstrip (s : string) : string :=
  match s with
  | String c s' =>
      match rstrip s' with
      | EmptyString => if is_space c then EmptyString else String c EmptyString
      | rest => String c rest
      end
  | EmptyString => EmptyString
  end.

(** Modelled from the spec: header normalisation of the manager's read,
    "normalize column headers (trim whitespace)". *)
Definition normalize (t : Table) : Table :=
  mkTable (map (λ h, rstrip (lstrip h)) (columns t)) (rows t).

(** Modelled from the spec: the fetch of [utils/gsheet_manager.py], the
    read-all-rows request, which fails with a [DataSourceError] when the
    remote does not answer or has no such worksheet. *)
Definition remote_read (k : Key) : M Manager Table :=
  run modify (with_call (ReadAllRows k));
  do m <- gets id;
  match online m, remote m !! k with
  | true, Some t => ret t
  | _, _ => raise (DataSourceError "read failed")
  end.

(** Modelled from the spec: [get_sheet_data] of [utils/gsheet_manager.py],
    "if [useCache] and a fresh entry exists for (sourceId, worksheetName),
    return it.  Otherwise fetch from the remote source, normalize column
    headers, store as new cache entry keyed by (sourceId, worksheetName),
    return it.  On fetch failure, propagate a [DataSourceError]". *)
Definition get_sheet_data (now : Z) (sheet_id : string)
  (worksheet_name : option string) (use_cache : bool) : M Manager Table :=
  let k : Key := (sheet_id, worksheet_name) in
  let refetch :=
      do t <- remote_read k;
      let t := normalize t in
      run modify (with_cache (λ c, <[k := mkEntry t now]> c));
      ret t in
  do cached <- gets (λ m, cache m !! k);
  match cached with
  | Some e =>
      if use_cache && fresh now e then ret (value e) else refetch
  | None => refetch
  end.

(** Modelled from the spec: invalidation in [utils/gsheet_manager.py], "if
    key given, drop that entry; if omitted, drop all entries". *)
Definition invalidate (k : option Key) : M Manager unit :=
  match k with
  | Some k => modify (with_cache (λ c, delete k c))
  | None => modify (with_cache (λ _, ∅))
  end.

(** Modelled from the spec: [clear_cache] of [utils/gsheet_manager.py], the
    "explicit clear cache command (drops all entries)". *)
Definition clear_cache : M Manager unit := invalidate None.

(** Modelled from the spec: [append_row] of [utils/gsheet_manager.py],
    "appends one row to the remote source; on success, invalidates the
    corresponding cache entry so the next [get] re-fetches.  Returns false
    (not an exception) on any remote failure". *)
Definition append_row (sheet_id : string) (row : list Cell)
  (worksheet_name : option string) : M Manager bool :=
  let k : Key := (sheet_id, worksheet_name) in
  run modify (with_call (AppendOneRow k));
  do m <- gets id;
  match online m, remote m !! k with
  | true, Some t =>
      run modify (with_remote
                    (λ r, <[k := mkTable (columns t) (rows t ++ [row])]> r));
      run invalidate (Some k);
      ret true
  | _, _ => ret false
  end.

(** Modelled from the spec: [update_sheet_data] of
    [utils/gsheet_manager.py], "replaces the remote table contents wholesale
    with the given table; same invalidate-on-success contract". *)
Definition update_sheet_data (sheet_id : string) (table : Table)
  (worksheet_name : option string) : M Manager bool :=
  let k : Key := (sheet_id, worksheet_name) in
  run modify (with_call (ReplaceAllRows k));
  do m <- gets id;
  match online m, remote m !! k with
  | true, Some _ =>
      run modify (with_remote (λ r, <[k := table]> r));
      run invalidate (Some k);
      ret true
  | _, _ => ret false
  end.

(** Modelled from the spec: [get_cache_info] of [utils/gsheet_manager.py],
    the introspection "[cacheInfo() -> {count, oldestFetchedAt}]". *)
Definition get_cache_info (m : Manager) : nat * option Z :=
  (size (cache m),
   map_fold (λ _ e oldest,
               match oldest with
               | None => Some (fetched_at e)
               | Some t => Some (Z.min t (fetched_at e))
               end) None (cache m)).

(** *** Vocabulary of the statements about the manager *)

(** No entry a cached read at [now] could use. *)
Definition stale_or_absent (now : Z) (k : Key) (m : Manager) : Prop :=
  match cache m !! k with
  | Some e => fresh now e = false
  | None => True
  end.

(** What a read does when it goes to the remote source. *)
Definition refetched (now : Z) (k : Key) (m : Manager) : Res Table * Manager :=
  match online m, remote m !! k with
  | true, Some t =>
      (Ret (normalize t),
       with_cache (λ c, <[k := mkEntry (normalize t) now]> c)
                  (with_call (ReadAllRows k) m))
  | _, _ => (Raise (DataSourceError "read failed"), with_call (ReadAllRows k) m)
  end.

(** *** A sheet for the examples *)

Definition sample_table : Table :=
  mkTable ["Project Name "; " Status"; "Start Date"; "Due Date"]
          [ [ CellStr "Website Redesign"; CellStr "In Progress";
              CellStr "2024-01-01"; CellStr "2024-06-30" ] ].

Definition sample_row : list Cell :=
  [ CellStr "P1"; CellStr "Not Started"; CellStr "2024-01-01";
    CellStr "2024-02-01" ].

(** Nothing cached yet. *)
Definition cold_manager : Manager :=
  mkManager ∅ {[ ("sheet1", None) := sample_table ]} true [].

(** The sheet was read at time 0. *)
Definition warm_manager : Manager :=
  mkManager {[ ("sheet1", None) := mkEntry (normalize sample_table) 0 ]}
            {[ ("sheet1", None) := sample_table ]} true [].

(** Nothing cached, and the remote source does not answer. *)
Definition down_manager : Manager :=
  mkManager ∅ {[ ("sheet1", None) := sample_table ]} false [].

End gsheet_manager.

(** ** [pages/10_Project_Management.py] *)

Module project_management.

Import gsheet_manager.

(** The session-state keys of the page.  The outer [option] is the presence
    of the key, the inner one of [project_data] and
    [project_last_auto_load] is Python's [None]. *)
Record Session : Type := mkSession {
  project_auto_load_enabled : option bool;
  project_data : option (option Table);
  project_last_auto_load : option (option Z);
  project_sheet_url : option string;
  project_worksheet_name : option string
}.

(** Calls of the page into the sheets manager. *)
Inductive ManagerCall : Type :=
| CallGetSheetData (sheet_id : string) (worksheet_name : option string)
    (use_cache : bool)
| CallClearCache
| CallAppendRow (sheet_id : string) (row : list Cell)
    (worksheet_name : option string)
| CallUpdateSheetData (sheet_id : string) (table : Table)
    (worksheet_name : option string).

(** The texts the page shows, one constructor per message of the source. *)
Inductive Notice : Type :=
| AutoLoaded (records : nat)
| AutoLoadEmpty
| AutoLoadFailed (e : Exn)
| NoSheetUrl
| Reloaded (records : nat)
| ReloadEmpty
| ReloadFailed (e : Exn)
| NoProjectData
| MissingFields (fields : list string)
| ProjectAdded
| AddFailed
| AddError (e : Exn)
| ChangesSaved
| SaveFailed
| SaveError (e : Exn).

Inductive Ui : Type :=
| StError (n : Notice)
| StWarning (n : Notice)
| StSuccess (n : Notice).

Record World : Type := mkWorld {
  session : Session;
  manager : Manager;
  clock : Z;
  shown : list Ui;
  calls : list ManagerCall
}.

Definition with_session (f : Session → Session) (w : World) : World :=
  mkWorld (f (session w)) (manager w) (clock w) (shown w) (calls w).

Definition set_project_data (df : Table) (s : Session) : Session :=
  mkSession (project_auto_load_enabled s) (Some (Some df))
            (project_last_auto_load s) (project_sheet_url s)
            (project_worksheet_name s).

Definition set_project_last_auto_load (t : Z) (s : Session) : Session :=
  mkSession (project_auto_load_enabled s) (project_data s) (Some (Some t))
            (project_sheet_url s) (project_worksheet_name s).

(** Time passing between two script runs. *)
Definition elapse (dt : Z) (w : World) : World :=
  mkWorld (session w) (manager w) (clock w + dt) (shown w) (calls w).

Definition show (u : Ui) : M World unit :=
  modify (λ w, mkWorld (session w) (manager w) (clock w) (shown w ++ [u])
                       (calls w)).

Definition datetime_now : M World Z := gets clock.

Definition time_sleep (secs : Z) : M World unit :=
  modify (elapse (seconds secs)).

(** A method call on [sheets_manager]: it is noted, then run on the
    manager. *)
Definition call {A} (c : ManagerCall) (method : M Manager A) : M World A :=
  λ w, let '(r, m) := method (manager w) in
       (r, mkWorld (session w) m (clock w) (shown w) (calls w ++ [c])).

Definition sheets_get_sheet_data (sheet_id : string)
  (worksheet_name : option string) (use_cache : bool) : M World Table :=
  do now <- datetime_now;
  call (CallGetSheetData sheet_id worksheet_name use_cache)
       (get_sheet_data now sheet_id worksheet_name use_cache).

Definition sheets_clear_cache : M World unit := call CallClearCache clear_cache.

Definition sheets_append_row (sheet_id : string) (row : list Cell)
  (worksheet_name : option string) : M World bool :=
  call (CallAppendRow sheet_id row worksheet_name)
       (append_row sheet_id row worksheet_name).

Definition sheets_update_sheet_data (sheet_id : string) (table : Table)
  (worksheet_name : option string) : M World bool :=
  call (CallUpdateSheetData sheet_id table worksheet_name)
       (update_sheet_data sheet_id table worksheet_name).

(** [st.session_state.get('project_sheet_url', '')] and
    [st.session_state.get('project_worksheet_name', '')] *)
Definition configured_sheet : M World (string * string) :=
  gets (λ w, (default "" (project_sheet_url (session w)),
              default "" (project_worksheet_name (session w)))).

(** [worksheet_name if worksheet_name else None] *)
Definition or_none (worksheet_name : string) : option string :=
  if String.eqb worksheet_name "" then None else Some worksheet_name.

(** The condition guarding the five-minute shortcut of
    [auto_load_project_data]: both keys are present and truthy; a
    [datetime] is always truthy. *)
Definition loaded_at (s : Session) : option Z :=
  match project_data s, project_last_auto_load s with
  | Some (Some _), Some (Some t) => Some t
  | _, _ => None
  end.

Definition auto_load_project_data : M World unit :=
  try_except
    (do enabled <- gets (λ w, default true
                                (project_auto_load_enabled (session w)));
     if negb enabled then ret tt else
     do last <- gets (λ w, loaded_at (session w));
     do now <- datetime_now;
     if match last with
        | Some t => (now - t <? seconds 300)%Z
        | None => false
        end
     then ret tt else
     do '(sheet_url, worksheet_name) <- configured_sheet;
     if String.eqb sheet_url "" then ret tt else
     do df <- sheets_get_sheet_data sheet_url (or_none worksheet_name) true;
     if negb (empty df) then
       run modify (with_session (set_project_data df));
       do now <- datetime_now;
       run modify (with_session (set_project_last_auto_load now));
       run show (StSuccess (AutoLoaded (length (rows df))));
       time_sleep 3
     else show (StWarning AutoLoadEmpty))
    [ (Ret CException, λ e, show (StError (AutoLoadFailed e))) ].

Definition force_reload_project_data : M World unit :=
  try_except
    (do '(sheet_url, worksheet_name) <- configured_sheet;
     if String.eqb sheet_url "" then show (StError NoSheetUrl) else
     run sheets_clear_cache;
     do df <- sheets_get_sheet_data sheet_url (or_none worksheet_name) false;
     if negb (empty df) then
       run modify (with_session (set_project_data df));
       do now <- datetime_now;
       run modify (with_session (set_project_last_auto_load now));
       run show (StSuccess (Reloaded (length (rows df))));
       raise RerunException
     else show (StError ReloadEmpty))
    [ (Ret CException, λ e, show (StError (ReloadFailed e))) ].

(** *** The Add Project form *)

(** The classes of cells, as far as [isinstance] needs them. *)
Inductive PyType : Type := TNoneType | TStr | TFloat | TDate.

Definition type_of (c : Cell) : PyType :=
  match c with
  | CellNone => TNoneType
  | CellStr _ => TStr
  | CellNum _ => TFloat
  | CellDate _ => TDate
  end.

Definition PyType_eqb (a b : PyType) : bool :=
  match a, b with
  | TNoneType, TNoneType | TStr, TStr | TFloat, TFloat | TDate, TDate => true
  | _, _ => false
  end.

(** An object in the second argument of [isinstance]: a class, or
    something that is not a class. *)
Inductive ClassInfo : Type :=
| AClass (t : PyType)
| MethodDescriptor (qualname : string).

(** [isinstance(value, classinfo)]: a [TypeError] unless [classinfo] is a
    class. *)
Definition isinstance (value : Cell) (classinfo : ClassInfo) : Res bool :=
  match classinfo with
  | AClass t => Ret (PyType_eqb (type_of value) t)
  | MethodDescriptor _ =>
      Raise (TypeError
               "isinstance() arg 2 must be a type, a tuple of types, or a union")
  end.

(** [datetime.date] in this file, where [datetime] is the class bound by
    [from datetime import datetime]: its method [date], not the class
    [date] of the module. *)
Definition datetime_date : ClassInfo := MethodDescriptor "datetime.date".

(** [value.strftime("%Y-%m-%d")] *)
Definition strftime (value : Cell) : Cell :=
  match value with
  | CellDate iso => CellStr iso
  | other => other
  end.

(** Truthiness of a form value. *)
Definition truthy (c : Cell) : bool :=
  match c with
  | CellNone => false
  | CellStr s => negb (String.eqb s "")
  | CellNum q => negb (Qeq_bool q 0)
  | CellDate _ => true
  end.

(** [form_data], filled with one widget value per column of the frame. *)
Definition fill_form (widget : string → Cell) (cols : list string)
  : gmap string Cell :=
  foldl (λ form_data col, <[col := widget col]> form_data) ∅ cols.

Definition required_fields : list string :=
  ["Project Name"; "Status"; "Start Date"; "Due Date"].

(** [[field for field in required_fields if not form_data.get(field)]] *)
Definition missing_fields (form_data : gmap string Cell) : list string :=
  filter (λ field, ¬ (truthy (default CellNone (form_data !! field)) = true))
         required_fields.

(** The loop building [new_row]. *)
Fixpoint build_row (form_data : gmap string Cell) (cols : list string)
  (new_row : list Cell) : M World (list Cell) :=
  match cols with
  | [] => ret new_row
  | col :: rest =>
      let value := default (CellStr "") (form_data !! col) in
      match isinstance value datetime_date with
      | Raise e => raise e
      | Ret is_date =>
          let value := if is_date then strftime value else value in
          build_row form_data rest (new_row ++ [value])
      end
  end.

(** The [if submitted:] block.  The page hands the configured worksheet
    name to [append_row] as it is, also when it is empty. *)
Definition submit_add_project (df : Table) (form_data : gmap string Cell)
  : M World unit :=
  match missing_fields form_data with
  | (_ :: _) as missing => show (StError (MissingFields missing))
  | [] =>
      try_except
        (do new_row <- build_row form_data (columns df) [];
         do '(sheet_url, worksheet_name) <- configured_sheet;
         do added <- sheets_append_row sheet_url new_row (Some worksheet_name);
         if added then
           run show (StSuccess ProjectAdded);
           run sheets_clear_cache;
           run time_sleep 1;
           force_reload_project_data
         else show (StError AddFailed))
        [ (Ret CException, λ e, show (StError (AddError e))) ]
  end.

(** [render_add_project_tab], with what the user did in this script run:
    whether "Try Loading Data Now" was pressed, the value left in the widget
    of each column, and whether the form was submitted. *)
Definition render_add_project_tab (try_loading : bool)
  (widget : string → Cell) (submitted : bool) : M World unit :=
  do data <- gets (λ w, project_data (session w));
  match data with
  | Some (Some df) =>
      let form_data := fill_form widget (columns df) in
      if submitted then submit_add_project df form_data else ret tt
  | _ =>
      run show (StWarning NoProjectData);
      if try_loading then force_reload_project_data else ret tt
  end.

(** [save_project_changes]; [full_df] is the copy of the loaded frame with
    the edited rows written back by pandas. *)
Definition save_project_changes (merge : Table → Table)
  : M World unit :=
  try_except
    (do data <- gets (λ w, project_data (session w));
     match data with
     | Some (Some df) =>
         let full_df := merge df in
         do '(sheet_url, worksheet_name) <- configured_sheet;
         do saved <- sheets_update_sheet_data sheet_url full_df
                       (Some worksheet_name);
         if saved then
           run modify (with_session (set_project_data full_df));
           do now <- datetime_now;
           run modify (with_session (set_project_last_auto_load now));
           show (StSuccess ChangesSaved)
         else show (StError SaveFailed)
     | _ => raise (AttributeError "copy")
     end)
    [ (Ret CException, λ e, show (StError (SaveError e))) ].

(** *** Script runs for the examples *)

(** The first run after the sheet was configured. *)
Definition first_run : World :=
  mkWorld (mkSession (Some true) None (Some None) (Some "sheet1") (Some ""))
          cold_manager 0 [] [].

(** A run ten seconds after the sheet was loaded. *)
Definition loaded_run : World :=
  mkWorld (mkSession (Some true) (Some (Some (normalize sample_table)))
                     (Some (Some 0)) (Some "sheet1") (Some ""))
          warm_manager (seconds 10) [] [].

(** A filled-in form. *)
Definition sample_widget (col : string) : Cell :=
  if String.eqb col "Start Date" || String.eqb col "Due Date"
  then CellDate "2024-05-01" else CellStr "Launch".


(** *** Configuration defaults *)

Definition set_project_sheet_url (url : string) (s : Session) : Session :=
  mkSession (project_auto_load_enabled s) (project_data s)
            (project_last_auto_load s) (Some url) (project_worksheet_name s).

Definition set_project_worksheet_name (name : string) (s : Session) : Session :=
  mkSession (project_auto_load_enabled s) (project_data s)
            (project_last_auto_load s) (project_sheet_url s) (Some name).

Definition set_project_auto_load_enabled (b : bool) (s : Session) : Session :=
  mkSession (Some b) (project_data s) (project_last_auto_load s)
            (project_sheet_url s) (project_worksheet_name s).

(** [st.session_state.project_last_auto_load = None] *)
Definition clear_project_last_auto_load (s : Session) : Session :=
  mkSession (project_auto_load_enabled s) (project_data s) (Some None)
            (project_sheet_url s) (project_worksheet_name s).

(** [if key not in st.session_state: st.session_state.key = value] *)
Definition unless_present {A} (key : Session → option A)
  (assign : Session → Session) : M World unit :=
  do present <- gets (λ w, key (session w));
  match present with
  | Some _ => ret tt
  | None => modify (with_session assign)
  end.

Definition initialize_default_config : M World unit :=
  run unless_present project_sheet_url (set_project_sheet_url "");
  run unless_present project_worksheet_name (set_project_worksheet_name "");
  run unless_present project_auto_load_enabled (set_project_auto_load_enabled true);
  unless_present project_last_auto_load clear_project_last_auto_load.

(** *** The pager of the project list *)

(** [(len(filtered_df) - 1) // page_size + 1]; [//] rounds towards minus
    infinity, as [Z.div] does. *)
Definition total_pages (len page_size : Z) : Z := (len - 1) / page_size + 1.

(** The position Python's slicing uses for the bound [i] of a sequence of
    length [len]. *)
Definition slice_bound (len i : Z) : Z :=
  if (i <? 0)%Z then Z.max 0 (len + i) else Z.min i len.

(** [l[start:stop]], which is also what [df.iloc[start:stop]] does to the
    rows. *)
Definition slice {A} (l : list A) (start stop : Z) : list A :=
  let len := Z.of_nat (length l) in
  let a := slice_bound len start in
  let b := slice_bound len stop in
  take (Z.to_nat (b - a)) (drop (Z.to_nat a) l).

(** The rows of [display_df]; [page] is the choice in the "Page" box, which
    is only asked for when there is more than one page. *)
Definition display_rows {A} (filtered : list A) (page_size page : Z) : list A :=
  let total_pages := total_pages (Z.of_nat (length filtered)) page_size in
  if (1 <? total_pages)%Z then
    let start_idx := (page - 1) * page_size in
    let end_idx := start_idx + page_size in
    slice filtered start_idx end_idx
  else filtered.

(** [display_df] *)
Definition display_df (filtered_df : Table) (page_size page : Z) : Table :=
  mkTable (columns filtered_df) (display_rows (rows filtered_df) page_size page).

(** *** Vocabulary of the statements about the page *)


(** The session once every configuration key is present, an absent one
    with the value [initialize_default_config] gives it. *)
Definition with_defaults (s : Session) : Session :=
  mkSession (Some (default true (project_auto_load_enabled s))) (project_data s)
            (Some (default None (project_last_auto_load s)))
            (Some (default "" (project_sheet_url s)))
            (Some (default "" (project_worksheet_name s))).

(** The sheet the page is configured for, as the loaders address it. *)
Definition configured_key (w : World) : Key :=
  (default "" (project_sheet_url (session w)),
   or_none (default "" (project_worksheet_name (session w)))).

(** The three conditions under which [auto_load_project_data] returns at
    once. *)
Definition auto_load_skips (w : World) : Prop :=
  project_auto_load_enabled (session w) = Some false ∨
  (∃ t, loaded_at (session w) = Some t ∧ (clock w - t < seconds 300)%Z) ∨
  default "" (project_sheet_url (session w)) = "".

(** The world with one more message on the page. *)
Definition noting (u : Ui) (w : World) : World :=
  mkWorld (session w) (manager w) (clock w) (shown w ++ [u]) (calls w).

(** The first run of a new session: no key is in the session state. *)
Definition unconfigured_run : World :=
  mkWorld (mkSession None None None None None) cold_manager 0 [] [].

(** A run ten seconds after the worksheet "Projects" was loaded. *)
Definition named_run : World :=
  mkWorld (mkSession (Some true) (Some (Some (normalize sample_table)))
                     (Some (Some 0)) (Some "sheet1") (Some "Projects"))
          (mkManager ∅ {[ ("sheet1", Some "Projects") := sample_table ]} true [])
          (seconds 10) [] [].

(** The rows of the examples of the pager. *)
Definition sixty_rows : list nat := seq 0 60.
End project_management.

(** ** [pages/9_Call_Center.py] *)

Module call_center.

(** What [readable_sec] returns: the text [mm:ss], the text [h:mm:ss], or
    [str(seconds)] when the argument is no number. *)
Inductive Readable : Type :=
| MinSec (m s : Z)
| HourMinSec (h m s : Z)
| AsGiven.

(** [readable_sec]; the argument is the value of [int(float(seconds))],
    [None] when that conversion raises.  [//] and [%] round towards minus
    infinity, as [Z.div] and [Z.modulo] do. *)
Definition readable_sec (seconds : option Z) : Readable :=
  match seconds with
  | None => AsGiven
  | Some seconds =>
      let h := seconds / 3600 in
      let m := (seconds mod 3600) / 60 in
      let s := seconds mod 60 in
      if (h =? 0)%Z then MinSec m s else HourMinSec h m s
  end.

Definition SUPPORTED_AUDIO_EXTS : list string :=
  ["mp3"; "wav"; "ogg"; "flac"; "aac"; "m4a"; "webm"; "oga"].

(** [c in s] for a one-character [c] *)
Fixpoint contains (c : ascii) (s : string) : bool :=
  match s with
  | EmptyString => false
  | String a rest => Ascii.eqb a c || contains c rest
  end.

(** [s.split(c)[-1]]: what follows the last [c], and all of [s] when it
    has none. *)
Fixpoint after_last (c : ascii) (s : string) : string :=
  match s with
  | EmptyString => EmptyString
  | String a rest =>
      if contains c rest then after_last c rest
      else if Ascii.eqb a c then rest
      else s
  end.

Section Audio.

(** [str.lower] *)
Context (lower : string → string).

(** [url.split("/")[-1] if "/" in url else url] *)
Definition filename_of (url : string) : string :=
  if contains "/" url then after_last "/" url else url.

(** [filename.split(".")[-1].lower() if "." in filename else None] *)
Definition ext_of (filename : string) : option string :=
  if contains "." filename then Some (lower (after_last "." filename)) else None.

(** What the recordings tab does with a row that has a URL: it hands the
    URL to [st.audio], or warns about the format. *)
Inductive Player : Type :=
| Play (url : string)
| UnsupportedFormat (ext : string).

Definition audio_player (url : string) : Player :=
  let filename := filename_of url in
  match ext_of filename with
  | None => Play url
  | Some ext =>
      if existsb (String.eqb ext) SUPPORTED_AUDIO_EXTS then Play url
      else UnsupportedFormat ext
  end.

End Audio.

(** *** Texts for the examples *)

(** [str.lower] on ASCII letters. *)
Definition lower_letter (c : ascii) : ascii :=
  let n := nat_of_ascii c in
  if ((65 <=? n) && (n <=? 90))%nat then ascii_of_nat (n + 32) else c.

Fixpoint lower_ascii (s : string) : string :=
  match s with
  | EmptyString => EmptyString
  | String c rest => String (lower_letter c) (lower_ascii rest)
  end.

End call_center.

(** ** [pages/gitagent.py] *)

Module gitagent.

(** What the script does outside the process, in order. *)
Inductive Call : Type :=
| PostRepo (token name : string)
| ReadMessage
| Mkdtemp
| Mkdir (path : string)
| WriteZip (path : string)
| OpenZip (path : string)
| Extract (member folder : string)
| RepoInit (folder : string)
| GitConfig (key value : string)
| GitAddAll
| Commit (message : string)
| ListRemotes
| CreateRemote (url : string)
| SetUrl (url : string)
| Push (refspec : string).

(** What the page shows. *)
Inductive Shown : Type :=
| WarnIncomplete
| RepoCreationFailed (message : option string)
| RepoCreated
| Pushed
| ViewLink (url : string)
| ErrorShown (e : Exn).

(** The upload: its name and the members of the archive. *)
Record Zip : Type := mkZip { zip_name : string; namelist : list string }.

(** The environment of one run.  A call may raise; the request to GitHub
    answers with a status code, the body of the answer has a message or
    none, [mkdtemp] returns a path, and the folder may come out of the
    archive with an [origin] remote. *)
Class Environment : Type := {
  raises : Call → option Exn;
  status_code : Z;
  json_message : option string;
  tmpdir : string;
  has_origin : bool
}.

Record World : Type := mkWorld { calls : list Call; shown : list Shown }.

(** How the run ends: it ran to the end of the script, or [st.stop()]
    ended it. *)
Inductive Ending : Type := RanThrough | Stopped.

Section Script.

Context {env : Environment}.

(** [str.strip] and [os.path.join] *)
Context (strip : string → string) (path_join : string → string → string).

Definition call (c : Call) : M World unit :=
  run modify (λ w, mkWorld (calls w ++ [c]) (shown w));
  match raises c with
  | Some e => raise e
  | None => ret tt
  end.

Definition show (s : Shown) : M World unit :=
  modify (λ w, mkWorld (calls w) (shown w ++ [s])).

(** [s.replace(" ", "-")] *)
Fixpoint replace_spaces (s : string) : string :=
  match s with
  | EmptyString => EmptyString
  | String c rest =>
      String (if Ascii.eqb c " " then "-"%char else c) (replace_spaces rest)
  end.

(** [for member in zip_ref.namelist(): zip_ref.extract(member, repo_folder)] *)
Fixpoint extract_all (members : list string) (repo_folder : string)
  : M World unit :=
  match members with
  | [] => ret tt
  | member :: rest =>
      run call (Extract member repo_folder);
      extract_all rest repo_folder
  end.

(** The body of the [try] statement.  [st.stop()] raises a script-control
    exception that is no [Exception]: it passes the [except] clause and the
    run ends there, which the body reports as [Stopped]. *)
Definition create_and_push (github_token github_username repo_name_raw : string)
  (uploaded_zip : Zip) : M World Ending :=
  let repo_name := replace_spaces (strip repo_name_raw) in
  run call (PostRepo github_token repo_name);
  if negb (status_code =? 201)%Z then
    run call ReadMessage;
    run show (RepoCreationFailed json_message);
    ret Stopped
  else
  run show RepoCreated;
  run call Mkdtemp;
  let repo_folder := path_join tmpdir repo_name in
  run call (Mkdir repo_folder);
  let zip_path := path_join tmpdir (zip_name uploaded_zip) in
  run call (WriteZip zip_path);
  run call (OpenZip zip_path);
  run extract_all (namelist uploaded_zip) repo_folder;
  run call (RepoInit repo_folder);
  run call (GitConfig "user.email"
              (github_username ++ "@users.noreply.github.com")%string);
  run call (GitConfig "user.name" github_username);
  run call GitAddAll;
  run call (Commit "Initial commit");
  let remote_url :=
    ("https://" ++ github_username ++ ":" ++ github_token ++ "@github.com/"
       ++ github_username ++ "/" ++ repo_name ++ ".git")%string in
  run call ListRemotes;
  run (if negb has_origin then call (CreateRemote remote_url)
       else call (SetUrl remote_url));
  run call (Push "HEAD:refs/heads/master");
  run show Pushed;
  run show (ViewLink ("https://github.com/" ++ github_username ++ "/"
                        ++ repo_name)%string);
  ret RanThrough.

(** The script below the inputs; [create_repo] is the button. *)
Definition script (github_token github_username repo_name_raw : string)
  (uploaded_zip : option Zip) (create_repo : bool) : M World Ending :=
  if negb create_repo then ret RanThrough else
  match uploaded_zip with
  | Some zip =>
      if String.eqb github_token "" || String.eqb github_username ""
         || String.eqb repo_name_raw ""
      then run show WarnIncomplete; ret RanThrough
      else
        try_except
          (create_and_push github_token github_username repo_name_raw zip)
          [ (Ret CException, λ e, run show (ErrorShown e); ret RanThrough) ]
  | None => run show WarnIncomplete; ret RanThrough
  end.

End Script.

(** *** Vocabulary of the statements about the script *)

Definition is_push (c : Call) : bool :=
  match c with Push _ => true | _ => false end.

Definition is_post (c : Call) : bool :=
  match c with PostRepo _ _ => true | _ => false end.

Definition no_space (s : string) : Prop :=
  call_center.contains " " s = false.

Definition start : World := mkWorld [] [].

(** The calls of a run that gets as far as the push. *)
Definition calls_up_to_push `{Environment} (path_join : string → string → string)
  (github_token github_username repo_name : string) (zip : Zip) : list Call :=
  let repo_folder := path_join tmpdir repo_name in
  let remote_url :=
    ("https://" ++ github_username ++ ":" ++ github_token ++ "@github.com/"
       ++ github_username ++ "/" ++ repo_name ++ ".git")%string in
  [ PostRepo github_token repo_name; Mkdtemp; Mkdir repo_folder;
    WriteZip (path_join tmpdir (zip_name zip));
    OpenZip (path_join tmpdir (zip_name zip)) ]
  ++ ((λ member, Extract member repo_folder) <$> namelist zip)
  ++ [ RepoInit repo_folder;
       GitConfig "user.email" (github_username ++ "@users.noreply.github.com")%string;
       GitConfig "user.name" github_username;
       GitAddAll; Commit "Initial commit"; ListRemotes;
       if has_origin then SetUrl remote_url else CreateRemote remote_url;
       Push "HEAD:refs/heads/master" ].

(** *** Runs for the examples *)

(** GitHub creates the repository and every call succeeds. *)
Definition github_accepts : Environment :=
  {| raises := λ _, None; status_code := 201; json_message := None;
     tmpdir := "/tmp/tmpk3x"; has_origin := false |}.

(** GitHub refuses the token. *)
Definition github_refuses : Environment :=
  {| raises := λ _, None; status_code := 401;
     json_message := Some "Bad credentials";
     tmpdir := "/tmp/tmpk3x"; has_origin := false |}.

(** [str.strip] on ASCII white space. *)
Definition strip_ascii (s : string) : string :=
  gsheet_manager.rstrip (gsheet_manager.lstrip s).

(** [os.path.join] of a folder and a relative name. *)
Definition join_posix (folder name : string) : string :=
  (folder ++ "/" ++ name)%string.

Definition sample_zip : Zip := mkZip "site.zip" ["index.html"; "css/site.css"].

End gitagent.

(** * Theorems *)

(** ** The sheets manager and the project page *)

Section SheetsAndProjects.

Import gsheet_manager project_management.

Lemma get_sheet_data_hit now sheet ws m e :
  cache m !! (sheet, ws) = Some e → fresh now e = true →
  get_sheet_data now sheet ws true m = (Ret (value e), m).
Proof.
  intros He Hf. unfold get_sheet_data, bind, gets. cbv beta zeta.
  rewrite He. cbv beta iota. rewrite Hf. reflexivity.
Qed.

Lemma remote_read_then_store now k m :
  (do t <- remote_read k;
   run modify (with_cache (λ c, <[k := mkEntry (normalize t) now]> c));
   ret (normalize t))%py m
  = refetched now k m.
Proof.
  unfold refetched, remote_read. py_red. cbn [id online remote with_call].
  destruct (online m), (remote m !! k); reflexivity.
Qed.

Lemma get_sheet_data_refetch now sheet ws use_cache m :
  use_cache = false ∨ stale_or_absent now (sheet, ws) m →
  get_sheet_data now sheet ws use_cache m = refetched now (sheet, ws) m.
Proof.
  intros Hmiss. unfold get_sheet_data, stale_or_absent in *.
  unfold bind at 1. unfold gets at 1. cbv beta zeta.
  destruct (cache m !! (sheet, ws)) as [e|].
  - destruct Hmiss as [-> | ->]; [cbn [andb] | rewrite andb_false_r];
      apply remote_read_then_store.
  - apply remote_read_then_store.
Qed.

Lemma refetched_calls now k m :
  remote_calls (snd (refetched now k m)) = remote_calls m ++ [ReadAllRows k].
Proof. unfold refetched. destruct (online m), (remote m !! k); reflexivity. Qed.

Lemma append_row_true sheet row ws m m1 :
  append_row sheet row ws m = (Ret true, m1) →
  ∃ t, remote m !! (sheet, ws) = Some t ∧ online m = true ∧
       cache m1 = delete (sheet, ws) (cache m) ∧ online m1 = true ∧
       remote m1 = <[(sheet, ws) := mkTable (columns t) (rows t ++ [row])]> (remote m) ∧
       remote_calls m1 = remote_calls m ++ [AppendOneRow (sheet, ws)].
Proof.
  unfold append_row, bind, modify, gets, ret, invalidate. cbv beta zeta. simpl.
  destruct (online m) eqn:Hon, (remote m !! (sheet, ws)) as [t|] eqn:Hr;
    simpl; intros [= <-]; try discriminate.
  exists t. simpl. rewrite Hon. repeat split; reflexivity.
Qed.

Lemma update_sheet_data_true sheet table ws m m1 :
  update_sheet_data sheet table ws m = (Ret true, m1) →
  is_Some (remote m !! (sheet, ws)) ∧ online m = true ∧
  cache m1 = delete (sheet, ws) (cache m) ∧ online m1 = true ∧
  remote m1 = <[(sheet, ws) := table]> (remote m) ∧
  remote_calls m1 = remote_calls m ++ [ReplaceAllRows (sheet, ws)].
Proof.
  unfold update_sheet_data, bind, modify, gets, ret, invalidate. cbv beta zeta. simpl.
  destruct (online m) eqn:Hon, (remote m !! (sheet, ws)) as [t|] eqn:Hr;
    simpl; intros [= <-]; try discriminate.
  simpl. rewrite Hon. repeat split; try reflexivity. eauto.
Qed.

Lemma get_after_invalidation now sheet ws use_cache m t :
  cache m !! (sheet, ws) = None → online m = true →
  remote m !! (sheet, ws) = Some t →
  ∃ m2, get_sheet_data now sheet ws use_cache m = (Ret (normalize t), m2) ∧
        remote_calls m2 = remote_calls m ++ [ReadAllRows (sheet, ws)].
Proof.
  intros Hc Hon Hr. rewrite get_sheet_data_refetch.
  - unfold refetched. rewrite Hon, Hr. eexists. split; [reflexivity|]. reflexivity.
  - right. unfold stale_or_absent. rewrite Hc. exact I.
Qed.

(** C1 (write invalidation).  Whenever [append_row] or [update_sheet_data]
    returns [True], the next [get_sheet_data] for the same (sheet,
    worksheet) key goes to the remote source: it sends one read-all-rows
    request and returns the table just written, at any time [now] and
    whether or not the caller allows cached data.  This holds for the append
    path and for the update path. *)
Theorem write_invalidation :
  (∀ sheet row ws m m1,
      append_row sheet row ws m = (Ret true, m1) →
      ∀ now use_cache, ∃ t m2,
        remote m !! (sheet, ws) = Some t ∧
        get_sheet_data now sheet ws use_cache m1
        = (Ret (normalize (mkTable (columns t) (rows t ++ [row]))), m2) ∧
        remote_calls m2 = remote_calls m1 ++ [ReadAllRows (sheet, ws)])
  ∧
  (∀ sheet table ws m m1,
      update_sheet_data sheet table ws m = (Ret true, m1) →
      ∀ now use_cache, ∃ m2,
        get_sheet_data now sheet ws use_cache m1 = (Ret (normalize table), m2) ∧
        remote_calls m2 = remote_calls m1 ++ [ReadAllRows (sheet, ws)]).
Proof.
  split.
  - intros sheet row ws m m1 Happ now use_cache.
    destruct (append_row_true _ _ _ _ _ Happ) as (t & Hr & _ & Hc & Hon & Hr1 & _).
    destruct (get_after_invalidation now sheet ws use_cache m1
                (mkTable (columns t) (rows t ++ [row]))) as (m2 & Hget & Hcalls).
    + rewrite Hc. apply lookup_delete_eq.
    + exact Hon.
    + rewrite Hr1. apply lookup_insert_eq.
    + eauto.
  - intros sheet table ws m m1 Hupd now use_cache.
    destruct (update_sheet_data_true _ _ _ _ _ Hupd) as (_ & _ & Hc & Hon & Hr1 & _).
    apply get_after_invalidation.
    + rewrite Hc. apply lookup_delete_eq.
    + exact Hon.
    + rewrite Hr1. apply lookup_insert_eq.
Qed.

Lemma auto_load_shortcut w t :
  loaded_at (session w) = Some t → clock w - t < seconds 300 →
  auto_load_project_data w = (Ret tt, w).
Proof.
  intros Hl Ht. unfold auto_load_project_data, datetime_now. py_red.
  destruct (default true (project_auto_load_enabled (session w))); py_red;
    [|reflexivity].
  rewrite Hl. apply Z.ltb_lt in Ht. rewrite Ht. reflexivity.
Qed.

Lemma snoc_neq {A} (l : list A) x : l ≠ l ++ [x].
Proof.
  intros H. apply (f_equal length) in H. rewrite length_app in H. simpl in H. lia.
Qed.

Lemma auto_load_success w r w1 n :
  auto_load_project_data w = (r, w1) →
  shown w1 = shown w ++ [StSuccess (AutoLoaded n)] →
  ∃ t, loaded_at (session w1) = Some t ∧ clock w1 = t + seconds 3 ∧ r = Ret tt.
Proof.
  unfold auto_load_project_data, datetime_now, configured_sheet,
    sheets_get_sheet_data, call, show, time_sleep, datetime_now. py_red.
  destruct (default true (project_auto_load_enabled (session w))); py_red.
  2:{ intros [= <- <-] H. destruct (snoc_neq _ _ H). }
  destruct (match loaded_at (session w) with
            | Some t => (clock w - t <? seconds 300)%Z
            | None => false
            end); py_red.
  { intros [= <- <-] H. destruct (snoc_neq _ _ H). }
  destruct (String.eqb (default "" (project_sheet_url (session w))) ""); py_red.
  { intros [= <- <-] H. destruct (snoc_neq _ _ H). }
  destruct (get_sheet_data _ _ _ _ _) as [[df|e] m']; py_red.
  - destruct (empty df); py_red.
    + intros [= <- <-]. simpl.
      intros H. apply app_inj_tail in H as [_ [=]].
    + intros [= <- <-]. simpl. intros _. eexists. split; [reflexivity|]. auto.
  - destruct (exn_isinstance e CException); py_red.
    + intros [= <- <-]. simpl.
      intros H. apply app_inj_tail in H as [_ [=]].
    + intros [= <- <-]. simpl. intros H. destruct (snoc_neq _ _ H).
Qed.

(** C9 (cache freshness).  Manager: when a cached read finds no usable
    entry and the fetch succeeds, a second cached read of the same key less
    than [TTL] (300 s) later returns the same table from the cache and sends
    nothing, so that the two reads perform exactly one remote fetch.  Page:
    after an [auto_load_project_data] that loaded data, a second call less
    than 300 s after the recorded load time returns at once, leaving the
    world as it is: [get_sheet_data] is not called.  The two reads of the
    manager perform no fetch when the entry is fresh at both of them, and
    two fetches when the first one fails: a failed fetch stores nothing, so
    the second read goes to the remote source again. *)
Theorem cache_freshness :
  (∀ now1 now2 sheet ws m tbl m1,
      stale_or_absent now1 (sheet, ws) m →
      get_sheet_data now1 sheet ws true m = (Ret tbl, m1) →
      now2 - now1 < TTL →
      get_sheet_data now2 sheet ws true m1 = (Ret tbl, m1) ∧
      remote_calls m1 = remote_calls m ++ [ReadAllRows (sheet, ws)])
  ∧
  (∀ w r w1 n,
      auto_load_project_data w = (r, w1) →
      shown w1 = shown w ++ [StSuccess (AutoLoaded n)] →
      ∃ t, project_last_auto_load (session w1) = Some (Some t) ∧
           ∀ dt, clock w1 + dt - t < seconds 300 →
                 auto_load_project_data (elapse dt w1) = (Ret tt, elapse dt w1) ∧
                 calls (snd (auto_load_project_data (elapse dt w1))) = calls w1)
  ∧
  (∀ now1 now2 sheet ws m e,
      cache m !! (sheet, ws) = Some e →
      fresh now1 e = true → fresh now2 e = true →
      get_sheet_data now1 sheet ws true m = (Ret (value e), m) ∧
      get_sheet_data now2 sheet ws true m = (Ret (value e), m))
  ∧
  (∀ now1 now2 sheet ws m e m1,
      stale_or_absent now1 (sheet, ws) m →
      get_sheet_data now1 sheet ws true m = (Raise e, m1) →
      (now1 ≤ now2)%Z →
      cache m1 = cache m ∧
      remote_calls (snd (get_sheet_data now2 sheet ws true m1))
      = remote_calls m ++ [ReadAllRows (sheet, ws); ReadAllRows (sheet, ws)]).
Proof.
  split; [|split; [|split]].
  - intros now1 now2 sheet ws m tbl m1 Hmiss Hget Hlt.
    rewrite get_sheet_data_refetch in Hget by (right; exact Hmiss).
    unfold refetched in Hget.
    destruct (online m), (remote m !! (sheet, ws)) as [t|]; try discriminate.
    injection Hget as <- <-. split; [|reflexivity].
    apply (get_sheet_data_hit now2 sheet ws _ (mkEntry (normalize t) now1)).
    + simpl. apply lookup_insert_eq.
    + unfold fresh. simpl. apply Z.ltb_lt. exact Hlt.
  - intros w r w1 n Hrun Hshown.
    destruct (auto_load_success _ _ _ _ Hrun Hshown) as (t & Hl & _ & _).
    exists t. split.
    + unfold loaded_at in Hl.
      destruct (project_data (session w1)) as [[?|]|]; try discriminate.
      destruct (project_last_auto_load (session w1)) as [[?|]|]; congruence.
    + intros dt Hdt.
      rewrite (auto_load_shortcut (elapse dt w1) t); [split; reflexivity| exact Hl | exact Hdt].
  - intros now1 now2 sheet ws m e He Hf1 Hf2.
    split; apply get_sheet_data_hit; assumption.
  - intros now1 now2 sheet ws m e m1 Hmiss Hget Hle.
    rewrite get_sheet_data_refetch in Hget by (right; exact Hmiss).
    assert (Hm1 : m1 = with_call (ReadAllRows (sheet, ws)) m).
    { unfold refetched in Hget.
      destruct (online m), (remote m !! (sheet, ws)) as [t|];
        try discriminate; injection Hget as _ <-; reflexivity. }
    subst m1. split; [reflexivity|].
    rewrite get_sheet_data_refetch, refetched_calls.
    + cbn [remote_calls with_call]. rewrite <- app_assoc. reflexivity.
    + right. unfold stale_or_absent in *. cbn [cache with_call].
      destruct (cache m !! (sheet, ws)) as [e0|]; [|exact I].
      unfold fresh in *. apply Z.ltb_ge in Hmiss. apply Z.ltb_ge. lia.
Qed.

Lemma missing_fields_empty_form widget :
  missing_fields (fill_form widget []) ≠ [].
Proof. vm_compute. discriminate. Qed.

Lemma build_row_raises form_data col rest new_row w :
  build_row form_data (col :: rest) new_row w
  = (Raise (TypeError
              "isinstance() arg 2 must be a type, a tuple of types, or a union"), w).
Proof. reflexivity. Qed.

(** C10 (the Add Project form never appends).  [isinstance(value,
    datetime.date)] raises [TypeError] for every value, because
    [datetime.date] is here a method of the class [datetime].  Hence, for
    every submitted form that passes the required-fields check, the handler
    shows "Error adding project" with that [TypeError] and nothing else
    changes: [sheets_manager.append_row] is not called.  (A form that
    passes the check has at least one column, so no assumption on the
    columns is needed.) *)
Theorem add_project_never_appends :
  (∀ value, isinstance value datetime_date
            = Raise (TypeError
                "isinstance() arg 2 must be a type, a tuple of types, or a union"))
  ∧
  (∀ try_loading widget w df,
      project_data (session w) = Some (Some df) →
      missing_fields (fill_form widget (columns df)) = [] →
      render_add_project_tab try_loading widget true w
      = (Ret tt,
         mkWorld (session w) (manager w) (clock w)
           (shown w ++
              [StError (AddError (TypeError
                 "isinstance() arg 2 must be a type, a tuple of types, or a union"))])
           (calls w))).
Proof.
  split; [reflexivity|].
  intros try_loading widget w df Hdata Hreq.
  unfold render_add_project_tab. py_red. rewrite Hdata.
  unfold submit_add_project. rewrite Hreq.
  destruct (columns df) as [|col rest].
  - destruct (missing_fields_empty_form widget Hreq).
  - py_red. rewrite build_row_raises. reflexivity.
Qed.

End SheetsAndProjects.

(** ** The webhook dispatcher *)

Section DispatcherTheorems.

Import record.

Context {Payload : Type} {env : Collaborators Payload}.

Lemma retry_loop_step url p attempt rest w :
  retry_loop url p (attempt :: rest) w =
  match requests_post (events w) url p with
  | Responded status_code text => (Ret (status_code, text, attempt), after_post url w)
  | Failed e =>
      if retryable e then
        if (attempt =? max_retries - 1)%Z then (Raise e, after_post url w)
        else retry_loop url p rest (slept (retry_delay * (attempt + 1)) (after_post url w))
      else (Raise e, after_post url w)
  end.
Proof.
  cbn [retry_loop]. unfold post, emit, retry_or_reraise, time_sleep, emit, retryable. py_red.
  destruct (requests_post (events w) url p) as [s t|e]; [reflexivity|].
  py_red.
  destruct (exn_isinstance e CTimeout); py_red.
  - destruct (attempt =? max_retries - 1)%Z; reflexivity.
  - destruct (exn_isinstance e CConnectionError); py_red; [|reflexivity].
    destruct (attempt =? max_retries - 1)%Z; reflexivity.
Qed.

Lemma record_error_spec wt d msg w :
  record_error wt d msg w =
  match webhook_stats w !! wt with
  | Some s => (Ret (false, msg, d), recorded wt d s w)
  | None => (Raise (KeyError wt), with_responses (λ l, d :: l) w)
  end.
Proof.
  unfold record_error, responses_insert0, stats_incr, log_webhook_error, emit. py_red.
  cbn [webhook_stats with_responses].
  destruct (webhook_stats w !! wt); reflexivity.
Qed.

Lemma handlers_spec wt url e w :
  dispatch_except (handlers wt url) e w =
  match failure_record (clock w) wt url e with
  | Some (d, msg) => record_error wt d msg w
  | None => (Raise attribute_error, w)
  end.
Proof. destruct e; reflexivity. Qed.

Lemma send_to_webhook_resolve p wt w :
  send_to_webhook p wt w =
  let wt' := or_selected wt (selected_webhook_type w) in
  match webhook_urls w !! wt' with
  | Some url => try_except (send_body wt' url p) (handlers wt' url) w
  | None => (Raise (KeyError wt'), w)
  end.
Proof.
  unfold send_to_webhook, session_webhook_url. py_red.
  destruct (webhook_urls w !! or_selected wt (selected_webhook_type w)); reflexivity.
Qed.

Lemma send_body_spec wt url p w :
  send_body wt url p w =
  let '(rate_ok, rate_msg) := check_rate_limit (events w) (user_id w) wt in
  let w1 := with_event (EvRateCheck (user_id w) wt) w in
  if rate_ok then
    let '(is_valid, errs) := validate_webhook_payload p in
    if is_valid then
      match json_dumps_len (sanitize_payload p) with
      | Ret n =>
          match check_payload_size n (gated wt w) with
          | (Ret _, _) =>
              match webhook_stats w !! wt with
              | Some s =>
                  deliver wt url (sanitize_payload p) n
                    (with_stats (λ m, <[wt := bump CSent s]> m) (gated wt w))
              | None => (Raise (KeyError wt), gated wt w)
              end
          | (Raise e, _) => (Raise e, gated wt w)
          end
      | Raise e => (Raise e, gated wt w)
      end
    else (Raise (ValidationError errs), with_event EvValidate w1)
  else (Raise (RateLimitError rate_msg), w1).
Proof.
  unfold send_body, rate_limiter_check, validator_validate, validator_sanitize,
    dumps_len, emit, stats_incr, user_id. py_red.
  cbn [events user_name with_event].
  destruct (check_rate_limit _ _ _) as [[] rate_msg]; py_red; [|reflexivity].
  destruct (validate_webhook_payload p) as [[] errs]; py_red; [|reflexivity].
  destruct (json_dumps_len (sanitize_payload p)) as [n|e]; py_red; [|reflexivity].
  unfold check_payload_size, gated, user_id.
  destruct (10 * 1024 * 1024 <? n)%N; py_red.
  - destruct (format_file_size n); reflexivity.
  - cbn [webhook_stats with_event]. destruct (webhook_stats w !! wt); reflexivity.
Qed.

Lemma deliver_spec wt url q n w :
  deliver wt url q n w =
  match retry_loop url q attempts w with
  | (Ret (status_code, text, attempt), w') =>
      let '(data, w'') := answered wt url n status_code text attempt w' in
      classify_response wt status_code text data w''
  | (Raise e, w') => (Raise e, w')
  end.
Proof.
  unfold deliver, datetime_now, responses_insert0, responses_keep20, answered. py_red.
  destruct (retry_loop url q attempts w) as [[[[s t] a]|e] w']; reflexivity.
Qed.

Lemma classify_response_events wt status_code text data w :
  events (snd (classify_response wt status_code text data w)) = events w.
Proof.
  unfold classify_response, stats_incr, content_type_name. py_red.
  repeat (match goal with
          | |- context [if ?b then _ else _] => destruct b; py_red
          | |- context [match ?o with Some _ => _ | None => _ end] => destruct o; py_red
          end); reflexivity.
Qed.

Lemma deliver_events wt url q n w :
  events (snd (deliver wt url q n w)) = events (snd (retry_loop url q attempts w)).
Proof.
  rewrite deliver_spec.
  destruct (retry_loop url q attempts w) as [[[[s t] a]|e] w']; [|reflexivity].
  unfold answered. cbv zeta beta iota. rewrite classify_response_events. reflexivity.
Qed.

Lemma handlers_events wt url e w :
  events (snd (dispatch_except (handlers wt url) e w)) = events w ∨
  events (snd (dispatch_except (handlers wt url) e w)) = events w ++ [EvLogError wt].
Proof.
  rewrite handlers_spec.
  destruct (failure_record (clock w) wt url e) as [[d msg]|]; [|left; reflexivity].
  rewrite record_error_spec.
  destruct (webhook_stats w !! wt); [right|left]; reflexivity.
Qed.

Lemma post_outcomes_app seen a b q :
  post_outcomes seen (a ++ b) q
  = post_outcomes seen a q ++ post_outcomes (seen ++ a) b q.
Proof.
  revert seen. induction a as [|e a IH]; intros seen; simpl.
  - rewrite app_nil_r. reflexivity.
  - rewrite IH, <- !app_assoc. reflexivity.
Qed.

Lemma post_outcomes_quiet seen new q :
  Forall (λ e, is_post e = false) new → post_outcomes seen new q = [].
Proof.
  intros H. revert seen. induction H as [|e new He _ IH]; intros seen; simpl; [reflexivity|].
  rewrite IH. destruct e; try reflexivity. discriminate.
Qed.

Lemma only_last_cons e outs :
  retryable e = true → only_last_may_differ outs →
  only_last_may_differ (Failed e :: outs).
Proof.
  intros He Houts [|i] o Hi Hlen; simpl in *.
  - injection Hi as <-. eauto.
  - apply (Houts i o Hi). lia.
Qed.

Lemma only_last_single o : only_last_may_differ [o].
Proof. intros i o' _ Hlen. simpl in Hlen. lia. Qed.

Lemma retry_loop_trace url q todo w :
  ∃ tr, events (snd (retry_loop url q todo w)) = events w ++ tr ∧
        (length (post_outcomes (events w) tr q) ≤ length todo)%nat ∧
        only_last_may_differ (post_outcomes (events w) tr q) ∧
        Forall (loop_event url) tr.
Proof.
  revert w. induction todo as [|attempt rest IH]; intros w.
  - exists []. simpl. rewrite app_nil_r. repeat split; [lia| |constructor].
    intros i o Hi. discriminate.
  - assert (Hone : ∃ tr,
               events (after_post url w) = events w ++ tr ∧
               (length (post_outcomes (events w) tr q) ≤ length (attempt :: rest))%nat ∧
               only_last_may_differ (post_outcomes (events w) tr q) ∧
               Forall (loop_event url) tr).
    { exists [EvPost url]. simpl. repeat split;
        [lia|apply only_last_single|repeat constructor]. }
    rewrite retry_loop_step.
    destruct (requests_post (events w) url q) as [s t|e] eqn:Hout; [exact Hone|].
    destruct (retryable e) eqn:Hre; [|exact Hone].
    destruct (attempt =? max_retries - 1)%Z; [exact Hone|]. clear Hone.
    destruct (IH (slept (retry_delay * (attempt + 1)) (after_post url w)))
      as (tr & Hev & Hlen & Hlast & Hshape).
    exists ([EvPost url; EvSleep (retry_delay * (attempt + 1))] ++ tr).
    cbn [slept after_post with_event with_clock events] in Hev, Hlen, Hlast.
    rewrite Hev, <- !app_assoc. split; [reflexivity|].
    rewrite post_outcomes_app. simpl. rewrite Hout. simpl.
    rewrite <- !app_assoc in Hlen, Hlast. simpl in Hlen, Hlast.
    split; [lia|]. split; [apply only_last_cons; assumption|].
    repeat constructor. exact Hshape.
Qed.

Lemma check_payload_size_fails n w r w' :
  (10 * 1024 * 1024 < n)%N → check_payload_size n w = (r, w') → ∃ e, r = Raise e.
Proof.
  intros Hn. unfold check_payload_size. apply N.ltb_lt in Hn. rewrite Hn.
  destruct (format_file_size n); intros [= <- <-]; eauto.
Qed.

Lemma send_body_events wt url p w :
  ∃ loop,
    events (snd (send_body wt url p w)) = events w ++ gates_run p wt w ++ loop ∧
    (length (post_outcomes (events w ++ gates_run p wt w) loop (sanitize_payload p)) ≤ 3)%nat ∧
    only_last_may_differ
      (post_outcomes (events w ++ gates_run p wt w) loop (sanitize_payload p)) ∧
    Forall (loop_event url) loop ∧
    (gates_fail p wt w → loop = []).
Proof.
  assert (Hnil : ∀ (l : list Event) (P : Prop),
             (length (post_outcomes l [] (sanitize_payload p)) ≤ 3)%nat ∧
             only_last_may_differ (post_outcomes l [] (sanitize_payload p)) ∧
             Forall (loop_event url) [] ∧ (P → @nil Event = [])).
  { intros l P. simpl. repeat split; [lia| |constructor]. intros i o Hi. discriminate. }
  rewrite send_body_spec. unfold gates_run, gates_fail, size_gate_fails.
  destruct (check_rate_limit (events w) (user_id w) wt) as [[] rate_msg]; cbn [fst].
  2:{ exists []. split; [reflexivity|apply Hnil]. }
  destruct (validate_webhook_payload p) as [[] errs]; cbn [fst].
  2:{ exists []. split; [|apply Hnil].
      cbn [snd events with_event]. rewrite <- !app_assoc. reflexivity. }
  assert (Hg : events (gated wt w)
               = events w ++ [EvRateCheck (user_id w) wt; EvValidate; EvSanitize; EvDumps]).
  { unfold gated. cbn [events with_event]. rewrite <- !app_assoc. reflexivity. }
  destruct (json_dumps_len (sanitize_payload p)) as [n|e].
  2:{ exists []. split; [rewrite app_nil_r; exact Hg|apply Hnil]. }
  destruct (check_payload_size n (gated wt w)) as [[[]|e] w'] eqn:Hsize.
  2:{ exists []. split; [rewrite app_nil_r; exact Hg|apply Hnil]. }
  destruct (webhook_stats w !! wt) as [s|].
  2:{ exists []. split; [rewrite app_nil_r; exact Hg|apply Hnil]. }
  rewrite deliver_events.
  destruct (retry_loop_trace url (sanitize_payload p) attempts
              (with_stats (λ m, <[wt := bump CSent s]> m) (gated wt w)))
    as (tr & Hev & Hlen & Hlast & Hshape).
  cbn [events with_stats] in Hev, Hlen, Hlast. rewrite Hg in Hev, Hlen, Hlast.
  exists tr. rewrite Hev, <- app_assoc. split; [reflexivity|].
  repeat split; try assumption.
  intros [Hf|[Hf|Hf]]; try discriminate.
  destruct (check_payload_size_fails _ _ _ _ Hf Hsize) as [e He]. discriminate.
Qed.

Lemma try_handlers_events wt url (body : M World (bool * Message * Dict)) w :
  ∃ tail, events (snd (try_except body (handlers wt url) w))
          = events (snd (body w)) ++ tail ∧
          (tail = [] ∨ tail = [EvLogError wt]).
Proof.
  unfold try_except. destruct (body w) as [[a|e] w'].
  - exists []. rewrite app_nil_r. auto.
  - destruct (handlers_events wt url e w') as [H|H].
    + exists []. rewrite app_nil_r. auto.
    + exists [EvLogError wt]. auto.
Qed.

Lemma send_to_webhook_events p wt w url :
  webhook_urls w !! resolved wt w = Some url →
  ∃ loop tail,
    events (snd (send_to_webhook p wt w))
    = events w ++ gates_run p (resolved wt w) w ++ loop ++ tail ∧
    (length (post_outcomes (events w ++ gates_run p (resolved wt w) w) loop
               (sanitize_payload p)) ≤ 3)%nat ∧
    only_last_may_differ
      (post_outcomes (events w ++ gates_run p (resolved wt w) w) loop
         (sanitize_payload p)) ∧
    Forall (loop_event url) loop ∧
    (gates_fail p (resolved wt w) w → loop = []) ∧
    (tail = [] ∨ tail = [EvLogError (resolved wt w)]).
Proof.
  intros Hurl. rewrite send_to_webhook_resolve. cbv zeta. fold (resolved wt w).
  rewrite Hurl.
  destruct (try_handlers_events (resolved wt w) url
              (send_body (resolved wt w) url p) w) as (tail & Hev & Htail).
  destruct (send_body_events (resolved wt w) url p w)
    as (loop & Hbody & Hlen & Hlast & Hshape & Hfail).
  exists loop, tail. rewrite Hev, Hbody, <- !app_assoc. auto 10.
Qed.

Lemma gates_run_quiet p wt w : Forall (λ e, is_post e = false) (gates_run p wt w).
Proof.
  unfold gates_run.
  destruct (fst (check_rate_limit _ _ _)), (fst (validate_webhook_payload p));
    repeat constructor.
Qed.

Lemma filter_gates_run p wt w :
  filter (λ e, is_gate e = true) (gates_run p wt w) = gates_run p wt w.
Proof.
  unfold gates_run.
  destruct (fst (check_rate_limit _ _ _)), (fst (validate_webhook_payload p));
    reflexivity.
Qed.

Lemma filter_loop url loop :
  Forall (loop_event url) loop →
  filter (λ e, is_gate e = true) loop
  = replicate (length (filter (λ e, is_post e = true) loop)) (EvPost url).
Proof.
  induction 1 as [|e loop He _ IH]; [reflexivity|].
  destruct e; cbn [loop_event] in He; try contradiction.
  - subst. rewrite filter_cons_True by reflexivity.
    rewrite (filter_cons_True (λ e, is_post e = true)) by reflexivity.
    cbn [length replicate]. rewrite IH. reflexivity.
  - rewrite filter_cons_False by discriminate.
    rewrite (filter_cons_False (λ e, is_post e = true)) by discriminate.
    exact IH.
Qed.

Lemma post_outcomes_length seen new q :
  length (post_outcomes seen new q) = length (filter (λ e, is_post e = true) new).
Proof.
  revert seen. induction new as [|e new IH]; intros seen; [reflexivity|].
  simpl. rewrite length_app, IH.
  destruct e; try (rewrite filter_cons_False by discriminate; reflexivity).
  rewrite filter_cons_True by reflexivity. reflexivity.
Qed.

(** C7 (retry boundary).  In the retry loop a response, whatever its
    status, ends the loop at once with that response.  For every call of
    [send_to_webhook]: at most three requests are sent; every request that
    was followed by another one had failed with a timeout or a connection
    error; and a request that got a response is the last one of the call. *)
Theorem retry_boundary :
  (∀ url q attempt rest w status_code text,
      requests_post (events w) url q = Responded status_code text →
      retry_loop url q (attempt :: rest) w
      = (Ret (status_code, text, attempt), after_post url w))
  ∧
  (∀ p wt w, ∃ new,
      events (snd (send_to_webhook p wt w)) = events w ++ new ∧
      let outs := post_outcomes (events w) new (sanitize_payload p) in
      (length outs ≤ 3)%nat ∧
      (∀ i o, outs !! i = Some o → (S i < length outs)%nat →
              ∃ e, o = Failed e ∧ retryable e = true) ∧
      (∀ i status_code text,
          outs !! i = Some (Responded status_code text) → length outs = S i)).
Proof.
  split.
  - intros url q attempt rest w status_code text Hout.
    rewrite retry_loop_step, Hout. reflexivity.
  - intros p wt w.
    assert (Hgoal : ∀ outs : list HttpOutcome,
               (length outs ≤ 3)%nat → only_last_may_differ outs →
               (length outs ≤ 3)%nat ∧
               (∀ i o, outs !! i = Some o → (S i < length outs)%nat →
                       ∃ e, o = Failed e ∧ retryable e = true) ∧
               (∀ i status_code text,
                   outs !! i = Some (Responded status_code text) →
                   length outs = S i)).
    { intros outs Hlen Hlast. repeat split; [exact Hlen|exact Hlast|].
      intros i s t Hi. pose proof (lookup_lt_Some _ _ _ Hi) as Hlt.
      destruct (decide (S i < length outs)%nat) as [Hmore|]; [|lia].
      destruct (Hlast i _ Hi Hmore) as (e & [=] & _). }
    destruct (webhook_urls w !! resolved wt w) as [url|] eqn:Hurl.
    + destruct (send_to_webhook_events p wt w url Hurl)
        as (loop & tail & Hev & Hlen & Hlast & _ & _ & Htail).
      exists (gates_run p (resolved wt w) w ++ loop ++ tail).
      split; [exact Hev|]. cbv zeta.
      rewrite !post_outcomes_app.
      rewrite (post_outcomes_quiet _ (gates_run _ _ _)) by apply gates_run_quiet.
      rewrite (post_outcomes_quiet _ tail)
        by (destruct Htail as [-> | ->]; repeat constructor).
      rewrite app_nil_r. simpl. apply Hgoal; assumption.
    + exists []. rewrite send_to_webhook_resolve. cbv zeta. fold (resolved wt w).
      rewrite Hurl. cbn [snd]. rewrite app_nil_r. split; [reflexivity|].
      apply (Hgoal []); [simpl; lia|]. intros i o Hi. discriminate.
Qed.

(** C3, amended (gate order).  For every call whose webhook type has a URL,
    the gates are evaluated in the order rate-check, validate, sanitize,
    size-check, and the requests follow: the gate and send events of the
    call are exactly the rate check, then the validation if the rate limiter
    agreed, then sanitising and serialising if the payload is valid, then
    at most three requests; and no request is sent when some gate fails. *)
Theorem gate_order p wt w url :
  webhook_urls w !! resolved wt w = Some url →
  ∃ new posts,
    events (snd (send_to_webhook p wt w)) = events w ++ new ∧
    (posts ≤ 3)%nat ∧
    (gates_fail p (resolved wt w) w → posts = 0%nat) ∧
    filter (λ e, is_gate e = true) new
    = EvRateCheck (user_id w) (resolved wt w) ::
      (if fst (check_rate_limit (events w) (user_id w) (resolved wt w)) then
         EvValidate ::
         (if fst (validate_webhook_payload p) then
            [EvSanitize; EvDumps] ++ replicate posts (EvPost url)
          else [])
       else []).
Proof.
  intros Hurl.
  destruct (send_to_webhook_events p wt w url Hurl)
    as (loop & tail & Hev & Hlen & _ & Hshape & Hfail & Htail).
  exists (gates_run p (resolved wt w) w ++ loop ++ tail),
         (length (filter (λ e, is_post e = true) loop)).
  split; [exact Hev|]. rewrite post_outcomes_length in Hlen.
  split; [exact Hlen|]. split.
  { intros Hf. rewrite (Hfail Hf). reflexivity. }
  rewrite !filter_app, filter_gates_run, (filter_loop url loop Hshape).
  assert (Ht : filter (λ e, is_gate e = true) tail = [])
    by (destruct Htail as [-> | ->]; reflexivity).
  rewrite Ht, app_nil_r. unfold gates_run.
  destruct (fst (check_rate_limit _ _ _)) eqn:Hrate.
  - destruct (fst (validate_webhook_payload p)) eqn:Hvalid; [reflexivity|].
    rewrite (Hfail (or_intror (or_introl Hvalid))). reflexivity.
  - rewrite (Hfail (or_introl Hrate)). reflexivity.
Qed.

Lemma math_pow_1024_float i :
  (i < 103)%nat → math_pow_1024 i = Ret (1024 ^ N.of_nat i)%N.
Proof.
  intros Hi. unfold math_pow_1024.
  destruct (103 <=? i)%nat eqn:Hle; [apply Nat.leb_le in Hle; lia|reflexivity].
Qed.

Lemma float_overflow_large : (2 ^ 40 < float_overflow)%N.
Proof. vm_compute. reflexivity. Qed.

Lemma int_by_float_converts n p :
  (n < float_overflow)%N → int_by_float n p = Ret tt.
Proof.
  intros Hn. unfold int_by_float.
  destruct (float_overflow <=? n)%N eqn:Hle; [|reflexivity].
  apply N.leb_le in Hle. destruct (N.lt_irrefl n).
  eapply N.lt_le_trans; eassumption.
Qed.

Lemma format_file_size_named n :
  (0 < n < 2 ^ 40)%N → ∃ name, format_file_size n = Ret (mkFileSize n name).
Proof.
  intros [Hpos Hlt]. unfold format_file_size.
  destruct (n =? 0)%N eqn:Hz; [apply N.eqb_eq in Hz; lia|].
  assert (Hlog : (N.log2 n < 40)%N) by (apply N.log2_lt_pow2; assumption).
  assert (Hi : (log1024 n < 4)%nat).
  { unfold log1024.
    assert (N.log2 n / 10 < 4)%N by (apply N.Div0.div_lt_upper_bound; lia). lia. }
  cbv zeta. rewrite math_pow_1024_float by lia.
  rewrite int_by_float_converts
    by (eapply N.lt_trans; [exact Hlt|apply float_overflow_large]).
  destruct (log1024 n) as [|[|[|[|i]]]]; try lia; simpl; eauto.
Qed.

Lemma filter_quiet (g : list Event) :
  Forall (λ e, is_post e = false) g → filter (λ e, is_post e = true) g = [].
Proof.
  induction 1 as [|e g He _ IH]; [reflexivity|].
  rewrite filter_cons_False by (rewrite He; discriminate). exact IH.
Qed.

Lemma send_body_gates_fail wt url p w :
  gates_fail p wt w →
  ∃ e w0, send_body wt url p w = (Raise e, w0) ∧
          webhook_stats w0 = webhook_stats w ∧
          events w0 = events w ++ gates_run p wt w.
Proof.
  intros Hfail. rewrite send_body_spec. unfold gates_fail, size_gate_fails, gates_run in *.
  destruct (check_rate_limit (events w) (user_id w) wt) as [[] rate_msg]; cbn [fst] in *.
  2:{ do 2 eexists. split; [reflexivity|]. split; reflexivity. }
  destruct (validate_webhook_payload p) as [[] errs]; cbn [fst] in *.
  2:{ do 2 eexists. split; [reflexivity|]. split; [reflexivity|].
      cbn [events with_event]. rewrite <- !app_assoc. reflexivity. }
  assert (Hg : events (gated wt w)
               = events w ++ [EvRateCheck (user_id w) wt; EvValidate; EvSanitize; EvDumps]).
  { unfold gated. cbn [events with_event]. rewrite <- !app_assoc. reflexivity. }
  destruct (json_dumps_len (sanitize_payload p)) as [n|e].
  2:{ do 2 eexists. split; [reflexivity|]. split; [reflexivity|exact Hg]. }
  destruct Hfail as [Hf|[Hf|Hf]]; try discriminate.
  destruct (check_payload_size n (gated wt w)) as [[[]|e] w'] eqn:Hsize.
  { destruct (check_payload_size_fails _ _ _ _ Hf Hsize) as [e He]. discriminate. }
  do 2 eexists. split; [reflexivity|]. split; [reflexivity|exact Hg].
Qed.

Lemma gate_failure_sends_nothing p wt w :
  gates_fail p (resolved wt w) w →
  let w' := snd (send_to_webhook p wt w) in
  filter (λ e, is_post e = true) (events w')
  = filter (λ e, is_post e = true) (events w) ∧
  ∀ s, webhook_stats w !! resolved wt w = Some s →
       sent <$> (webhook_stats w' !! resolved wt w) = Some (sent s).
Proof.
  intros Hfail. cbv zeta. rewrite send_to_webhook_resolve. cbv zeta.
  fold (resolved wt w).
  destruct (webhook_urls w !! resolved wt w) as [url|].
  2:{ split; [reflexivity|]. intros s Hs. cbn [snd]. rewrite Hs. reflexivity. }
  unfold try_except.
  destruct (send_body_gates_fail (resolved wt w) url p w Hfail)
    as (e & w0 & -> & Hstats & Hev).
  assert (Hquiet : filter (λ e, is_post e = true) (events w0)
                   = filter (λ e, is_post e = true) (events w)).
  { rewrite Hev, filter_app.
    rewrite (filter_quiet _ (gates_run_quiet p (resolved wt w) w)), app_nil_r.
    reflexivity. }
  rewrite handlers_spec.
  destruct (failure_record (clock w0) (resolved wt w) url e) as [[d m]|].
  2:{ split; [exact Hquiet|]. intros s Hs. cbn [snd]. rewrite Hstats, Hs. reflexivity. }
  rewrite record_error_spec, Hstats.
  destruct (webhook_stats w !! resolved wt w) as [s0|] eqn:Hs0.
  - cbn [snd recorded events webhook_stats with_event with_stats with_responses].
    split.
    + rewrite filter_app, Hquiet.
      rewrite (filter_cons_False _ (EvLogError _)) by discriminate.
      rewrite filter_nil, app_nil_r. reflexivity.
    + intros s [= <-]. rewrite Hstats, lookup_insert_eq. reflexivity.
  - split; [exact Hquiet|]. intros s [=].
Qed.

Lemma gate_failure_recorded p wt w url s :
  webhook_urls w !! resolved wt w = Some url →
  webhook_stats w !! resolved wt w = Some s →
  fst (check_rate_limit (events w) (user_id w) (resolved wt w)) = false ∨
  fst (validate_webhook_payload p) = false ∨
  oversized p →
  ∃ msg data w',
    send_to_webhook p wt w = (Ret (false, msg, data), w') ∧
    dict_get "error" data = Some (VStr (first_failed_gate p (resolved wt w) w)) ∧
    webhook_responses w' = data :: webhook_responses w ∧
    events w' = events w ++ gates_run p (resolved wt w) w
                         ++ [EvLogError (resolved wt w)] ∧
    filter (λ e, is_post e = true) (events w')
    = filter (λ e, is_post e = true) (events w) ∧
    webhook_stats w'
    = <[resolved wt w := mkStats (sent s) (success s) (errors s + 1)]>
        (webhook_stats w) ∧
    (∀ now e d m,
        retryable e = true →
        failure_record now (resolved wt w) url e = Some (d, m) →
        dict_get "error" d ≠ dict_get "error" data).
Proof.
  intros Hurl Hstats Hfail.
  assert (Hnet : ∀ label now e d m,
             In label ["Rate limit exceeded"; "Validation failed"; "Payload too large"] →
             retryable e = true →
             failure_record now (resolved wt w) url e = Some (d, m) →
             dict_get "error" d ≠ Some (VStr label)).
  { intros label now e d m Hlabel Hre Hrec.
    destruct e; try discriminate; injection Hrec as <- _; cbn [dict_get app];
      cbn [In] in Hlabel; intuition (subst; discriminate). }
  assert (Hposts : ∀ l : list Event,
             filter (λ e, is_post e = true)
               (l ++ gates_run p (resolved wt w) w ++ [EvLogError (resolved wt w)])
             = filter (λ e, is_post e = true) l).
  { intros l. rewrite !filter_app.
    assert (Hq : ∀ g, Forall (λ e, is_post e = false) g →
                      filter (λ e, is_post e = true) g = []).
    { induction 1 as [|e g He _ IH]; [reflexivity|].
      rewrite filter_cons_False by (rewrite He; discriminate). exact IH. }
    rewrite (Hq _ (gates_run_quiet _ _ _)).
    rewrite (filter_cons_False _ (EvLogError _)) by discriminate.
    rewrite filter_nil, !app_nil_r. reflexivity. }
  rewrite send_to_webhook_resolve. cbv zeta. fold (resolved wt w). rewrite Hurl.
  unfold try_except. rewrite send_body_spec.
  unfold first_failed_gate, gates_run in *.
  destruct (check_rate_limit (events w) (user_id w) (resolved wt w))
    as [[] rate_msg]; cbn [fst negb] in *.
  2:{ rewrite handlers_spec. cbn [failure_record]. rewrite record_error_spec.
      cbn [webhook_stats with_event]. rewrite Hstats.
      do 3 eexists. split; [reflexivity|].
      cbn [recorded events webhook_responses webhook_stats with_event with_stats
             with_responses].
      repeat split; try reflexivity.
      - rewrite <- app_assoc. reflexivity.
      - rewrite <- app_assoc. apply (Hposts (events w)).
      - intros now e d m. apply Hnet. cbn [In]. auto. }
  destruct (validate_webhook_payload p) as [[] errs]; cbn [fst negb] in *.
  2:{ rewrite handlers_spec. cbn [failure_record]. rewrite record_error_spec.
      cbn [webhook_stats with_event]. rewrite Hstats.
      do 3 eexists. split; [reflexivity|].
      cbn [recorded events webhook_responses webhook_stats with_event with_stats
             with_responses].
      repeat split; try reflexivity.
      - rewrite <- !app_assoc. reflexivity.
      - rewrite <- !app_assoc. apply (Hposts (events w)).
      - intros now e d m. apply Hnet. cbn [In]. auto. }
  destruct Hfail as [Hf|[Hf|(n & Hn & Hbig & Hsmall)]]; try discriminate.
  rewrite Hn. unfold check_payload_size.
  apply N.ltb_lt in Hbig as Hbig'. rewrite Hbig'.
  destruct (format_file_size_named n) as [name Hname]; [lia|]. rewrite Hname.
  cbn [raise unit_of]. rewrite handlers_spec. cbn [failure_record].
  rewrite record_error_spec. unfold gated. cbn [webhook_stats with_event].
  rewrite Hstats.
  do 3 eexists. split; [reflexivity|].
  cbn [recorded events webhook_responses webhook_stats with_event with_stats
         with_responses].
  repeat split; try reflexivity.
  - rewrite <- !app_assoc. reflexivity.
  - rewrite <- !app_assoc. apply (Hposts (events w)).
  - intros now e d m. apply Hnet. cbn [In]. auto.
Qed.

(** C4 (pre-network gates).  For every call of [send_to_webhook] in which a
    gate fails (the rate limiter refuses, validation fails, or the payload
    does not get through the size gate), no request is sent and the [sent]
    counter of the endpoint is as before.  Moreover, for a configured
    endpoint, when the rate limiter refuses, validation fails, or the
    serialised payload exceeds 10 MiB (and is below 1 TiB, the sizes
    [format_file_size] can name), the call returns a failure triple whose
    record is put at the head of the history and names the gate that
    refused, in the order of the code ("Rate limit exceeded", "Validation
    failed" or "Payload too large"); the records of the timeout and
    connection-error handlers carry another text. *)
Theorem pre_network_gates p wt w :
  (gates_fail p (resolved wt w) w →
   let w' := snd (send_to_webhook p wt w) in
   filter (λ e, is_post e = true) (events w')
   = filter (λ e, is_post e = true) (events w) ∧
   ∀ s, webhook_stats w !! resolved wt w = Some s →
        sent <$> (webhook_stats w' !! resolved wt w) = Some (sent s))
  ∧
  (∀ url s,
      webhook_urls w !! resolved wt w = Some url →
      webhook_stats w !! resolved wt w = Some s →
      fst (check_rate_limit (events w) (user_id w) (resolved wt w)) = false ∨
      fst (validate_webhook_payload p) = false ∨
      oversized p →
      ∃ msg data w',
        send_to_webhook p wt w = (Ret (false, msg, data), w') ∧
        dict_get "error" data
        = Some (VStr (first_failed_gate p (resolved wt w) w)) ∧
        webhook_responses w' = data :: webhook_responses w ∧
        events w' = events w ++ gates_run p (resolved wt w) w
                             ++ [EvLogError (resolved wt w)] ∧
        webhook_stats w'
        = <[resolved wt w := mkStats (sent s) (success s) (errors s + 1)]>
            (webhook_stats w) ∧
        (∀ now e d m,
            retryable e = true →
            failure_record now (resolved wt w) url e = Some (d, m) →
            dict_get "error" d ≠ dict_get "error" data)).
Proof.
  split; [apply gate_failure_sends_nothing|].
  intros url s Hurl Hstats Hfail.
  destruct (gate_failure_recorded p wt w url s Hurl Hstats Hfail)
    as (msg & data & w' & Hrun & Herr & Hhist & Hev & _ & Hst & Hnet).
  exists msg, data, w'. auto 10.
Qed.

Lemma send_to_webhook_timeouts p wt w url s :
  webhook_urls w !! resolved wt w = Some url →
  webhook_stats w !! resolved wt w = Some s →
  gates_pass p (resolved wt w) w →
  (∀ seen, requests_post seen url (sanitize_payload p) = Failed Timeout) →
  ∃ w',
    let data := timeout_record (clock w + seconds 3) (resolved wt w) url in
    send_to_webhook p wt w = (Ret (false, MsgTimedOut, data), w') ∧
    events w' = events w ++
      [ EvRateCheck (user_id w) (resolved wt w); EvValidate; EvSanitize; EvDumps;
        EvPost url; EvSleep 1; EvPost url; EvSleep 2; EvPost url;
        EvLogError (resolved wt w) ] ∧
    length (filter (λ e, is_post e = true) (events w'))
    = (length (filter (λ e, is_post e = true) (events w)) + 3)%nat ∧
    webhook_responses w' = data :: webhook_responses w ∧
    dict_get "attempt_count" data = None ∧
    webhook_stats w'
    = <[resolved wt w := mkStats (sent s + 1) (success s) (errors s + 1)]>
        (webhook_stats w).
Proof.
  intros Hurl Hstats (Hrate & Hvalid & n & Hn & Hsize) Hnet.
  rewrite send_to_webhook_resolve. cbv zeta. fold (resolved wt w). rewrite Hurl.
  unfold try_except. rewrite send_body_spec.
  destruct (check_rate_limit (events w) (user_id w) (resolved wt w))
    as [rate_ok rate_msg]. cbn [fst] in Hrate. subst rate_ok.
  destruct (validate_webhook_payload p) as [is_valid errs]. cbn [fst] in Hvalid.
  subst is_valid. rewrite Hn. unfold check_payload_size.
  apply N.ltb_ge in Hsize. rewrite Hsize. cbn [ret]. rewrite Hstats.
  rewrite deliver_spec. unfold attempts.
  rewrite !retry_loop_step, !Hnet. cbn [retryable exn_isinstance orb].
  change (0 =? max_retries - 1)%Z with false.
  change (1 =? max_retries - 1)%Z with false.
  change (2 =? max_retries - 1)%Z with true. cbv iota.
  change (retry_delay * (0 + 1)) with 1. change (retry_delay * (1 + 1)) with 2.
  rewrite handlers_spec. cbn [failure_record]. rewrite record_error_spec.
  unfold gated, slept, after_post.
  cbn [webhook_stats with_event with_stats with_clock].
  rewrite lookup_insert_eq.
  eexists. cbv zeta. split.
  { cbn [clock with_event with_stats with_clock app].
    unfold timeout_record.
    replace (clock w + seconds 1 + seconds 2) with (clock w + seconds 3)
      by (unfold seconds; lia).
    reflexivity. }
  cbn [recorded events webhook_responses webhook_stats with_event with_stats
         with_responses with_clock].
  repeat split.
  - rewrite <- !app_assoc. reflexivity.
  - rewrite <- !app_assoc, filter_app, length_app. reflexivity.
  - rewrite insert_insert_eq. reflexivity.
Qed.

(** C2, amended (retry bound).  For a payload that passes every gate of a
    configured endpoint whose requests all time out, [send_to_webhook]
    sends exactly three requests, sleeping 1 s and 2 s between them, and
    returns the failure triple of the timeout handler.  The record it stores
    and returns is the "Request timeout" record, which has no
    ['attempt_count'] entry; [sent] and [errors] are both incremented. *)
Theorem retry_bound p wt w url s :
  webhook_urls w !! resolved wt w = Some url →
  webhook_stats w !! resolved wt w = Some s →
  gates_pass p (resolved wt w) w →
  (∀ seen, requests_post seen url (sanitize_payload p) = Failed Timeout) →
  ∃ w',
    let data := timeout_record (clock w + seconds 3) (resolved wt w) url in
    send_to_webhook p wt w = (Ret (false, MsgTimedOut, data), w') ∧
    events w' = events w ++
      [ EvRateCheck (user_id w) (resolved wt w); EvValidate; EvSanitize; EvDumps;
        EvPost url; EvSleep 1; EvPost url; EvSleep 2; EvPost url;
        EvLogError (resolved wt w) ] ∧
    length (filter (λ e, is_post e = true) (events w'))
    = (length (filter (λ e, is_post e = true) (events w)) + 3)%nat ∧
    webhook_responses w' = data :: webhook_responses w ∧
    dict_get "attempt_count" data = None ∧
    webhook_stats w'
    = <[resolved wt w := mkStats (sent s + 1) (success s) (errors s + 1)]>
        (webhook_stats w).
Proof. apply send_to_webhook_timeouts. Qed.

Lemma stable_refl w : stable w w.
Proof. split; auto. Qed.

Lemma stable_trans w1 w2 w3 : stable w1 w2 → stable w2 w3 → stable w1 w3.
Proof. intros [H1 H2] [H3 H4]. split; [congruence|auto]. Qed.

Lemma keeps_ret {A} (a : A) : keeps (ret a).
Proof. intros w. apply stable_refl. Qed.

Lemma keeps_raise {A} e : keeps (@raise World A e).
Proof. intros w. apply stable_refl. Qed.

Lemma keeps_gets {A} (f : World → A) : keeps (gets f).
Proof. intros w. apply stable_refl. Qed.

Lemma keeps_bind {A B} (c : M World A) (k : A → M World B) :
  keeps c → (∀ a, keeps (k a)) → keeps (bind c k).
Proof.
  intros Hc Hk w. unfold bind. specialize (Hc w).
  destruct (c w) as [[a|e] w']; cbn [snd] in *; [|exact Hc].
  eapply stable_trans; [exact Hc|apply Hk].
Qed.

Lemma keeps_try_except {A} (body : M World A) clauses :
  keeps body →
  Forall (λ cl : ExceptClause World A, ∀ e, keeps (snd cl e)) clauses →
  keeps (try_except body clauses).
Proof.
  intros Hb Hcl w. unfold try_except. specialize (Hb w).
  destruct (body w) as [[a|e] w']; cbn [snd] in *; [exact Hb|].
  eapply stable_trans; [exact Hb|]. clear Hb.
  induction Hcl as [|[[c|e'] h] rest Hh _ IH]; cbn [dispatch_except].
  - apply stable_refl.
  - destruct (exn_isinstance e c); [apply Hh|exact IH].
  - apply stable_refl.
Qed.

Lemma keeps_emit e : keeps (emit e).
Proof. intros w. split; [reflexivity|intros k Hk; exact Hk]. Qed.

Lemma keeps_stats_incr wt c : keeps (stats_incr wt c).
Proof.
  intros w. unfold stats_incr. py_red.
  destruct (webhook_stats w !! wt) as [s|] eqn:Hs; [|apply stable_refl].
  split; [reflexivity|]. intros k Hk. cbn [snd webhook_stats with_stats].
  destruct (decide (wt = k)) as [->|Hne].
  - rewrite lookup_insert_eq. eauto.
  - rewrite lookup_insert_ne by exact Hne. exact Hk.
Qed.

Lemma keeps_with_responses f : keeps (modify (with_responses f)).
Proof. intros w. split; [reflexivity|intros k Hk; exact Hk]. Qed.

Lemma keeps_time_sleep d : keeps (time_sleep d).
Proof. intros w. split; [reflexivity|intros k Hk; exact Hk]. Qed.

Ltac keeps_step :=
  first
    [ apply keeps_ret | apply keeps_raise | apply keeps_gets | apply keeps_emit
    | apply keeps_stats_incr | apply keeps_with_responses | apply keeps_time_sleep
    | apply keeps_bind; [|intros]
    | apply keeps_try_except;
      [|repeat (apply List.Forall_cons; [cbn [snd]; intros|]); try apply List.Forall_nil]
    | match goal with
      | |- keeps (match ?x with _ => _ end) => destruct x
      end ].

Lemma keeps_retry_loop url q todo : keeps (retry_loop url q todo).
Proof.
  induction todo as [|attempt rest IH]; cbn [retry_loop]; [apply keeps_raise|].
  unfold post, retry_or_reraise. repeat keeps_step; exact IH.
Qed.

Lemma keeps_send_to_webhook p wt : keeps (send_to_webhook p wt).
Proof.
  unfold send_to_webhook, session_webhook_url, send_body, rate_limiter_check,
    validator_validate, validator_sanitize, dumps_len, check_payload_size, deliver,
    datetime_now, responses_insert0, responses_keep20, classify_response,
    content_type_name, handlers, record_error, log_webhook_error.
  repeat first [apply keeps_retry_loop | keeps_step | progress cbn [snd]].
Qed.

Lemma send_to_webhook_raises p wt w e w' :
  send_to_webhook p wt w = (Raise e, w') →
  e = attribute_error ∨ ∃ k, e = KeyError k.
Proof.
  rewrite send_to_webhook_resolve. cbv zeta.
  destruct (webhook_urls w !! _) as [url|]; [|intros [= <- <-]; eauto].
  unfold try_except.
  destruct (send_body _ url p w) as [[a|e0] w0]; [discriminate|].
  rewrite handlers_spec.
  destruct (failure_record _ _ _ e0) as [[d msg]|]; [|intros [= <- <-]; auto].
  rewrite record_error_spec.
  destruct (webhook_stats w0 !! _); [discriminate|intros [= <- <-]; eauto].
Qed.

Lemma fan_one_spec p wt results w :
  ∃ v w', fan_one p wt results w = (Ret (<[wt := v]> results), w') ∧
          is_result v ∧ stable w w' ∧
          (in_content_types wt = true →
           ∀ ok msg data w1,
             send_to_webhook p (Some wt) w = (Ret (ok, msg, data), w1) →
             v = FanResult ok msg data).
Proof.
  unfold fan_one, try_except.
  destruct (in_content_types wt) eqn:Hin; cbn [negb].
  2:{ do 2 eexists. split; [reflexivity|]. split; [exact I|].
      split; [apply stable_refl|discriminate]. }
  unfold bind. pose proof (keeps_send_to_webhook p (Some wt) w) as Hst.
  destruct (send_to_webhook p (Some wt) w) as [[[[ok msg] data]|e] w1] eqn:Hsend.
  - do 2 eexists. split; [reflexivity|]. split; [exact I|]. split; [exact Hst|].
    intros _ ok' msg' data' w1' [= <- <- <- <-]. reflexivity.
  - cbn [dispatch_except].
    assert (He : exn_isinstance e CException = true).
    { destruct (send_to_webhook_raises _ _ _ _ _ Hsend) as [-> | [k ->]]; reflexivity. }
    rewrite He. unfold log_webhook_error, emit. py_red.
    do 2 eexists. split; [reflexivity|]. split; [exact I|]. split; [exact Hst|].
    discriminate.
Qed.

Lemma fan_loop_spec p wts : ∀ results w,
  ∃ final w', fan_loop p wts results w = (Ret final, w') ∧ stable w w' ∧
              (∀ k, k ∉ wts → final !! k = results !! k) ∧
              (∀ k, k ∈ wts → ∃ v, final !! k = Some v ∧ is_result v).
Proof.
  induction wts as [|wt rest IH]; intros results w.
  - exists results, w. split; [reflexivity|]. split; [apply stable_refl|].
    split; [reflexivity|]. intros k Hk. inversion Hk.
  - cbn [fan_loop]. unfold bind.
    destruct (fan_one_spec p wt results w) as (v & w1 & -> & Hv & Hst1 & _).
    destruct (IH (<[wt := v]> results) w1) as (final & w' & -> & Hst & Hframe & Hall).
    exists final, w'. split; [reflexivity|].
    split; [eapply stable_trans; eassumption|]. split.
    + intros k Hk. rewrite not_elem_of_cons in Hk. destruct Hk as [Hne Hk].
      rewrite (Hframe k Hk). apply lookup_insert_ne. congruence.
    + intros k Hk. destruct (decide (k ∈ rest)) as [Hin|Hnin]; [auto|].
      apply elem_of_cons in Hk as [->|Hk]; [|contradiction].
      rewrite (Hframe wt Hnin), lookup_insert_eq. eauto.
Qed.

Lemma content_type_not_empty wt : in_content_types wt = true → String.eqb wt "" = false.
Proof.
  intros Hin. destruct (String.eqb wt "") eqn:He; [|reflexivity].
  apply String.eqb_eq in He. subst. discriminate.
Qed.

Lemma classify_response_spec wt status_code text data w s :
  webhook_stats w !! wt = Some s →
  classify_response wt status_code text data w =
  if (status_code =? 200)%Z then
    let w' := with_stats (λ m, <[wt := bump CSuccess s]> m) w in
    match assoc wt CONTENT_TYPES with
    | Some name => (Ret (true, MsgSent name, data), w')
    | None => (Raise (KeyError wt), w')
    end
  else
    (Ret (false, response_message status_code text, data),
     with_stats (λ m, <[wt := bump CErrors s]> m) w).
Proof.
  intros Hs. unfold classify_response, stats_incr, content_type_name,
    response_message.
  destruct (status_code =? 200)%Z; py_red.
  { rewrite Hs. destruct (assoc wt CONTENT_TYPES); reflexivity. }
  destruct (status_code =? 429)%Z; py_red; [rewrite Hs; reflexivity|].
  destruct (500 <=? status_code)%Z; py_red; [rewrite Hs; reflexivity|].
  destruct (400 <=? status_code)%Z; py_red; rewrite Hs; reflexivity.
Qed.

Lemma send_to_webhook_answered p wt w url s n status_code text :
  webhook_urls w !! resolved wt w = Some url →
  webhook_stats w !! resolved wt w = Some s →
  fst (check_rate_limit (events w) (user_id w) (resolved wt w)) = true →
  fst (validate_webhook_payload p) = true →
  json_dumps_len (sanitize_payload p) = Ret n → (n ≤ 10 * 1024 * 1024)%N →
  requests_post (events (gated (resolved wt w) w)) url (sanitize_payload p)
  = Responded status_code text →
  send_to_webhook p wt w =
  let data := response_data (clock w) (resolved wt w) url status_code text n 0 in
  if (status_code =? 200)%Z then
    match assoc (resolved wt w) CONTENT_TYPES with
    | Some name =>
        (Ret (true, MsgSent name, data),
         answered_world (resolved wt w) url s data CSuccess w)
    | None =>
        (Raise attribute_error,
         answered_world (resolved wt w) url s data CSuccess w)
    end
  else
    (Ret (false, response_message status_code text, data),
     answered_world (resolved wt w) url s data CErrors w).
Proof.
  intros Hurl Hstats Hrate Hvalid Hn Hsize Hnet.
  rewrite send_to_webhook_resolve. cbv zeta. fold (resolved wt w). rewrite Hurl.
  unfold try_except. rewrite send_body_spec.
  destruct (check_rate_limit (events w) (user_id w) (resolved wt w))
    as [rate_ok rate_msg]. cbn [fst] in Hrate. subst rate_ok.
  destruct (validate_webhook_payload p) as [is_valid errs]. cbn [fst] in Hvalid.
  subst is_valid. rewrite Hn. unfold check_payload_size.
  apply N.ltb_ge in Hsize. rewrite Hsize. cbn [ret]. rewrite Hstats.
  rewrite deliver_spec. unfold attempts. rewrite retry_loop_step.
  cbn [events with_stats]. rewrite Hnet. unfold answered. cbv zeta.
  rewrite (classify_response_spec _ _ _ _ _ (bump CSent s))
    by (cbn [webhook_stats with_responses after_post with_event with_stats];
        apply lookup_insert_eq).
  unfold answered_world.
  destruct (status_code =? 200)%Z; [|reflexivity].
  cbv zeta. destruct (assoc (resolved wt w) CONTENT_TYPES); [reflexivity|].
  rewrite handlers_spec. reflexivity.
Qed.

Lemma retry_loop_returns url q todo : ∀ w status_code text attempt w',
  retry_loop url q todo w = (Ret (status_code, text, attempt), w') →
  ∃ seen, requests_post seen url q = Responded status_code text.
Proof.
  induction todo as [|a rest IH]; intros w status_code text attempt w'.
  - discriminate.
  - rewrite retry_loop_step.
    destruct (requests_post (events w) url q) as [s t|e] eqn:Hout.
    + intros [= <- <- <- <-]. eauto.
    + destruct (retryable e); [|discriminate].
      destruct (a =? max_retries - 1)%Z; [discriminate|]. apply IH.
Qed.

Lemma classify_response_true wt status_code text data w msg data' w' :
  classify_response wt status_code text data w = (Ret (true, msg, data'), w') →
  status_code = 200.
Proof.
  unfold classify_response, stats_incr, content_type_name.
  destruct (status_code =? 200)%Z eqn:H200; [intros _; lia|].
  repeat (match goal with
          | |- context [if ?b then _ else _] => destruct b
          end); py_red;
    destruct (webhook_stats w !! wt); discriminate.
Qed.

Lemma send_to_webhook_true p wt w url msg data w' :
  webhook_urls w !! resolved wt w = Some url →
  send_to_webhook p wt w = (Ret (true, msg, data), w') →
  ∃ seen text, requests_post seen url (sanitize_payload p) = Responded 200 text.
Proof.
  intros Hurl. rewrite send_to_webhook_resolve. cbv zeta. fold (resolved wt w).
  rewrite Hurl. unfold try_except.
  destruct (send_body (resolved wt w) url p w) as [[[[ok msg0] data0]|e] w0] eqn:Hbody.
  - intros [= -> -> -> ->]. rewrite send_body_spec in Hbody.
    destruct (check_rate_limit _ _ _) as [[] ?]; [|discriminate].
    destruct (validate_webhook_payload p) as [[] ?]; [|discriminate].
    destruct (json_dumps_len (sanitize_payload p)) as [n|]; [|discriminate].
    destruct (check_payload_size n _) as [[[]|] ?]; [|discriminate].
    destruct (webhook_stats w !! _); [|discriminate].
    rewrite deliver_spec in Hbody.
    destruct (retry_loop url _ attempts _) as [[[[sc tx] a]|e] w1] eqn:Hloop;
      [|discriminate].
    unfold answered in Hbody. cbv zeta in Hbody.
    apply classify_response_true in Hbody as ->.
    destruct (retry_loop_returns _ _ _ _ _ _ _ _ Hloop) as [seen Hseen]. eauto.
  - rewrite handlers_spec.
    destruct (failure_record _ _ _ e) as [[d m]|]; [|discriminate].
    rewrite record_error_spec. destruct (webhook_stats w0 !! _); discriminate.
Qed.

Lemma fan_loop_endpoint p wts (Q : FanVal → Prop) B w0 :
  in_content_types B = true →
  (∀ w, stable w0 w →
        ∃ ok msg data w1,
          send_to_webhook p (Some B) w = (Ret (ok, msg, data), w1) ∧
          Q (FanResult ok msg data)) →
  ∀ results w final w',
    stable w0 w → B ∈ wts →
    fan_loop p wts results w = (Ret final, w') →
    ∃ v, final !! B = Some v ∧ Q v.
Proof.
  intros Hin Hsend. induction wts as [|wt rest IH]; intros results w final w' Hst HB.
  - inversion HB.
  - cbn [fan_loop]. unfold bind.
    destruct (fan_one_spec p wt results w) as (v & w1 & -> & _ & Hst1 & Hv).
    destruct (decide (B ∈ rest)) as [Hrest|Hrest].
    + apply IH; [eapply stable_trans; eassumption|exact Hrest].
    + apply elem_of_cons in HB as [<-|HB]; [|contradiction].
      destruct (fan_loop_spec p rest (<[B := v]> results) w1)
        as (final' & w'' & Hloop & _ & Hframe & _).
      rewrite Hloop. intros [= <- <-].
      destruct (Hsend w Hst) as (ok & msg & data & w2 & Hrun & HQ).
      rewrite (Hframe B Hrest), lookup_insert_eq.
      rewrite (Hv Hin _ _ _ _ Hrun). eauto.
Qed.

Lemma uniform_failure_lookup wts errs wt :
  wt ∈ wts →
  uniform_failure wts errs !! wt
  = Some (FanResult false (MsgFanValidationFailed (take 3 errs))
            [("validation_errors", VStrList errs)]).
Proof.
  unfold uniform_failure. induction wts as [|x rest IH]; intros Hin.
  - inversion Hin.
  - cbn [map list_to_map foldr fst snd]. destruct (decide (x = wt)) as [->|Hne].
    + apply lookup_insert_eq.
    + rewrite lookup_insert_ne by exact Hne. apply IH.
      apply elem_of_cons in Hin as [->|Hin]; [contradiction|exact Hin].
Qed.

Lemma resolved_content_type wt w :
  in_content_types wt = true → resolved (Some wt) w = wt.
Proof.
  intros Hin. unfold resolved, or_selected.
  rewrite (content_type_not_empty wt Hin). reflexivity.
Qed.

Lemma validations_in_app l1 l2 :
  validations_in (l1 ++ l2) = (validations_in l1 + validations_in l2)%nat.
Proof. unfold validations_in. rewrite filter_app, length_app. reflexivity. Qed.

Lemma validations_in_loop url loop :
  Forall (loop_event url) loop → validations_in loop = 0%nat.
Proof.
  induction 1 as [|e l He _ IH]; [reflexivity|].
  change (e :: l) with ([e] ++ l). rewrite validations_in_app, IH.
  destruct e; try destruct He; reflexivity.
Qed.

Lemma validations_in_gates_run p wt w :
  validations_in (gates_run p wt w)
  = if fst (check_rate_limit (events w) (user_id w) wt) then 1%nat else 0%nat.
Proof.
  unfold gates_run.
  destruct (fst (check_rate_limit _ _ _)), (fst (validate_webhook_payload p));
    reflexivity.
Qed.

Lemma send_to_webhook_validations p wt w :
  ∃ new,
    events (snd (send_to_webhook p wt w)) = events w ++ new ∧
    validations_in new
    = match webhook_urls w !! resolved wt w with
      | Some _ =>
          if fst (check_rate_limit (events w) (user_id w) (resolved wt w))
          then 1%nat else 0%nat
      | None => 0%nat
      end.
Proof.
  destruct (webhook_urls w !! resolved wt w) as [url|] eqn:Hurl.
  - destruct (send_to_webhook_events p wt w url Hurl)
      as (loop & tail & Hev & _ & _ & Hloop & _ & Htail).
    exists (gates_run p (resolved wt w) w ++ loop ++ tail). split; [exact Hev|].
    rewrite !validations_in_app, validations_in_gates_run,
      (validations_in_loop url loop Hloop).
    destruct Htail as [-> | ->]; change (validations_in _) with 0%nat at 1; lia.
  - exists []. rewrite send_to_webhook_resolve. cbv zeta.
    fold (resolved wt w). rewrite Hurl, app_nil_r. split; reflexivity.
Qed.

Lemma fan_one_validations p wt results w :
  ∃ new,
    events (snd (fan_one p wt results w)) = events w ++ new ∧
    (validations_in new ≤ 1)%nat ∧
    (in_content_types wt = true → is_Some (webhook_urls w !! wt) →
     (∀ seen u, fst (check_rate_limit seen u wt) = true) → validations_in new = 1%nat).
Proof.
  unfold fan_one, try_except.
  destruct (in_content_types wt) eqn:Hin; cbn [negb].
  2:{ exists []. cbn [snd]. rewrite app_nil_r. split; [reflexivity|].
      split; [cbn; lia|discriminate]. }
  unfold bind.
  destruct (send_to_webhook_validations p (Some wt) w) as (new & Hev & Hn).
  rewrite (resolved_content_type wt w Hin) in Hn.
  assert (Hcount : (validations_in new ≤ 1)%nat ∧
                   (is_Some (webhook_urls w !! wt) → (∀ seen u, fst (check_rate_limit seen u wt) = true) →
                    validations_in new = 1%nat)).
  { rewrite Hn. destruct (webhook_urls w !! wt) as [url|].
    - destruct (fst (check_rate_limit (events w) (user_id w) wt)) eqn:Hrate.
      + split; [lia|reflexivity].
      + split; [lia|]. intros _ Hnever. rewrite Hnever in Hrate. discriminate.
    - split; [lia|]. intros [? H]. discriminate. }
  destruct (send_to_webhook p (Some wt) w) as [[[[ok msg] data]|e] w1] eqn:Hsend.
  - exists new. cbn [snd] in *. split; [exact Hev|]. split; [apply Hcount|].
    intros _. apply Hcount.
  - cbn [dispatch_except snd] in *.
    destruct (exn_isinstance e CException).
    + unfold log_webhook_error, emit. py_red. cbn [snd events with_event].
      exists (new ++ [EvLogError wt]). rewrite Hev, <- app_assoc.
      split; [reflexivity|]. rewrite validations_in_app.
      change (validations_in [EvLogError wt]) with 0%nat. rewrite Nat.add_0_r.
      split; [apply Hcount|]. intros _. apply Hcount.
    + exists new. split; [exact Hev|]. split; [apply Hcount|].
      intros _. apply Hcount.
Qed.

Lemma fan_loop_validations p wts : ∀ results w,
  ∃ new,
    events (snd (fan_loop p wts results w)) = events w ++ new ∧
    (validations_in new ≤ length wts)%nat ∧
    ((∀ wt, wt ∈ wts →
            in_content_types wt = true ∧ is_Some (webhook_urls w !! wt) ∧
            (∀ seen u, fst (check_rate_limit seen u wt) = true)) →
     validations_in new = length wts).
Proof.
  induction wts as [|wt rest IH]; intros results w.
  - exists []. cbn [fan_loop]. unfold ret. cbn [snd]. rewrite app_nil_r.
    split; [reflexivity|]. split; [cbn; lia|reflexivity].
  - cbn [fan_loop]. unfold bind.
    destruct (fan_one_validations p wt results w) as (new1 & Hev1 & Hle1 & Heq1).
    destruct (fan_one_spec p wt results w) as (v & w1 & Hone & _ & Hst & _).
    rewrite Hone in *. cbn [snd] in Hev1.
    destruct (IH (<[wt := v]> results) w1) as (new2 & Hev2 & Hle2 & Heq2).
    exists (new1 ++ new2). rewrite Hev2, Hev1, <- app_assoc.
    split; [reflexivity|]. rewrite validations_in_app. cbn [length].
    split; [lia|]. intros Hall.
    destruct (Hall wt) as (Hin & Hurl & Hnever); [apply list_elem_of_here|].
    rewrite (Heq1 Hin Hurl Hnever), Heq2; [reflexivity|].
    intros wt' Hwt'. destruct (Hall wt') as (Hin' & Hurl' & Hnever');
      [apply list_elem_of_further; exact Hwt'|].
    destruct Hst as [Hurls _]. rewrite Hurls. auto.
Qed.

(** C6 (fan-out).  For a non-empty list of webhook types:
    if the up-front validation fails, the result maps every requested type
    to the same failure and the only event is that validation (no send, no
    history or counter change);
    otherwise the call returns a result for every requested type, and the
    result of an endpoint depends on that endpoint alone: an endpoint that
    is ready and whose URL always answers 200 gets success, an endpoint
    whose requests always time out gets the timeout failure, and an
    endpoint whose requests always fail gets a failure, whatever happens to
    the other endpoints of the list, before or after it.  The up-front
    validation is the first thing the call does, and it is not the only
    one: every dispatch that gets past its rate check validates the payload
    again, which makes at most one more validation per requested type, and
    exactly one more per type when every requested type is a known type
    with a URL whose rate limit never refuses. *)
Theorem fan_out p wts w :
  wts ≠ [] →
  (∀ errs,
      validate_webhook_payload p = (false, errs) →
      send_to_multiple_webhooks p wts w
      = (Ret (uniform_failure wts errs), with_event EvValidate w) ∧
      ∀ wt, wt ∈ wts →
            uniform_failure wts errs !! wt
            = Some (FanResult false (MsgFanValidationFailed (take 3 errs))
                      [("validation_errors", VStrList errs)]))
  ∧
  (fst (validate_webhook_payload p) = true →
   ∃ results w',
     send_to_multiple_webhooks p wts w = (Ret results, w') ∧
     (∀ wt, wt ∈ wts → ∃ ok msg data, results !! wt = Some (FanResult ok msg data)) ∧
     (∀ B url name,
         B ∈ wts → assoc B CONTENT_TYPES = Some name →
         endpoint_ready p B url w → always_answers_200 p url →
         ∃ data, results !! B = Some (FanResult true (MsgSent name) data) ∧
                 dict_get "status_code" data = Some (VInt 200)) ∧
     (∀ A url,
         A ∈ wts → in_content_types A = true →
         endpoint_ready p A url w → always_times_out p url →
         ∃ data, results !! A = Some (FanResult false MsgTimedOut data) ∧
                 dict_get "error" data = Some (VStr "Request timeout")) ∧
     (∀ A url,
         A ∈ wts → webhook_urls w !! A = Some url →
         (∀ seen, ∃ e, requests_post seen url (sanitize_payload p) = Failed e) →
         ∃ msg data, results !! A = Some (FanResult false msg data)) ∧
     (∃ new,
         events w' = events w ++ EvValidate :: new ∧
         (validations_in new ≤ length wts)%nat ∧
         ((∀ wt, wt ∈ wts →
                 in_content_types wt = true ∧ is_Some (webhook_urls w !! wt) ∧
                 ∀ seen u, fst (check_rate_limit seen u wt) = true) →
          validations_in new = length wts))).
Proof.
  intros Hne. split.
  - intros errs Hinv. split; [|apply uniform_failure_lookup].
    unfold send_to_multiple_webhooks, validator_validate, emit.
    destruct wts as [|x rest]; [congruence|]. py_red. rewrite Hinv. reflexivity.
  - intros Hvalid.
    assert (Hsend : send_to_multiple_webhooks p wts w
                    = fan_loop p wts ∅ (with_event EvValidate w)).
    { unfold send_to_multiple_webhooks, validator_validate, emit.
      destruct wts as [|x rest]; [congruence|]. py_red.
      destruct (validate_webhook_payload p) as [is_valid errs].
      cbn [fst] in Hvalid. subst is_valid. reflexivity. }
    rewrite Hsend.
    destruct (fan_loop_spec p wts ∅ (with_event EvValidate w))
      as (final & w' & Hloop & _ & _ & Hall).
    exists final, w'. split; [exact Hloop|]. split; [|split; [|split; [|split]]].
    + intros wt Hin. destruct (Hall wt Hin) as ([txt|ok msg data] & Hv & Hres);
        [destruct Hres|eauto].
    + intros B url name HB Hname (Hurl & [s0 Hs0] & Hrate & n & Hn & Hsize) Hnet.
      assert (Hin : in_content_types B = true)
        by (unfold in_content_types; rewrite Hname; reflexivity).
      destruct (fan_loop_endpoint p wts
                  (λ v, ∃ data, v = FanResult true (MsgSent name) data ∧
                                dict_get "status_code" data = Some (VInt 200))
                  B (with_event EvValidate w) Hin) with (results := (∅ : gmap string FanVal))
                  (w := with_event EvValidate w) (final := final) (w' := w')
        as (v & Hv & data & -> & Hdata); [|apply stable_refl|exact HB|exact Hloop|eauto].
      intros w1 [Hurls Hstats].
      destruct (Hstats B) as [s1 Hs1]; [cbn [webhook_stats with_event]; eauto|].
      destruct (Hnet (events (gated (resolved (Some B) w1) w1))) as [text Htext].
      rewrite resolved_content_type in Htext by exact Hin.
      pose proof (send_to_webhook_answered p (Some B) w1 url s1 n 200 text) as Hrun.
      rewrite !resolved_content_type in Hrun by exact Hin.
      rewrite Hrun; [|rewrite Hurls; exact Hurl|exact Hs1|apply Hrate|exact Hvalid
                      |exact Hn|exact Hsize|exact Htext].
      cbv zeta. change (200 =? 200)%Z with true. cbv iota. rewrite Hname.
      do 4 eexists. split; [reflexivity|]. eexists. split; reflexivity.
    + intros A url HA Hin (Hurl & [s0 Hs0] & Hrate & n & Hn & Hsize) Hnet.
      destruct (fan_loop_endpoint p wts
                  (λ v, ∃ data, v = FanResult false MsgTimedOut data ∧
                                dict_get "error" data = Some (VStr "Request timeout"))
                  A (with_event EvValidate w) Hin) with (results := (∅ : gmap string FanVal))
                  (w := with_event EvValidate w) (final := final) (w' := w')
        as (v & Hv & data & -> & Hdata); [|apply stable_refl|exact HA|exact Hloop|eauto].
      intros w1 [Hurls Hstats].
      destruct (Hstats A) as [s1 Hs1]; [cbn [webhook_stats with_event]; eauto|].
      destruct (send_to_webhook_timeouts p (Some A) w1 url s1) as (w2 & Hrun & _).
      * rewrite resolved_content_type by exact Hin. rewrite Hurls. exact Hurl.
      * rewrite resolved_content_type by exact Hin. exact Hs1.
      * rewrite resolved_content_type by exact Hin.
        split; [apply Hrate|]. split; [exact Hvalid|eauto].
      * exact Hnet.
      * cbv zeta in Hrun. rewrite Hrun.
        do 4 eexists. split; [reflexivity|]. eexists. split; reflexivity.
    + intros A url HA Hurl Hnet.
      assert (Hgen : ∀ results w1 final1 w2,
                 stable (with_event EvValidate w) w1 →
                 fan_loop p wts results w1 = (Ret final1, w2) →
                 ∃ msg data, final1 !! A = Some (FanResult false msg data)).
      { clear Hloop Hall Hsend Hne. induction wts as [|wt rest IH];
          intros results w1 final1 w2 Hst; [inversion HA|].
        cbn [fan_loop]. unfold bind.
        destruct (fan_one p wt results w1) as [[results1|e] w1'] eqn:Hone.
        2:{ destruct (fan_one_spec p wt results w1) as (? & ? & Heq & _).
            rewrite Hone in Heq. discriminate. }
        destruct (fan_one_spec p wt results w1) as (v & w1'' & Heq & _ & Hst1 & _).
        rewrite Hone in Heq. injection Heq as -> <-.
        destruct (decide (A ∈ rest)) as [Hrest|Hrest].
        { apply IH; [exact Hrest|eapply stable_trans; eassumption]. }
        apply elem_of_cons in HA as [<-|HA]; [|contradiction].
        destruct (fan_loop_spec p rest (<[A := v]> results) w1')
          as (final' & w'' & Hl & _ & Hframe & _).
        rewrite Hl. intros [= <- <-]. rewrite (Hframe A Hrest).
        revert Hone. unfold fan_one, try_except.
        destruct (in_content_types A) eqn:Hin; cbn [negb].
        { unfold bind.
          destruct (send_to_webhook p (Some A) w1) as [[[[ok msg] data]|e] w3] eqn:Hrun.
          - intros [= <- <-]. rewrite lookup_insert_eq. destruct ok; [|eauto].
            destruct (send_to_webhook_true p (Some A) w1 url msg data w3)
              as (seen & text & Hresp); [|exact Hrun|].
            + rewrite resolved_content_type by exact Hin.
              destruct Hst as [-> _]. exact Hurl.
            + destruct (Hnet seen) as [e He]. congruence.
          - cbn [dispatch_except].
            destruct (send_to_webhook_raises _ _ _ _ _ Hrun) as [-> | [k ->]];
              cbn [exn_isinstance attribute_error]; unfold log_webhook_error, emit;
              py_red; intros [= <- <-]; rewrite lookup_insert_eq; eauto. }
        intros [= <- <-]. rewrite lookup_insert_eq. eauto. }
      apply (Hgen ∅ (with_event EvValidate w) final w' (stable_refl _) Hloop).
    + destruct (fan_loop_validations p wts ∅ (with_event EvValidate w))
        as (new & Hev & Hle & Heq).
      rewrite Hloop in Hev. cbn [snd events with_event] in Hev.
      exists new. split; [rewrite Hev, <- app_assoc; reflexivity|].
      split; [exact Hle|exact Heq].
Qed.

Lemma classify_response_ret wt status_code text data w ok msg data' w' :
  classify_response wt status_code text data w = (Ret (ok, msg, data'), w') →
  data' = data ∧ webhook_responses w' = webhook_responses w.
Proof.
  unfold classify_response, stats_incr, content_type_name.
  repeat (match goal with
          | |- context [if ?b then _ else _] => destruct b
          end); py_red;
    destruct (webhook_stats w !! wt); py_red; try discriminate;
    try (destruct (assoc wt CONTENT_TYPES); try discriminate);
    intros [= <- <- <- <-]; split; reflexivity.
Qed.

Lemma classify_response_raise wt status_code text data w e w' :
  classify_response wt status_code text data w = (Raise e, w') → ∃ k, e = KeyError k.
Proof.
  unfold classify_response, stats_incr, content_type_name.
  repeat (match goal with
          | |- context [if ?b then _ else _] => destruct b
          end); py_red;
    destruct (webhook_stats w !! wt); py_red; try discriminate;
    try (destruct (assoc wt CONTENT_TYPES); try discriminate);
    intros [= <- <-]; eauto.
Qed.

Lemma retry_loop_responses url q todo : ∀ w,
  webhook_responses (snd (retry_loop url q todo w)) = webhook_responses w.
Proof.
  induction todo as [|a rest IH]; intros w; [reflexivity|].
  rewrite retry_loop_step.
  destruct (requests_post (events w) url q) as [sc tx|e]; [reflexivity|].
  destruct (retryable e); [|reflexivity].
  destruct (a =? max_retries - 1)%Z; [reflexivity|]. rewrite IH. reflexivity.
Qed.

Lemma send_body_raise wt url p w e w0 :
  send_body wt url p w = (Raise e, w0) →
  webhook_responses w0 = webhook_responses w ∨ ∃ k, e = KeyError k.
Proof.
  rewrite send_body_spec.
  destruct (check_rate_limit _ _ _) as [[] ?]; [|intros [= <- <-]; left; reflexivity].
  destruct (validate_webhook_payload p) as [[] ?];
    [|intros [= <- <-]; left; reflexivity].
  destruct (json_dumps_len (sanitize_payload p)) as [n|];
    [|intros [= <- <-]; left; reflexivity].
  destruct (check_payload_size n _) as [[[]|] ?];
    [|intros [= <- <-]; left; reflexivity].
  destruct (webhook_stats w !! _) as [st|]; [|intros [= <- <-]; left; reflexivity].
  rewrite deliver_spec.
  pose proof (retry_loop_responses url (sanitize_payload p) attempts
                (with_stats (λ m, <[wt := bump CSent st]> m) (gated wt w))) as Hr.
  destruct (retry_loop url _ attempts _) as [[[[sc tx] a]|e1] w2].
  - unfold answered. cbv zeta. intros Hc. right.
    apply (classify_response_raise _ _ _ _ _ _ _ Hc).
  - intros [= <- <-]. left. exact Hr.
Qed.

(** Every call that returns leaves the record it returns at the head of the
    history; and when that record is the one of a response, the history has
    been cut to twenty entries. *)
Lemma send_to_webhook_history p wt w ok msg data w' :
  send_to_webhook p wt w = (Ret (ok, msg, data), w') →
  ∃ older, webhook_responses w' = data :: older ∧
           older `prefix_of` webhook_responses w ∧
           (is_Some (dict_get "status_code" data) → (length older < 20)%nat).
Proof.
  rewrite send_to_webhook_resolve. cbv zeta.
  destruct (webhook_urls w !! _) as [url|]; [|discriminate].
  unfold try_except.
  destruct (send_body _ url p w) as [[[[ok0 msg0] data0]|e] w0] eqn:Hbody.
  - intros [= -> -> -> ->]. rewrite send_body_spec in Hbody.
    destruct (check_rate_limit _ _ _) as [[] ?]; [|discriminate].
    destruct (validate_webhook_payload p) as [[] ?]; [|discriminate].
    destruct (json_dumps_len (sanitize_payload p)) as [n|]; [|discriminate].
    destruct (check_payload_size n _) as [[[]|] ?]; [|discriminate].
    destruct (webhook_stats w !! _) as [st|]; [|discriminate].
    rewrite deliver_spec in Hbody.
    pose proof (retry_loop_responses url (sanitize_payload p) attempts
                  (with_stats (λ m, <[or_selected wt (selected_webhook_type w)
                                        := bump CSent st]> m)
                     (gated (or_selected wt (selected_webhook_type w)) w))) as Hr.
    destruct (retry_loop url _ attempts _) as [[[[sc tx] a]|e] w2] eqn:Hloop;
      [|discriminate].
    unfold answered in Hbody. cbv zeta in Hbody.
    apply classify_response_ret in Hbody as [-> Hresp]. rewrite Hresp.
    cbn [webhook_responses with_responses snd] in *. rewrite Hr.
    exists (take 19 (webhook_responses w)).
    split; [reflexivity|]. split; [apply prefix_take|].
    intros _. rewrite length_take. lia.
  - rewrite handlers_spec.
    destruct (failure_record _ _ _ e) as [[d m]|] eqn:Hrec; [|discriminate].
    rewrite record_error_spec. destruct (webhook_stats w0 !! _); [|discriminate].
    intros [= <- <- <- <-]. cbn [recorded webhook_responses with_event with_stats
                                   with_responses].
    exists (webhook_responses w0). split; [reflexivity|].
    destruct (send_body_raise _ _ _ _ _ _ Hbody) as [Hsame|[k ->]];
      [|discriminate].
    rewrite Hsame. split; [reflexivity|].
    intros [v Hv]. destruct e; try discriminate; injection Hrec as <- _;
      discriminate.
Qed.

End DispatcherTheorems.

(** ** The dispatcher: frames, outcomes and the fan-out *)

Section DispatcherFrames.

Import record.

Context {Payload : Type} {env : Collaborators Payload}.

Lemma retry_loop_stats url q todo : ∀ w,
  webhook_stats (snd (retry_loop url q todo w)) = webhook_stats w.
Proof.
  induction todo as [|a rest IH]; intros w; [reflexivity|].
  rewrite retry_loop_step.
  destruct (requests_post (events w) url q) as [sc tx|e]; [reflexivity|].
  destruct (retryable e); [|reflexivity].
  destruct (a =? max_retries - 1)%Z; [reflexivity|]. rewrite IH. reflexivity.
Qed.

Lemma retry_loop_session url q todo : ∀ w,
  selected_webhook_type (snd (retry_loop url q todo w)) = selected_webhook_type w ∧
  user_name (snd (retry_loop url q todo w)) = user_name w.
Proof.
  induction todo as [|a rest IH]; intros w; [split; reflexivity|].
  rewrite retry_loop_step.
  destruct (requests_post (events w) url q) as [sc tx|e]; [split; reflexivity|].
  destruct (retryable e); [|split; reflexivity].
  destruct (a =? max_retries - 1)%Z; [split; reflexivity|].
  destruct (IH (slept (retry_delay * (a + 1)) (after_post url w))) as [-> ->].
  split; reflexivity.
Qed.

Lemma retry_loop_clock url q w :
  (clock w ≤ clock (snd (retry_loop url q attempts w)) ≤ clock w + seconds 3)%Z.
Proof.
  unfold attempts. rewrite !retry_loop_step.
  change (0 =? max_retries - 1)%Z with false.
  change (1 =? max_retries - 1)%Z with false.
  change (2 =? max_retries - 1)%Z with true. cbv iota.
  repeat match goal with
         | |- context [match ?x with Responded _ _ => _ | Failed _ => _ end] =>
             destruct x
         | |- context [if retryable ?e then _ else _] => destruct (retryable e)
         end; unfold retry_delay, slept, after_post, seconds;
    cbn [snd clock with_event with_clock]; lia.
Qed.


Lemma posts_in_app a b : posts_in (a ++ b) = (posts_in a + posts_in b)%nat.
Proof. unfold posts_in. rewrite filter_app, length_app. reflexivity. Qed.

Lemma posts_in_quiet g : Forall (λ e, is_post e = false) g → posts_in g = 0%nat.
Proof. intros H. unfold posts_in. rewrite filter_quiet by exact H. reflexivity. Qed.

Lemma posts_in_gated wt w : posts_in (events (gated wt w)) = posts_in (events w).
Proof.
  unfold gated. cbn [events with_event]. rewrite <- !app_assoc, posts_in_app.
  rewrite (posts_in_quiet (_ ++ _)); [lia|]. repeat constructor.
Qed.

(** The loop returns the value of [attempt] at the [break]: the index of the
    request that was answered. *)
Lemma retry_loop_attempt url q todo : ∀ w sc text a w',
  retry_loop url q todo w = (Ret (sc, text, a), w') →
  ∃ i, todo !! i = Some a ∧
       posts_in (events w') = (posts_in (events w) + S i)%nat.
Proof.
  induction todo as [|a0 rest IH]; intros w sc text a w'; [discriminate|].
  rewrite retry_loop_step.
  destruct (requests_post (events w) url q) as [sc0 tx0|e].
  - intros [= <- <- <- <-]. exists 0%nat. split; [reflexivity|].
    unfold after_post. cbn [events with_event]. rewrite posts_in_app. reflexivity.
  - destruct (retryable e); [|discriminate].
    destruct (a0 =? max_retries - 1)%Z; [discriminate|].
    intros H. destruct (IH _ _ _ _ _ H) as (i & Hi & Hp).
    exists (S i). split; [exact Hi|].
    rewrite Hp. unfold slept, after_post. cbn [events with_event with_clock].
    rewrite !posts_in_app.
    change (posts_in [EvPost url]) with 1%nat.
    change (posts_in [EvSleep (retry_delay * (a0 + 1))]) with 0%nat. lia.
Qed.

Lemma retry_loop_raises url q w e w' :
  retry_loop url q attempts w = (Raise e, w') →
  ∃ seen, requests_post seen url q = Failed e.
Proof.
  unfold attempts. rewrite !retry_loop_step.
  change (0 =? max_retries - 1)%Z with false.
  change (1 =? max_retries - 1)%Z with false.
  change (2 =? max_retries - 1)%Z with true. cbv iota.
  repeat match goal with
         | |- context [match ?x with Responded _ _ => _ | Failed _ => _ end] =>
             let H := fresh "Hpost" in destruct x eqn:H
         | |- context [if retryable ?e then _ else _] => destruct (retryable e)
         end; intros [= <- <-]; eauto.
Qed.

Lemma check_payload_size_ret n w u w' :
  check_payload_size n w = (Ret u, w') → (n ≤ 10 * 1024 * 1024)%N ∧ w' = w.
Proof.
  unfold check_payload_size.
  destruct (10 * 1024 * 1024 <? n)%N eqn:Hn.
  - destruct (format_file_size n); discriminate.
  - intros [= <- <-]. apply N.ltb_ge in Hn. split; [exact Hn|reflexivity].
Qed.

Lemma send_body_ret wt url p w ok msg data w1 :
  send_body wt url p w = (Ret (ok, msg, data), w1) →
  ∃ s n sc text a wl,
    webhook_stats w !! wt = Some s ∧
    gates_pass p wt w ∧
    json_dumps_len (sanitize_payload p) = Ret n ∧
    retry_loop url (sanitize_payload p) attempts
      (with_stats (λ m, <[wt := bump CSent s]> m) (gated wt w))
    = (Ret (sc, text, a), wl) ∧
    data = response_data (clock wl) wt url sc text n a ∧
    ok = (sc =? 200)%Z ∧
    (ok = true → ∃ name, assoc wt CONTENT_TYPES = Some name ∧ msg = MsgSent name) ∧
    (ok = false → msg = response_message sc text) ∧
    w1 = with_stats
           (λ m, <[wt := bump (if ok then CSuccess else CErrors) (bump CSent s)]> m)
           (with_responses (λ l, take 20 (data :: l)) wl).
Proof.
  rewrite send_body_spec.
  destruct (check_rate_limit _ _ _) as [[] rmsg] eqn:Hrate; [|discriminate].
  destruct (validate_webhook_payload p) as [[] errs] eqn:Hval; [|discriminate].
  destruct (json_dumps_len (sanitize_payload p)) as [n|] eqn:Hdumps; [|discriminate].
  destruct (check_payload_size n _) as [[[]|] wsz] eqn:Hsize; [|discriminate].
  apply check_payload_size_ret in Hsize as [Hn _].
  destruct (webhook_stats w !! wt) as [st|] eqn:Hs; [|discriminate].
  rewrite deliver_spec.
  pose proof (retry_loop_stats url (sanitize_payload p) attempts
                (with_stats (λ m, <[wt := bump CSent st]> m) (gated wt w))) as Hst.
  destruct (retry_loop url _ attempts _) as [[[[sc tx] a]|e] wl] eqn:Hloop;
    [|discriminate].
  unfold answered. cbv zeta.
  rewrite (classify_response_spec _ _ _ _ _ (bump CSent st)).
  2:{ cbn [webhook_stats with_responses snd] in *. rewrite Hst.
      cbn [webhook_stats with_stats]. apply lookup_insert_eq. }
  intros Hres. exists st, n, sc, tx, a, wl.
  split; [reflexivity|].
  split.
  { unfold gates_pass. rewrite Hrate, Hval, Hdumps. eauto. }
  split; [reflexivity|]. split; [exact Hloop|].
  destruct (sc =? 200)%Z.
  - cbv zeta in Hres. destruct (assoc wt CONTENT_TYPES) as [name|]; [|discriminate].
    injection Hres as <- <- <- <-.
    repeat split; eauto; discriminate.
  - injection Hres as <- <- <- <-.
    repeat split; eauto; discriminate.
Qed.


Lemma send_body_raised wt url p w e w0 :
  send_body wt url p w = (Raise e, w0) →
  (gates_fail p wt w ∧ webhook_stats w0 = webhook_stats w ∧
   ((∃ m, e = RateLimitError m) ∨ (∃ errs, e = ValidationError errs) ∨
    json_dumps_len (sanitize_payload p) = Raise e ∨
    (∃ n, json_dumps_len (sanitize_payload p) = Ret n ∧
          (10 * 1024 * 1024 < n)%N ∧
          match format_file_size n with
          | Ret t => e = PayloadTooLargeError n (unit_of t)
          | Raise e' => e = e'
          end)))
  ∨ (gates_pass p wt w ∧ webhook_stats w !! wt = None ∧
     webhook_stats w0 = webhook_stats w ∧ e = KeyError wt)
  ∨ (gates_pass p wt w ∧ ∃ s, webhook_stats w !! wt = Some s ∧
      ((webhook_stats w0 = <[wt := bump CSent s]> (webhook_stats w) ∧
        ∃ seen, requests_post seen url (sanitize_payload p) = Failed e) ∨
       (webhook_stats w0 = <[wt := bump CSuccess (bump CSent s)]> (webhook_stats w) ∧
        e = KeyError wt ∧ assoc wt CONTENT_TYPES = None))).
Proof.
  rewrite send_body_spec. unfold gates_fail, gates_pass, size_gate_fails.
  destruct (check_rate_limit _ _ _) as [[] rmsg] eqn:Hrate; cbn [fst].
  2:{ intros [= <- <-]. left. split; [auto|]. split; [reflexivity|]. eauto. }
  destruct (validate_webhook_payload p) as [[] errs] eqn:Hval; cbn [fst].
  2:{ intros [= <- <-]. left. split; [auto|]. split; [reflexivity|]. eauto. }
  destruct (json_dumps_len (sanitize_payload p)) as [n|e0] eqn:Hdumps.
  2:{ intros [= <- <-]. left. split; [right; right; exact I|].
      split; [reflexivity|]. right; right; left; reflexivity. }
  unfold check_payload_size.
  destruct (10 * 1024 * 1024 <? n)%N eqn:Hn.
  { apply N.ltb_lt in Hn. intros Hres. left. split; [auto|].
    destruct (format_file_size n) as [t|e1] eqn:Hf; injection Hres as <- <-;
      (split; [reflexivity|]); right; right; right; exists n; rewrite Hf; auto. }
  apply N.ltb_ge in Hn. unfold ret.
  destruct (webhook_stats w !! wt) as [st|] eqn:Hs.
  2:{ intros [= <- <-]. right. left. split; [eauto|]. auto. }
  rewrite deliver_spec.
  pose proof (retry_loop_stats url (sanitize_payload p) attempts
                (with_stats (λ m, <[wt := bump CSent st]> m) (gated wt w))) as Hst.
  destruct (retry_loop url _ attempts _) as [[[[sc tx] a]|e1] wl] eqn:Hloop.
  - unfold answered. cbv zeta.
    rewrite (classify_response_spec _ _ _ _ _ (bump CSent st)).
    2:{ cbn [webhook_stats with_responses snd] in *. rewrite Hst.
        cbn [webhook_stats with_stats]. apply lookup_insert_eq. }
    destruct (sc =? 200)%Z; [|discriminate]. cbv zeta.
    destruct (assoc wt CONTENT_TYPES) as [name|] eqn:Hname; [discriminate|].
    intros [= <- <-]. right. right. split; [eauto|]. exists st. split; [reflexivity|].
    right. cbn [webhook_stats with_stats with_responses snd] in *. rewrite Hst.
    cbn [webhook_stats with_stats]. rewrite insert_insert_eq. auto.
  - intros [= <- <-]. right. right. split; [eauto|]. exists st. split; [reflexivity|].
    left. cbn [snd] in Hst. rewrite Hst. split; [reflexivity|].
    apply (retry_loop_raises _ _ _ _ _ Hloop).
Qed.

Lemma classify_response_fields wt status_code text data w :
  let w' := snd (classify_response wt status_code text data w) in
  selected_webhook_type w' = selected_webhook_type w ∧
  user_name w' = user_name w ∧ clock w' = clock w.
Proof.
  unfold classify_response, stats_incr, content_type_name. py_red.
  repeat (match goal with
          | |- context [if ?b then _ else _] => destruct b; py_red
          | |- context [match ?o with Some _ => _ | None => _ end] => destruct o; py_red
          end); repeat split; reflexivity.
Qed.

Lemma send_body_fields wt url p w :
  let w0 := snd (send_body wt url p w) in
  selected_webhook_type w0 = selected_webhook_type w ∧
  user_name w0 = user_name w ∧
  (clock w ≤ clock w0 ≤ clock w + seconds 3)%Z.
Proof.
  rewrite send_body_spec. unfold seconds.
  destruct (check_rate_limit _ _ _) as [[] rmsg]; [|cbn; repeat split; lia].
  destruct (validate_webhook_payload p) as [[] errs]; [|cbn; repeat split; lia].
  destruct (json_dumps_len (sanitize_payload p)) as [n|e0]; [|cbn; repeat split; lia].
  destruct (check_payload_size n _) as [[[]|] wsz]; [|cbn; repeat split; lia].
  destruct (webhook_stats w !! wt) as [st|]; [|cbn; repeat split; lia].
  rewrite deliver_spec.
  pose proof (retry_loop_session url (sanitize_payload p) attempts
                (with_stats (λ m, <[wt := bump CSent st]> m) (gated wt w))) as [Hsel Hus].
  pose proof (retry_loop_clock url (sanitize_payload p)
                (with_stats (λ m, <[wt := bump CSent st]> m) (gated wt w))) as Hcl.
  unfold seconds in Hcl.
  destruct (retry_loop url _ attempts _) as [[[[sc tx] a]|e1] wl].
  - unfold answered. cbv zeta.
    destruct (classify_response_fields wt sc tx
                (response_data (clock wl) wt url sc tx n a)
                (with_responses
                   (λ l, take 20 (response_data (clock wl) wt url sc tx n a :: l)) wl))
      as (-> & -> & ->).
    cbn in *. rewrite Hsel, Hus. repeat split; lia.
  - cbn in *. rewrite Hsel, Hus. repeat split; lia.
Qed.

Lemma handlers_fields wt url e w :
  let w' := snd (dispatch_except (handlers wt url) e w) in
  selected_webhook_type w' = selected_webhook_type w ∧
  user_name w' = user_name w ∧ clock w' = clock w.
Proof.
  rewrite handlers_spec.
  destruct (failure_record (clock w) wt url e) as [[d msg]|]; [|repeat split; reflexivity].
  rewrite record_error_spec.
  destruct (webhook_stats w !! wt); repeat split; reflexivity.
Qed.


Lemma gates_pass_or_fail p wt w : gates_pass p wt w ∨ gates_fail p wt w.
Proof.
  unfold gates_pass, gates_fail, size_gate_fails.
  destruct (fst (check_rate_limit (events w) (user_id w) wt)); [|auto].
  destruct (fst (validate_webhook_payload p)); [|auto].
  destruct (json_dumps_len (sanitize_payload p)) as [n|e]; [|auto].
  destruct (N.le_gt_cases n (10 * 1024 * 1024)) as [Hle|Hgt]; eauto 8.
Qed.

Lemma gates_pass_not_fail p wt w : gates_pass p wt w → ¬ gates_fail p wt w.
Proof.
  unfold gates_pass, gates_fail, size_gate_fails.
  intros (Hr & Hv & n & Hd & Hn) [H|[H|H]]; [congruence|congruence|].
  rewrite Hd in H. lia.
Qed.

(** The counters of the endpoint after a call, by its outcome. *)
Lemma send_to_webhook_stats p wt w url s :
  webhook_urls w !! resolved wt w = Some url →
  webhook_stats w !! resolved wt w = Some s →
  ∃ s', webhook_stats (snd (send_to_webhook p wt w))
        = <[resolved wt w := s']> (webhook_stats w) ∧
    match fst (send_to_webhook p wt w) with
    | Ret (true, _, _) =>
        gates_pass p (resolved wt w) w ∧ s' = bump CSuccess (bump CSent s)
    | Ret (false, _, _) =>
        (gates_fail p (resolved wt w) w ∧ s' = bump CErrors s) ∨
        (gates_pass p (resolved wt w) w ∧ s' = bump CErrors (bump CSent s))
    | Raise _ =>
        (gates_fail p (resolved wt w) w ∧ s' = s) ∨
        (gates_pass p (resolved wt w) w ∧
         (s' = bump CSent s ∨ s' = bump CSuccess (bump CSent s)))
    end.
Proof.
  intros Hurl Hs. rewrite send_to_webhook_resolve. cbv zeta.
  unfold resolved in *. set (k := or_selected wt (selected_webhook_type w)) in *.
  rewrite Hurl. unfold try_except.
  destruct (send_body k url p w) as [[[[ok msg] data]|e] w0] eqn:Hbody.
  - apply send_body_ret in Hbody
      as (s0 & n & sc & tx & a & wl & Hs0 & Hpass & _ & Hloop & _ & _ & _ & _ & ->).
    assert (s0 = s) as -> by congruence.
    pose proof (retry_loop_stats url (sanitize_payload p) attempts
                  (with_stats (λ m, <[k := bump CSent s]> m) (gated k w))) as Hst.
    rewrite Hloop in Hst. cbn [snd fst webhook_stats with_stats with_responses] in *.
    rewrite Hst, insert_insert_eq. eexists. split; [reflexivity|].
    destruct ok; auto.
  - rewrite handlers_spec.
    apply send_body_raised in Hbody as
        [(Hfail & Hst & _) | [(_ & Hnone & _) | (Hpass & s0 & Hs0 & Hcases)]].
    + destruct (failure_record (clock w0) k url e) as [[d m]|].
      * rewrite record_error_spec, Hst, Hs.
        cbn [snd fst recorded webhook_stats with_event with_stats with_responses].
        rewrite Hst. eexists. split; [reflexivity|]. auto.
      * cbn [snd fst]. rewrite Hst. exists s. split; [|auto].
        symmetry. apply insert_id. exact Hs.
    + congruence.
    + assert (s0 = s) as -> by congruence.
      destruct Hcases as [(Hst & _) | (Hst & -> & _)].
      * destruct (failure_record (clock w0) k url e) as [[d m]|].
        -- rewrite record_error_spec, Hst, lookup_insert_eq.
           cbn [snd fst recorded webhook_stats with_event with_stats with_responses].
           rewrite Hst, insert_insert_eq. eexists. split; [reflexivity|]. auto.
        -- cbn [snd fst]. rewrite Hst. eexists. split; [reflexivity|]. auto.
      * cbn [failure_record snd fst]. rewrite Hst. eexists. split; [reflexivity|]. auto.
Qed.

Lemma send_to_webhook_no_counters p wt w :
  webhook_stats w !! resolved wt w = None →
  webhook_stats (snd (send_to_webhook p wt w)) = webhook_stats w.
Proof.
  intros Hs. rewrite send_to_webhook_resolve. cbv zeta.
  unfold resolved in *. set (k := or_selected wt (selected_webhook_type w)) in *.
  destruct (webhook_urls w !! k) as [url|]; [|reflexivity].
  unfold try_except.
  destruct (send_body k url p w) as [[[[ok msg] data]|e] w0] eqn:Hbody.
  - apply send_body_ret in Hbody as (s0 & ? & ? & ? & ? & ? & Hs0 & _). congruence.
  - rewrite handlers_spec.
    assert (Hst : webhook_stats w0 = webhook_stats w).
    { apply send_body_raised in Hbody as
          [(_ & Hst & _) | [(_ & _ & Hst & _) | (_ & s0 & Hs0 & _)]];
        [exact Hst|exact Hst|congruence]. }
    destruct (failure_record (clock w0) k url e) as [[d m]|]; [|exact Hst].
    rewrite record_error_spec, Hst, Hs. exact Hst.
Qed.

Lemma send_to_webhook_fields p wt w :
  let w' := snd (send_to_webhook p wt w) in
  selected_webhook_type w' = selected_webhook_type w ∧
  user_name w' = user_name w ∧
  (clock w ≤ clock w' ≤ clock w + seconds 3)%Z.
Proof.
  rewrite send_to_webhook_resolve. cbv zeta.
  set (k := or_selected wt (selected_webhook_type w)).
  destruct (webhook_urls w !! k) as [url|];
    [|cbn [snd]; unfold seconds; repeat split; lia].
  unfold try_except.
  pose proof (send_body_fields k url p w) as Hb. cbv zeta in Hb.
  destruct (send_body k url p w) as [[[[ok msg] data]|e] w0]; [exact Hb|].
  pose proof (handlers_fields k url e w0) as Hh. cbv zeta in Hh.
  cbn [snd] in Hb. destruct Hb as (Hb1 & Hb2 & Hb3).
  destruct Hh as (-> & -> & ->). auto.
Qed.


Lemma send_to_webhook_frame p wt w :
  let w' := snd (send_to_webhook p wt w) in
  webhook_urls w' = webhook_urls w ∧
  selected_webhook_type w' = selected_webhook_type w ∧
  user_name w' = user_name w ∧
  (clock w ≤ clock w' ≤ clock w + seconds 3)%Z ∧
  (∀ k, k ≠ resolved wt w → webhook_stats w' !! k = webhook_stats w !! k) ∧
  (webhook_stats w !! resolved wt w = None → webhook_stats w' = webhook_stats w) ∧
  (∀ s, webhook_stats w !! resolved wt w = Some s →
        ∃ s', webhook_stats w' !! resolved wt w = Some s' ∧
              (sent s ≤ sent s' ≤ sent s + 1)%Z ∧
              (success s ≤ success s' ≤ success s + 1)%Z ∧
              (errors s ≤ errors s' ≤ errors s + 1)%Z ∧
              (success s' + errors s' ≤ success s + errors s + 1)%Z ∧
              (success s' - success s ≤ sent s' - sent s)%Z).
Proof.
  cbv zeta.
  destruct (send_to_webhook_fields p wt w) as (Hsel & Huser & Hclock).
  split; [apply (keeps_send_to_webhook p wt w)|].
  split; [exact Hsel|]. split; [exact Huser|]. split; [exact Hclock|].
  assert (Hnourl : webhook_urls w !! resolved wt w = None →
                   snd (send_to_webhook p wt w) = w).
  { intros Hn. rewrite send_to_webhook_resolve. cbv zeta.
    unfold resolved in Hn. rewrite Hn. reflexivity. }
  split; [|split].
  - intros k Hk.
    destruct (webhook_stats w !! resolved wt w) as [s|] eqn:Hs.
    + destruct (webhook_urls w !! resolved wt w) as [url|] eqn:Hurl.
      * destruct (send_to_webhook_stats p wt w url s Hurl Hs) as (s' & -> & _).
        apply lookup_insert_ne. congruence.
      * rewrite (Hnourl eq_refl). reflexivity.
    + rewrite (send_to_webhook_no_counters p wt w Hs). reflexivity.
  - apply send_to_webhook_no_counters.
  - intros s Hs.
    destruct (webhook_urls w !! resolved wt w) as [url|] eqn:Hurl.
    + destruct (send_to_webhook_stats p wt w url s Hurl Hs) as (s' & -> & Hcase).
      exists s'. split; [apply lookup_insert_eq|].
      destruct (fst (send_to_webhook p wt w)) as [[[[] msg] data]|e].
      * destruct Hcase as [_ ->]. destruct s. cbn. lia.
      * destruct Hcase as [[_ ->]|[_ ->]]; destruct s; cbn; lia.
      * destruct Hcase as [[_ ->]|[_ [->| ->]]]; destruct s; cbn; lia.
    + rewrite (Hnourl eq_refl). exists s. split; [exact Hs|]. lia.
Qed.

(** X1 (what a dispatch leaves alone).  Whatever its outcome, a call of
    [send_to_webhook] leaves the configured URLs, the selected type and the
    user name as they are, sleeps for at most three seconds in all (the
    clock of the model advances in [time.sleep] only), and touches the
    counters of no endpoint but its own.  An endpoint without counters
    still has none afterwards.  The counters of its own endpoint never go
    down, each goes up by at most one, [success] and [errors] are not both
    raised, and [success] is raised only together with [sent]. *)
Theorem dispatch_frame p wt w :
  let w' := snd (send_to_webhook p wt w) in
  webhook_urls w' = webhook_urls w ∧
  selected_webhook_type w' = selected_webhook_type w ∧
  user_name w' = user_name w ∧
  (clock w ≤ clock w' ≤ clock w + seconds 3)%Z ∧
  (∀ k, k ≠ resolved wt w → webhook_stats w' !! k = webhook_stats w !! k) ∧
  (webhook_stats w !! resolved wt w = None → webhook_stats w' = webhook_stats w) ∧
  (∀ s, webhook_stats w !! resolved wt w = Some s →
        ∃ s', webhook_stats w' !! resolved wt w = Some s' ∧
              (sent s ≤ sent s' ≤ sent s + 1)%Z ∧
              (success s ≤ success s' ≤ success s + 1)%Z ∧
              (errors s ≤ errors s' ≤ errors s + 1)%Z ∧
              (success s' + errors s' ≤ success s + errors s + 1)%Z ∧
              (success s' - success s ≤ sent s' - sent s)%Z).
Proof. exact (send_to_webhook_frame p wt w). Qed.

(** X2 (counters by outcome).  For a configured endpoint with counters,
    [sent] is incremented exactly when every gate lets the payload through.
    A call that returns [True] has incremented [sent] and [success] and
    nothing else; a call that returns [False] has incremented [errors] and
    left [success]; a call that raises has recorded no error. *)
Theorem dispatch_counters p wt w url s :
  webhook_urls w !! resolved wt w = Some url →
  webhook_stats w !! resolved wt w = Some s →
  ∃ s', webhook_stats (snd (send_to_webhook p wt w))
        = <[resolved wt w := s']> (webhook_stats w) ∧
        (sent s' = sent s + 1 ↔ gates_pass p (resolved wt w) w) ∧
        (sent s' = sent s ↔ gates_fail p (resolved wt w) w) ∧
        match fst (send_to_webhook p wt w) with
        | Ret (true, _, _) =>
            s' = mkStats (sent s + 1) (success s + 1) (errors s)
        | Ret (false, _, _) =>
            success s' = success s ∧ errors s' = errors s + 1
        | Raise _ => errors s' = errors s
        end.
Proof.
  intros Hurl Hs.
  destruct (send_to_webhook_stats p wt w url s Hurl Hs) as (s' & Hst & Hcase).
  exists s'. split; [exact Hst|].
  assert (Hsent : (gates_pass p (resolved wt w) w ∧ sent s' = sent s + 1) ∨
                  (gates_fail p (resolved wt w) w ∧ sent s' = sent s)).
  { destruct (fst (send_to_webhook p wt w)) as [[[[] msg] data]|e].
    - destruct Hcase as [Hp ->]. left. split; [exact Hp|]. destruct s; reflexivity.
    - destruct Hcase as [[Hf ->]|[Hp ->]]; [right|left]; (split; [assumption|]);
        destruct s; reflexivity.
    - destruct Hcase as [[Hf ->]|[Hp [->| ->]]]; [right|left|left];
        (split; [assumption|]); destruct s; reflexivity. }
  split; [|split].
  - split.
    + intros Heq. destruct Hsent as [[Hp _]|[_ Heq']]; [exact Hp|lia].
    + intros Hp. destruct Hsent as [[_ Heq]|[Hf _]]; [exact Heq|].
      destruct (gates_pass_not_fail _ _ _ Hp Hf).
  - split.
    + intros Heq. destruct Hsent as [[_ Heq']|[Hf _]]; [lia|exact Hf].
    + intros Hf. destruct Hsent as [[Hp _]|[_ Heq]]; [|exact Heq].
      destruct (gates_pass_not_fail _ _ _ Hp Hf).
  - destruct (fst (send_to_webhook p wt w)) as [[[[] msg] data]|e].
    + destruct Hcase as [_ ->]. destruct s; reflexivity.
    + destruct Hcase as [[_ ->]|[_ ->]]; destruct s; split; reflexivity.
    + destruct Hcase as [[_ ->]|[_ [->| ->]]]; destruct s; reflexivity.
Qed.


Lemma attempts_lookup i a : attempts !! i = Some a → a = Z.of_nat i ∧ (i < 3)%nat.
Proof.
  unfold attempts. destruct i as [|[|[|i]]]; cbn; intros [= <-]; split; (reflexivity || lia).
Qed.

Lemma failure_record_keys now wt url e d m :
  failure_record now wt url e = Some (d, m) →
  dict_get "status_code" d = None ∧ dict_get "attempt_count" d = None ∧
  dict_get "success" d = None ∧ is_Some (dict_get "error" d) ∧
  dict_get "webhook_type" d = Some (VStr wt) ∧ dict_get "url" d = Some (VStr url) ∧
  dict_get "timestamp" d = Some (VTime now).
Proof.
  destruct e; cbn; intros [= <- <-]; cbn; repeat split; eauto.
Qed.

(** The record a call returns: the one of a response, or the one of the
    handler that caught the exception. *)
Lemma send_to_webhook_data p wt w ok msg data w' :
  send_to_webhook p wt w = (Ret (ok, msg, data), w') →
  ∃ url, webhook_urls w !! resolved wt w = Some url ∧
  ((∃ n sc text i,
       data = response_data (clock w') (resolved wt w) url sc text n (Z.of_nat i) ∧
       ok = (sc =? 200)%Z ∧ (i < 3)%nat ∧
       posts_in (events w') = (posts_in (events w) + S i)%nat ∧
       (ok = true → ∃ name, assoc (resolved wt w) CONTENT_TYPES = Some name ∧
                            msg = MsgSent name) ∧
       (ok = false → msg = response_message sc text))
   ∨ (ok = false ∧
      ∃ e, failure_record (clock w') (resolved wt w) url e = Some (data, msg))).
Proof.
  rewrite send_to_webhook_resolve. cbv zeta.
  unfold resolved in *. set (k := or_selected wt (selected_webhook_type w)) in *.
  destruct (webhook_urls w !! k) as [url|]; [|discriminate].
  intros Hrun. exists url. split; [reflexivity|]. revert Hrun.
  unfold try_except.
  destruct (send_body k url p w) as [[[[ok0 msg0] data0]|e] w0] eqn:Hbody.
  - intros [= -> -> -> ->]. left.
    apply send_body_ret in Hbody
      as (s0 & n & sc & tx & a & wl & Hs0 & _ & _ & Hloop & -> & -> & Hm1 & Hm2 & ->).
    apply retry_loop_attempt in Hloop as (i & Hi & Hposts).
    apply attempts_lookup in Hi as [-> Hi].
    exists n, sc, tx, i. split; [reflexivity|]. split; [reflexivity|].
    split; [exact Hi|]. split; [|auto].
    cbn [events with_stats with_responses] in *. rewrite Hposts.
    rewrite posts_in_gated. reflexivity.
  - rewrite handlers_spec.
    destruct (failure_record (clock w0) k url e) as [[d m]|] eqn:Hrec; [|discriminate].
    rewrite record_error_spec. destruct (webhook_stats w0 !! k); [|discriminate].
    intros [= <- <- <- <-]. right. split; [reflexivity|]. exists e. exact Hrec.
Qed.

(** X3 (the flag and the record agree).  The record a call returns names
    the endpoint and its URL and carries the clock reading at the end of
    the call.  The call returned [True] exactly when the record has
    ['success'] [True], which is exactly when its ['status_code'] is 200,
    and then the message is the "sent" message with the display name of
    the type.  A record has an ['error'] entry exactly when it has no
    ['status_code']. *)
Theorem dispatch_record p wt w ok msg data w' :
  send_to_webhook p wt w = (Ret (ok, msg, data), w') →
  dict_get "webhook_type" data = Some (VStr (resolved wt w)) ∧
  (VStr <$> webhook_urls w !! resolved wt w) = dict_get "url" data ∧
  dict_get "timestamp" data = Some (VTime (clock w')) ∧
  (ok = true ↔ dict_get "success" data = Some (VBool true)) ∧
  (ok = true ↔ dict_get "status_code" data = Some (VInt 200)) ∧
  (ok = true → ∃ name, assoc (resolved wt w) CONTENT_TYPES = Some name ∧
                       msg = MsgSent name) ∧
  (is_Some (dict_get "error" data) ↔ dict_get "status_code" data = None).
Proof.
  intros Hrun.
  destruct (send_to_webhook_data _ _ _ _ _ _ _ Hrun)
    as (url & Hurl & [(n & sc & tx & i & -> & -> & _ & _ & Hname & _) | (-> & e & Hrec)]).
  - rewrite Hurl. cbn. repeat split; try reflexivity; try exact Hname.
    + intros ->. reflexivity.
    + intros [= ->]. reflexivity.
    + intros Hsc. apply Z.eqb_eq in Hsc. subst. reflexivity.
    + intros [= ->]. reflexivity.
    + intros [v Hv]. discriminate.
    + discriminate.
  - rewrite Hurl.
    destruct (failure_record_keys _ _ _ _ _ _ Hrec)
      as (Hsc & _ & Hsu & Herr & Hwt & Hu & Hts).
    rewrite Hsc, Hsu, Hwt, Hu, Hts. cbn.
    repeat split; try discriminate; auto.
Qed.

(** X4 (attempt count).  A returned record has an ['attempt_count'] exactly
    when it has a ['status_code'], and that count is the number of requests
    the call sent, between 1 and 3. *)
Theorem attempt_count_counts_requests p wt w ok msg data w' :
  send_to_webhook p wt w = (Ret (ok, msg, data), w') →
  (is_Some (dict_get "attempt_count" data) ↔ is_Some (dict_get "status_code" data)) ∧
  ∀ v, dict_get "attempt_count" data = Some v →
       ∃ a, v = VInt (Z.of_nat a) ∧ (1 ≤ a ≤ 3)%nat ∧
            posts_in (events w') = (posts_in (events w) + a)%nat.
Proof.
  intros Hrun.
  destruct (send_to_webhook_data _ _ _ _ _ _ _ Hrun)
    as (url & Hurl & [(n & sc & tx & i & -> & _ & Hi & Hposts & _) | (-> & e & Hrec)]).
  - cbn. split; [split; eauto|].
    intros v [= <-]. exists (S i). split; [f_equal; lia|]. split; [lia|exact Hposts].
  - destruct (failure_record_keys _ _ _ _ _ _ Hrec) as (Hsc & Hac & _).
    rewrite Hsc, Hac. split; [split; intros [v Hv]; discriminate|]. discriminate.
Qed.


Lemma retryable_handled now wt url e :
  retryable e = true → is_Some (failure_record now wt url e).
Proof. destruct e; try discriminate; intros _; cbn; eauto. Qed.

(** When a call raises, and why. *)
Lemma send_to_webhook_escape p wt w e w' :
  send_to_webhook p wt w = (Raise e, w') →
  (e = KeyError (resolved wt w) ∧
   (webhook_urls w !! resolved wt w = None ∨
    webhook_stats w !! resolved wt w = None))
  ∨
  (e = attribute_error ∧
   ∃ url, webhook_urls w !! resolved wt w = Some url ∧
     (webhook_stats w !! resolved wt w = None ∨
      assoc (resolved wt w) CONTENT_TYPES = None ∨
      (∃ e0, json_dumps_len (sanitize_payload p) = Raise e0) ∨
      (∃ n, json_dumps_len (sanitize_payload p) = Ret n ∧ (2 ^ 40 ≤ n)%N) ∨
      (∃ seen e0, requests_post seen url (sanitize_payload p) = Failed e0 ∧
                  retryable e0 = false))).
Proof.
  rewrite send_to_webhook_resolve. cbv zeta.
  unfold resolved in *. set (k := or_selected wt (selected_webhook_type w)) in *.
  destruct (webhook_urls w !! k) as [url|]; [|intros [= <- <-]; auto].
  unfold try_except.
  destruct (send_body k url p w) as [[[[ok0 msg0] data0]|e0] w0] eqn:Hbody;
    [discriminate|].
  rewrite handlers_spec.
  destruct (failure_record (clock w0) k url e0) as [[d m]|] eqn:Hrec.
  - rewrite record_error_spec.
    destruct (webhook_stats w0 !! k) as [s0|] eqn:Hs0; [discriminate|].
    intros [= <- <-]. left. split; [reflexivity|]. right.
    apply send_body_raised in Hbody as
        [(_ & Hst & _) | [(_ & Hnone & _) | (_ & s & Hs & [(Hst & _)|(Hst & _)])]].
    + rewrite <- Hst. exact Hs0.
    + exact Hnone.
    + rewrite Hst, lookup_insert_eq in Hs0. discriminate.
    + rewrite Hst, lookup_insert_eq in Hs0. discriminate.
  - intros [= <- <-]. right. split; [reflexivity|]. exists url. split; [reflexivity|].
    apply send_body_raised in Hbody as
        [(_ & _ & Hkind) | [(_ & Hnone & _) | (_ & s & Hs & [(_ & seen & Hpost)|(_ & _ & Hname)])]].
    + destruct Hkind as [[m ->]|[[errs ->]|[Hd|(n & Hd & Hn & Hf)]]];
        try discriminate.
      * eauto 8.
      * destruct (N.lt_ge_cases n (2 ^ 40)) as [Hlt|Hge]; [|eauto 10].
        destruct (format_file_size_named n) as [name Hname]; [lia|].
        rewrite Hname in Hf. subst. discriminate.
    + auto.
    + right. right. right. right. exists seen, e0. split; [exact Hpost|].
      destruct (retryable e0) eqn:Hr; [|reflexivity].
      destruct (retryable_handled (clock w0) k url e0 Hr) as [x Hx]. congruence.
    + auto.
Qed.

(** X5 (when a dispatch raises).  The only exceptions that leave
    [send_to_webhook] are the [AttributeError] of the misspelt [except]
    clause and the [KeyError] of a type without URL or without counters.
    For an endpoint with URL, counters and an entry in [CONTENT_TYPES], a
    payload [json.dumps] serialises to less than 1 TiB, and a transport
    whose failures are timeouts or connection errors only, every call
    returns a triple. *)
Theorem dispatch_outcomes p wt w :
  (∀ e w', send_to_webhook p wt w = (Raise e, w') →
           e = attribute_error ∨
           (e = KeyError (resolved wt w) ∧
            (webhook_urls w !! resolved wt w = None ∨
             webhook_stats w !! resolved wt w = None)))
  ∧
  (∀ url s name n,
      webhook_urls w !! resolved wt w = Some url →
      webhook_stats w !! resolved wt w = Some s →
      assoc (resolved wt w) CONTENT_TYPES = Some name →
      json_dumps_len (sanitize_payload p) = Ret n → (n < 2 ^ 40)%N →
      (∀ seen e, requests_post seen url (sanitize_payload p) = Failed e →
                 retryable e = true) →
      ∃ ok msg data w', send_to_webhook p wt w = (Ret (ok, msg, data), w')).
Proof.
  split.
  - intros e w' Hrun.
    destruct (send_to_webhook_escape _ _ _ _ _ Hrun) as [H|[H _]]; auto.
  - intros url s name n Hurl Hs Hname Hd Hn Hpost.
    destruct (send_to_webhook p wt w) as [[[[ok msg] data]|e] w'] eqn:Hrun; [eauto|].
    exfalso.
    destruct (send_to_webhook_escape _ _ _ _ _ Hrun)
      as [(_ & [H|H]) | (_ & url' & Hurl' & Hwhy)]; [congruence|congruence|].
    assert (url' = url) as -> by congruence.
    destruct Hwhy as [H|[H|[[e0 H]|[(n' & H & Hn')|(seen & e0 & H & Hr)]]]];
      try congruence.
    + assert (n' = n) as -> by congruence. lia.
    + rewrite (Hpost _ _ H) in Hr. discriminate.
Qed.

Lemma send_body_responses wt url p w :
  let w0 := snd (send_body wt url p w) in
  webhook_responses w0 = webhook_responses w ∨
  ∃ now sc tx n a,
    webhook_responses w0
    = take 20 (response_data now wt url sc tx n a :: webhook_responses w).
Proof.
  rewrite send_body_spec.
  destruct (check_rate_limit _ _ _) as [[] rmsg]; [|left; reflexivity].
  destruct (validate_webhook_payload p) as [[] errs]; [|left; reflexivity].
  destruct (json_dumps_len (sanitize_payload p)) as [n|e0]; [|left; reflexivity].
  destruct (check_payload_size n _) as [[[]|] wsz]; [|left; reflexivity].
  destruct (webhook_stats w !! wt) as [st|]; [|left; reflexivity].
  rewrite deliver_spec.
  pose proof (retry_loop_responses url (sanitize_payload p) attempts
                (with_stats (λ m, <[wt := bump CSent st]> m) (gated wt w))) as Hr.
  destruct (retry_loop url _ attempts _) as [[[[sc tx] a]|e1] wl]; [|left; exact Hr].
  right. unfold answered. cbv zeta.
  exists (clock wl), sc, tx, n, a.
  cbn [snd webhook_responses with_stats gated with_event] in Hr. rewrite <- Hr.
  unfold classify_response, stats_incr, content_type_name. py_red.
  repeat (match goal with
          | |- context [if ?b then _ else _] => destruct b; py_red
          | |- context [match ?o with Some _ => _ | None => _ end] => destruct o; py_red
          end); reflexivity.
Qed.

(** What a call does to the history, with the record it adds. *)
Lemma send_to_webhook_responses p wt w :
  let r := fst (send_to_webhook p wt w) in
  let w' := snd (send_to_webhook p wt w) in
  (webhook_responses w' = webhook_responses w ∧ is_ret r = false)
  ∨
  (∃ d now url e m,
      failure_record now (resolved wt w) url e = Some (d, m) ∧
      webhook_responses w' = d :: webhook_responses w ∧
      ∀ ok msg data, r = Ret (ok, msg, data) → data = d)
  ∨
  (∃ d now url sc tx n a,
      d = response_data now (resolved wt w) url sc tx n a ∧
      webhook_responses w' = take 20 (d :: webhook_responses w) ∧
      ∀ ok msg data, r = Ret (ok, msg, data) → data = d).
Proof.
  cbv zeta. rewrite send_to_webhook_resolve. cbv zeta.
  unfold resolved. set (k := or_selected wt (selected_webhook_type w)).
  destruct (webhook_urls w !! k) as [url|]; [|left; split; reflexivity].
  unfold try_except.
  pose proof (send_body_responses k url p w) as Hresp. cbv zeta in Hresp.
  destruct (send_body k url p w) as [[[[ok0 msg0] data0]|e0] w0] eqn:Hbody.
  - right. right.
    apply send_body_ret in Hbody
      as (s0 & n & sc & tx & a & wl & _ & _ & _ & Hloop & -> & _ & _ & _ & ->).
    pose proof (retry_loop_responses url (sanitize_payload p) attempts
                  (with_stats (λ m, <[k := bump CSent s0]> m) (gated k w))) as Hr.
    rewrite Hloop in Hr.
    cbn [snd fst webhook_responses with_stats with_responses gated with_event] in *.
    rewrite Hr. do 7 eexists. split; [reflexivity|]. split; [reflexivity|].
    intros ok msg data [= _ _ <-]. reflexivity.
  - cbn [snd] in Hresp. rewrite handlers_spec.
    destruct (failure_record (clock w0) k url e0) as [[d m]|] eqn:Hrec.
    + right. left. exists d, (clock w0), url, e0, m. split; [exact Hrec|].
      assert (Hsame : webhook_responses w0 = webhook_responses w).
      { destruct (send_body_raise _ _ _ _ _ _ Hbody) as [H|[k' ->]];
          [exact H|discriminate]. }
      rewrite record_error_spec.
      destruct (webhook_stats w0 !! k);
        cbn [snd fst recorded webhook_responses with_event with_stats with_responses];
        rewrite Hsame; (split; [reflexivity|]).
      * intros ok msg data [= _ _ <-]. reflexivity.
      * discriminate.
    + cbn [snd fst].
      destruct Hresp as [Hsame|(now & sc & tx & n & a & Hcut)].
      * left. split; [exact Hsame|reflexivity].
      * right. right. do 7 eexists. split; [reflexivity|]. split; [exact Hcut|].
        discriminate.
Qed.

(** X6 (the history is only prepended to).  A call changes the history in
    one of three ways: not at all, and then it raised; by putting an error
    record in front of the unchanged list; or by putting a response record
    in front and cutting the list to twenty.  When the call returns, the
    new head is the record it returns. *)
Theorem dispatch_history p wt w :
  let r := fst (send_to_webhook p wt w) in
  let w' := snd (send_to_webhook p wt w) in
  (webhook_responses w' = webhook_responses w ∧ is_ret r = false)
  ∨
  (∃ d, webhook_responses w' = d :: webhook_responses w ∧
        is_Some (dict_get "error" d) ∧ dict_get "status_code" d = None ∧
        ∀ ok msg data, r = Ret (ok, msg, data) → data = d)
  ∨
  (∃ d, webhook_responses w' = take 20 (d :: webhook_responses w) ∧
        is_Some (dict_get "status_code" d) ∧
        ∀ ok msg data, r = Ret (ok, msg, data) → data = d).
Proof.
  destruct (send_to_webhook_responses p wt w)
    as [H|[(d & now & url & e & m & Hrec & Hresp & Hret)
          |(d & now & url & sc & tx & n & a & -> & Hresp & Hret)]].
  - left. exact H.
  - right. left. exists d.
    destruct (failure_record_keys _ _ _ _ _ _ Hrec) as (Hsc & _ & _ & Herr & _).
    auto.
  - right. right. eexists. split; [exact Hresp|]. split; [cbn; eauto|exact Hret].
Qed.






(** X8 (the keys of a fan-out result).  [send_to_multiple_webhooks] never
    raises.  With no type requested it returns the one-entry dictionary
    under ['error'] and does nothing; otherwise the keys of the result are
    exactly the requested types, each with an endpoint result. *)
Theorem fan_out_keys p wts w :
  ∃ results w',
    send_to_multiple_webhooks p wts w = (Ret results, w') ∧
    (wts = [] →
     results = {[ "error" := FanText "No webhook types specified" ]} ∧ w' = w) ∧
    (wts ≠ [] →
     ∀ k, match results !! k with
          | Some v => k ∈ wts ∧ is_result v
          | None => k ∉ wts
          end).
Proof.
  unfold send_to_multiple_webhooks.
  destruct wts as [|wt rest].
  { do 2 eexists. split; [reflexivity|]. split; [auto|]. congruence. }
  unfold validator_validate, emit. py_red.
  destruct (validate_webhook_payload p) as [[] errs]; py_red.
  - destruct (fan_loop_spec p (wt :: rest) ∅ (with_event EvValidate w))
      as (final & w' & -> & _ & Hout & Hin).
    exists final, w'. split; [reflexivity|]. split; [discriminate|].
    intros _ k. destruct (decide (k ∈ wt :: rest)) as [Hk|Hk].
    + destruct (Hin k Hk) as (v & -> & Hv). auto.
    + rewrite (Hout k Hk), lookup_empty. exact Hk.
  - do 2 eexists. split; [reflexivity|]. split; [discriminate|].
    intros _ k. destruct (decide (k ∈ wt :: rest)) as [Hk|Hk].
    + rewrite (uniform_failure_lookup _ _ _ Hk). split; [exact Hk|exact I].
    + unfold uniform_failure.
      rewrite (proj1 (not_elem_of_list_to_map _ _)); [exact Hk|].
      rewrite <- list_fmap_compose. cbn. rewrite list_fmap_id. exact Hk.
Qed.

End DispatcherFrames.

(** ** [format_file_size] *)

Section FileSize.

Import record.

Lemma log1024_bracket n i :
  (1024 ^ i ≤ n < 1024 ^ (i + 1))%N → log1024 n = N.to_nat i.
Proof.
  intros [Hlo Hhi]. unfold log1024. f_equal.
  change 1024%N with (2 ^ 10)%N in *. rewrite <- !N.pow_mul_r in *.
  assert (Hpos : (0 < n)%N).
  { eapply N.lt_le_trans; [|exact Hlo]. apply N.neq_0_lt_0, N.pow_nonzero. discriminate. }
  assert (H1 : (10 * i ≤ N.log2 n)%N).
  { rewrite <- (N.log2_pow2 (10 * i)) by lia. apply N.log2_le_mono. exact Hlo. }
  assert (H2 : (N.log2 n < 10 * (i + 1))%N).
  { apply N.log2_lt_pow2; assumption. }
  symmetry. apply (N.div_unique _ _ _ (N.log2 n - 10 * i)); lia.
Qed.

Lemma float_overflow_bound : (float_overflow < 2 ^ 1030)%N.
Proof. vm_compute. reflexivity. Qed.

(** X9 (the unit of a formatted size).  [format_file_size] returns "0 B"
    for zero; for a size between [1024^i] and [1024^(i+1)] it names the
    [i]-th unit of [B, KB, MB, GB]; from 1 TiB on the index runs past the
    list of units and the call raises [IndexError], as long as the size
    can be converted to a float; and from [2^1024 - 2^970] on, where it
    cannot, the call raises [OverflowError] before the list is indexed. *)
Theorem format_file_size_unit n :
  (n = 0%N → format_file_size n = Ret (mkFileSize 0 "B")) ∧
  (∀ i name,
      size_names !! N.to_nat i = Some name →
      (1024 ^ i ≤ n < 1024 ^ (i + 1))%N →
      format_file_size n = Ret (mkFileSize n name)) ∧
  ((2 ^ 40 ≤ n < float_overflow)%N →
   format_file_size n = Raise (IndexError "list index out of range")) ∧
  ((float_overflow ≤ n)%N → format_file_size n = Raise OverflowError).
Proof.
  split; [intros ->; reflexivity|]. split; [|split].
  - intros i name Hname Hn. unfold format_file_size.
    assert (Hpos : (0 < n)%N).
    { eapply N.lt_le_trans; [|apply Hn]. apply N.neq_0_lt_0, N.pow_nonzero. discriminate. }
    destruct (n =? 0)%N eqn:H0; [apply N.eqb_eq in H0; lia|].
    assert (Hi : (N.to_nat i < 4)%nat) by (apply lookup_lt_Some in Hname; exact Hname).
    assert (Hsmall : (n < 2 ^ 40)%N).
    { eapply N.lt_le_trans; [apply Hn|]. change (2 ^ 40)%N with (1024 ^ 4)%N.
      apply N.pow_le_mono_r; [discriminate|lia]. }
    cbv zeta. rewrite (log1024_bracket n i Hn).
    rewrite math_pow_1024_float by lia.
    rewrite int_by_float_converts
      by (eapply N.lt_trans; [exact Hsmall|apply float_overflow_large]).
    rewrite Hname. reflexivity.
  - intros [Hn Hfloat]. unfold format_file_size.
    destruct (n =? 0)%N eqn:H0;
      [apply N.eqb_eq in H0; subst; exfalso; apply Hn; reflexivity|].
    cbv zeta.
    assert (Hpos : (0 < n)%N).
    { eapply N.lt_le_trans; [|exact Hn]. reflexivity. }
    assert (Hlog : (40 ≤ N.log2 n)%N).
    { rewrite <- (N.log2_pow2 40) by lia. apply N.log2_le_mono. exact Hn. }
    assert (Hlog' : (N.log2 n < 1030)%N).
    { apply N.log2_lt_pow2; [exact Hpos|].
      eapply N.lt_trans; [exact Hfloat|apply float_overflow_bound]. }
    assert (Hi : (4 ≤ log1024 n < 103)%nat).
    { unfold log1024.
      assert (4 ≤ N.log2 n / 10)%N
        by (change 4%N with (40 / 10)%N; apply N.Div0.div_le_mono; exact Hlog).
      assert (N.log2 n / 10 < 103)%N by (apply N.Div0.div_lt_upper_bound; lia).
      lia. }
    rewrite math_pow_1024_float by lia.
    rewrite int_by_float_converts by exact Hfloat.
    rewrite (proj2 (lookup_ge_None size_names (log1024 n))); [reflexivity|].
    cbn [length size_names]. lia.
  - intros Hn. unfold format_file_size.
    destruct (n =? 0)%N eqn:H0.
    { apply N.eqb_eq in H0. subst. exfalso. apply Hn. reflexivity. }
    cbv zeta. unfold math_pow_1024, int_by_float.
    destruct (103 <=? log1024 n)%nat; [reflexivity|].
    apply N.leb_le in Hn. rewrite Hn. reflexivity.
Qed.

End FileSize.

(** ** The statistics and history tabs *)

Section Views.
Import record.
Context {Payload : Type} {env : Collaborators Payload}.

Lemma total_le (f g : Stats → Z) l : ∀ a b,
  (a ≤ b)%Z → Forall (λ s, (f s ≤ g s)%Z) l →
  (foldl (λ acc stat, acc + f stat) a l ≤ foldl (λ acc stat, acc + g stat) b l)%Z.
Proof.
  induction l as [|s l IH]; intros a b Hab Hall; cbn; [exact Hab|].
  inversion Hall; subst. apply IH; [lia|assumption].
Qed.

Lemma total_nonneg (f : Stats → Z) l : ∀ a,
  (0 ≤ a)%Z → Forall (λ s, (0 ≤ f s)%Z) l →
  (0 ≤ foldl (λ acc stat, acc + f stat) a l)%Z.
Proof.
  induction l as [|s l IH]; intros a Ha Hall; cbn; [exact Ha|].
  inversion Hall; subst. apply IH; [lia|assumption].
Qed.

Lemma counters_sound_values w (P : Stats → Prop) :
  counters_sound w →
  (∀ s, (0 ≤ success s ≤ sent s)%Z ∧ (0 ≤ errors s)%Z → P s) →
  Forall P (snd <$> map_to_list (webhook_stats w)).
Proof.
  intros Hs HP. apply Forall_fmap, Forall_forall. intros [k s] Hin.
  apply elem_of_map_to_list in Hin. cbn. apply HP. apply (Hs k s Hin).
Qed.

Lemma rate_bounded a b :
  (0 ≤ a ≤ b)%Z → (0 < b)%Z →
  (0 <= inject_Z a / inject_Z b * 100)%Q ∧ (inject_Z a / inject_Z b * 100 <= 100)%Q.
Proof.
  intros Hab Hb. destruct b as [|pb|pb]; try lia.
  unfold Qle, Qdiv, Qmult, Qinv, inject_Z. cbn. split; nia.
Qed.

Lemma render_webhook_stats_bounds w :
  counters_sound w →
  let m := render_webhook_stats w in
  (0 ≤ total_success m ≤ total_sent m)%Z ∧ (0 ≤ total_errors m)%Z ∧
  (0 <= success_rate m)%Q ∧ (success_rate m <= 100)%Q ∧
  (active_webhooks m ≤ size (webhook_stats w))%nat.
Proof.
  intros Hs. cbv zeta. unfold render_webhook_stats. cbn [total_success total_sent
    total_errors success_rate active_webhooks]. unfold total.
  assert (H1 : (0 ≤ foldl (λ acc stat, acc + success stat) 0
                      (snd <$> map_to_list (webhook_stats w)))%Z).
  { apply total_nonneg; [lia|]. apply counters_sound_values; [exact Hs|]. intros s; lia. }
  assert (H2 : (foldl (λ acc stat, acc + success stat) 0
                  (snd <$> map_to_list (webhook_stats w))
                ≤ foldl (λ acc stat, acc + sent stat) 0
                    (snd <$> map_to_list (webhook_stats w)))%Z).
  { apply total_le; [lia|]. apply counters_sound_values; [exact Hs|]. intros s; lia. }
  assert (H3 : (0 ≤ foldl (λ acc stat, acc + errors stat) 0
                      (snd <$> map_to_list (webhook_stats w)))%Z).
  { apply total_nonneg; [lia|]. apply counters_sound_values; [exact Hs|]. intros s; lia. }
  split; [lia|]. split; [exact H3|].
  destruct (0 <? _)%Z eqn:Hpos.
  - apply Z.ltb_lt in Hpos. destruct (rate_bounded _ _ (conj H1 H2) Hpos) as [Ha Hb].
    split; [exact Ha|]. split; [exact Hb|].
    rewrite <- length_map_to_list. apply length_filter.
  - split; [discriminate|]. split; [discriminate|].
    rewrite <- length_map_to_list. apply length_filter.
Qed.


Lemma send_to_webhook_sound p wt w :
  counters_sound w → counters_sound (snd (send_to_webhook p wt w)).
Proof.
  intros Hs k s' Hk.
  destruct (send_to_webhook_frame p wt w) as (_ & _ & _ & _ & Hother & Hnone & Hown).
  destruct (decide (k = resolved wt w)) as [->|Hne].
  - destruct (webhook_stats w !! resolved wt w) as [s|] eqn:Hs0.
    + destruct (Hown s eq_refl) as (s1 & Hs1 & Hb).
      assert (s1 = s') as -> by congruence.
      pose proof (Hs _ _ Hs0) as H0. cbv beta in H0 |- *. lia.
    + rewrite (Hnone eq_refl) in Hk. congruence.
  - rewrite (Hother k Hne) in Hk. apply (Hs k s' Hk).
Qed.

Lemma fan_one_stats p wt results w :
  webhook_stats (snd (fan_one p wt results w)) = webhook_stats w ∨
  webhook_stats (snd (fan_one p wt results w))
  = webhook_stats (snd (send_to_webhook p (Some wt) w)).
Proof.
  unfold fan_one, try_except.
  destruct (in_content_types wt); cbn [negb]; [|left; reflexivity].
  unfold bind.
  destruct (send_to_webhook p (Some wt) w) as [[[[ok msg] data]|e] w1] eqn:Hrun.
  - right. reflexivity.
  - cbn [dispatch_except].
    assert (He : exn_isinstance e CException = true).
    { destruct (send_to_webhook_raises _ _ _ _ _ Hrun) as [-> | [k ->]]; reflexivity. }
    rewrite He. right. reflexivity.
Qed.

Lemma fan_loop_sound p wts : ∀ results w,
  counters_sound w → counters_sound (snd (fan_loop p wts results w)).
Proof.
  induction wts as [|wt rest IH]; intros results w Hs; [exact Hs|].
  cbn [fan_loop]. unfold bind.
  assert (H1 : counters_sound (snd (fan_one p wt results w))).
  { unfold counters_sound.
    destruct (fan_one_stats p wt results w) as [-> | ->];
      [exact Hs|apply send_to_webhook_sound; exact Hs]. }
  destruct (fan_one_spec p wt results w) as (v & w1 & Hrun & _).
  rewrite Hrun in *. apply IH. exact H1.
Qed.

Lemma send_to_multiple_webhooks_sound p wts w :
  counters_sound w → counters_sound (snd (send_to_multiple_webhooks p wts w)).
Proof.
  intros Hs. unfold send_to_multiple_webhooks.
  destruct wts as [|wt rest]; [exact Hs|].
  unfold validator_validate, emit, bind, modify, ret.
  destruct (validate_webhook_payload p) as [[] errs]; cbn [negb fst]; [|exact Hs].
  apply fan_loop_sound. exact Hs.
Qed.

Lemma initial_world_sound : counters_sound initial_world.
Proof.
  unfold counters_sound. apply map_Forall_to_list.
  vm_compute. repeat constructor; discriminate.
Qed.

(** X10 (the statistics tab).  The counters of the session start as counts
    with no more successes than requests, and every call of the dispatcher
    and of the fan-out keeps them so.  On such counters the metrics of
    [render_webhook_stats] are sound: the successes lie between zero and
    the requests, the errors are not negative, the success rate lies
    between 0 and 100, and no more endpoints are active than there are
    counters. *)
Theorem success_rate_bounded :
  counters_sound initial_world ∧
  (∀ p wt w, counters_sound w → counters_sound (snd (send_to_webhook p wt w))) ∧
  (∀ p wts w,
      counters_sound w → counters_sound (snd (send_to_multiple_webhooks p wts w))) ∧
  (∀ w, counters_sound w →
        let m := render_webhook_stats w in
        (0 ≤ total_success m ≤ total_sent m)%Z ∧ (0 ≤ total_errors m)%Z ∧
        (0 <= success_rate m)%Q ∧ (success_rate m <= 100)%Q ∧
        (active_webhooks m ≤ size (webhook_stats w))%nat).
Proof.
  split; [exact initial_world_sound|].
  split; [exact send_to_webhook_sound|].
  split; [exact send_to_multiple_webhooks_sound|].
  exact render_webhook_stats_bounds.
Qed.


Section HistoryView.

Context (exn_str : Exn → string) (exn_errors : Exn → list string)
        (isoformat : Z → string) (format_exc : string).

Local Abbreviation get_flag := (get_flag exn_str exn_errors isoformat format_exc).
Local Abbreviation has_status := (has_status exn_str exn_errors isoformat format_exc).
Local Abbreviation status_text := (status_text exn_str exn_errors isoformat format_exc).
Local Abbreviation filter_responses :=
  (filter_responses exn_str exn_errors isoformat format_exc).
Local Abbreviation summary := (summary exn_str exn_errors isoformat format_exc).
Local Abbreviation cards_with := (cards_with exn_str exn_errors isoformat format_exc).
Local Abbreviation render_webhook_history :=
  (render_webhook_history exn_str exn_errors isoformat format_exc).

(** The two flags of a record the dispatcher wrote. *)
Lemma dispatch_made_flags d :
  dispatch_made d →
  (∃ status_code,
      dict_get "status_code" d = Some (VInt status_code) ∧
      (∀ b, get_flag "success" b d = (status_code =? 200)%Z) ∧
      get_flag "validation_passed" true d = true ∧
      dict_get "error" d = None)
  ∨
  (dict_get "status_code" d = None ∧
   (∀ b, get_flag "success" b d = b) ∧
   (get_flag "validation_passed" true d = false
    ↔ dict_get "error" d = Some (VStr "Validation failed"))).
Proof.
  intros [(now & wt & url & sc & tx & n & a & ->)|(now & wt & url & e & m & Hrec)].
  - left. exists sc. cbn. auto.
  - right. destruct e; try discriminate; injection Hrec as <- _; cbn;
      (split; [reflexivity|]); (split; [reflexivity|]);
      split; (discriminate || reflexivity).
Qed.

Lemma returned_record_made p wt w ok msg data w' :
  send_to_webhook p wt w = (Ret (ok, msg, data), w') →
  dispatch_made data ∧ (ok = true ↔ dict_get "status_code" data = Some (VInt 200)).
Proof.
  intros Hrun.
  destruct (send_to_webhook_data _ _ _ _ _ _ _ Hrun)
    as (url & _ & [(n & sc & tx & i & -> & -> & _)|(-> & e & Hrec)]).
  - split; [left; eauto 10|]. cbn. split.
    + intros H. apply Z.eqb_eq in H. subst. reflexivity.
    + intros [= ->]. reflexivity.
  - split; [right; eauto 10|].
    destruct (failure_record_keys _ _ _ _ _ _ Hrec) as (-> & _). split; discriminate.
Qed.

(** X11 (the status of a record in the history tab).  For the record a
    call of [send_to_webhook] returns: the filter 'Success' keeps it exactly
    when the call succeeded, and then its card says "Success"; the filter
    'Validation Failed' keeps it, and its card says so, exactly when it is
    the record of the validation gate; the filter 'Error' keeps it exactly
    when the call failed and the record has a status code, that is the
    record of a response.  The record of any other failure (a refused rate
    check, a timeout, a size error, ...) gets the card "Error" and is kept
    by no filter but 'All'. *)
Theorem history_status_of_record p wt w ok msg data w' :
  send_to_webhook p wt w = (Ret (ok, msg, data), w') →
  has_status OnlySuccess data = ok ∧
  (status_text data = CardSuccess ↔ ok = true) ∧
  (has_status OnlyValidationFailed data = true
   ↔ dict_get "error" data = Some (VStr "Validation failed")) ∧
  (status_text data = CardValidationFailed
   ↔ has_status OnlyValidationFailed data = true) ∧
  (has_status OnlyError data = true
   ↔ ok = false ∧ is_Some (dict_get "status_code" data)) ∧
  (ok = false → dict_get "status_code" data = None →
   dict_get "error" data ≠ Some (VStr "Validation failed") →
   status_text data = CardError ∧
   ∀ f, f ≠ AllStatuses → has_status f data = false).
Proof.
  intros Hrun. destruct (returned_record_made _ _ _ _ _ _ _ Hrun) as [Hmade Hok].
  destruct (dispatch_made_flags data Hmade)
    as [(sc & Hsc & Hsucc & Hval & Herr)|(Hsc & Hsucc & Hval)].
  - assert (Hflag : (sc =? 200)%Z = ok).
    { rewrite Hsc in Hok. destruct ok.
      - apply Z.eqb_eq. destruct Hok as [Hok _].
        specialize (Hok eq_refl). congruence.
      - apply Z.eqb_neq. intros ->. destruct Hok as [_ Hok].
        specialize (Hok eq_refl). discriminate. }
    unfold record.has_status, record.status_text.
    rewrite !Hsucc, Hval, Herr, Hsc, Hflag. cbn [negb andb].
    split; [reflexivity|].
    destruct ok; cbn [negb andb].
    + split; [split; reflexivity|]. split; [split; discriminate|].
      split; [split; discriminate|]. split; [|discriminate].
      split; [discriminate|]. intros [H _]. discriminate.
    + split; [split; discriminate|]. split; [split; discriminate|].
      split; [split; discriminate|]. split; [|discriminate].
      split; [eauto|reflexivity].
  - assert (ok = false) as ->.
    { rewrite Hsc in Hok. destruct ok; [|reflexivity].
      destruct Hok as [Hok _]. specialize (Hok eq_refl). discriminate. }
    unfold record.has_status, record.status_text.
    rewrite !Hsucc, Hsc. cbn [negb andb].
    split; [reflexivity|].
    destruct (record.get_flag _ _ _ _ "validation_passed" true data) eqn:Hv;
      cbn [negb].
    + split; [split; discriminate|]. split.
      { split; [discriminate|]. intros H. apply Hval in H. discriminate. }
      split; [split; discriminate|]. split.
      { split; [discriminate|]. intros [_ [v Hv']]. discriminate. }
      intros _ _ _. split; [reflexivity|]. intros []; try reflexivity; congruence.
    + split; [split; discriminate|]. split.
      { split; [intros _; apply Hval; reflexivity|reflexivity]. }
      split; [split; reflexivity|]. split.
      { split; [discriminate|]. intros [_ [v Hv']]. discriminate. }
      intros _ _ Hne. destruct Hne. apply Hval. reflexivity.
Qed.

Lemma count_ext (f g : Dict → bool) l :
  Forall (λ r, f r = g r) l → count f l = count g l.
Proof.
  unfold count. induction 1 as [|r l Hr _ IH]; [reflexivity|].
  rewrite !filter_cons, Hr.
  destruct (decide (g r = true)); cbn [length]; lia.
Qed.

Lemma cards_partition l :
  Z.of_nat (length l)
  = (cards_with CardSuccess l + cards_with CardValidationFailed l
     + cards_with CardError l)%Z.
Proof.
  unfold record.cards_with, count. induction l as [|r l IH]; [reflexivity|].
  rewrite !filter_cons. cbn [length].
  destruct (status_text r); cbn [CardStatus_eqb];
    repeat match goal with
           | |- context [decide (?a = ?b)] => destruct (decide (a = b)); try discriminate
           end; try congruence; cbn [length]; lia.
Qed.

Lemma dispatch_made_filter (P : Dict → Prop) `{∀ r, Decision (P r)} l :
  Forall dispatch_made l → Forall dispatch_made (filter P l).
Proof.
  intros Hall. apply Forall_forall. intros r Hr.
  apply list_elem_of_filter in Hr as [_ Hr].
  rewrite Forall_forall in Hall. auto.
Qed.

Lemma send_to_webhook_made p wt w :
  Forall dispatch_made (webhook_responses w) →
  Forall dispatch_made (webhook_responses (snd (send_to_webhook p wt w))).
Proof.
  intros Hall.
  destruct (send_to_webhook_responses p wt w)
    as [[-> _]|[(d & now & url & e & m & Hrec & -> & _)
               |(d & now & url & sc & tx & n & a & -> & -> & _)]].
  - exact Hall.
  - constructor; [right; eauto 10|exact Hall].
  - change (take 20 (?d :: ?l)) with (d :: take 19 l).
    constructor; [left; eauto 10|]. apply Forall_take. exact Hall.
Qed.

(** X12 (the summary of the history tab).  The dispatcher keeps the
    history a list of records it wrote.  On such a history
    [render_webhook_history] shows the notice and nothing else only when
    the history is empty; otherwise it shows at most fifteen cards, and
    no summary only when no record passes the filters; the four numbers
    of the summary are the number of filtered records and the numbers of
    them whose card says "Success", "Validation Failed" and "Error". *)
Theorem history_summary filter_type filter_status w :
  Forall dispatch_made (webhook_responses w) →
  (∀ p wt,
      Forall dispatch_made (webhook_responses (snd (send_to_webhook p wt w)))) ∧
  match render_webhook_history filter_type filter_status w with
  | None => webhook_responses w = []
  | Some (cards, s) =>
      let filtered :=
        filter_responses filter_type filter_status (webhook_responses w) in
      (length cards ≤ 15)%nat ∧
      match s with
      | None => filtered = []
      | Some s =>
          total_responses s = Z.of_nat (length filtered) ∧
          successful s = cards_with CardSuccess filtered ∧
          validation_failed s = cards_with CardValidationFailed filtered ∧
          other_errors s = cards_with CardError filtered
      end
  end.
Proof.
  intros Hall. split; [intros p wt; apply send_to_webhook_made; exact Hall|].
  unfold record.render_webhook_history.
  destruct (webhook_responses w) as [|r0 l0] eqn:Hw; [reflexivity|].
  rewrite <- Hw in *. clear Hw r0 l0. cbv zeta.
  assert (Hf : Forall dispatch_made
                 (filter_responses filter_type filter_status (webhook_responses w))).
  { unfold record.filter_responses. cbv zeta. apply dispatch_made_filter.
    destruct filter_type; [apply dispatch_made_filter|]; exact Hall. }
  set (filtered := filter_responses filter_type filter_status (webhook_responses w))
    in *.
  split; [rewrite length_map, length_take; lia|].
  unfold record.summary. destruct filtered as [|r l] eqn:Hfl; [reflexivity|].
  rewrite <- Hfl in *. clear Hfl r l. cbv zeta.
  cbn [total_responses successful validation_failed other_errors].
  assert (Hs : count (get_flag "success" false) filtered
               = cards_with CardSuccess filtered).
  { apply count_ext. eapply Forall_impl; [exact Hf|]. intros r Hr.
    unfold record.status_text.
    destruct (get_flag "success" false r); [reflexivity|].
    destruct (negb _); reflexivity. }
  assert (Hv : count (λ r, negb (get_flag "validation_passed" true r)) filtered
               = cards_with CardValidationFailed filtered).
  { apply count_ext. eapply Forall_impl; [exact Hf|]. intros r Hr.
    unfold record.status_text.
    destruct (dispatch_made_flags r Hr) as [(sc & _ & _ & -> & _)|(_ & -> & _)].
    - destruct (get_flag "success" false r); reflexivity.
    - destruct (negb _); reflexivity. }
  rewrite Hs, Hv. split; [reflexivity|]. split; [reflexivity|].
  split; [reflexivity|]. rewrite (cards_partition filtered). lia.
Qed.

End HistoryView.

End Views.

(** ** The project page *)

Section ProjectPage.
Import gsheet_manager project_management.

Lemma refetched_raises now k m e m' :
  refetched now k m = (Raise e, m') → e = DataSourceError "read failed".
Proof.
  unfold refetched. destruct (online m), (remote m !! k); intros [= <- _];
    reflexivity.
Qed.

Lemma get_sheet_data_raises now sheet ws use_cache m e m' :
  get_sheet_data now sheet ws use_cache m = (Raise e, m') →
  e = DataSourceError "read failed".
Proof.
  unfold get_sheet_data. unfold bind at 1. unfold gets at 1. cbv beta zeta.
  destruct (cache m !! (sheet, ws)) as [en|].
  - destruct (use_cache && fresh now en); [discriminate|].
    rewrite remote_read_then_store. apply refetched_raises.
  - rewrite remote_read_then_store. apply refetched_raises.
Qed.

Lemma auto_load_skips_dec w :
  auto_load_skips w ↔
  (negb (default true (project_auto_load_enabled (session w)))
   || match loaded_at (session w) with
      | Some t => (clock w - t <? seconds 300)%Z
      | None => false
      end
   || String.eqb (default "" (project_sheet_url (session w))) "") = true.
Proof.
  unfold auto_load_skips. rewrite !orb_true_iff, String.eqb_eq. split.
  - intros [H|[(t & Ht & Hlt)|H]].
    + left. left. rewrite H. reflexivity.
    + left. right. rewrite Ht. apply Z.ltb_lt. exact Hlt.
    + right. exact H.
  - intros [[H|H]|H].
    + left. destruct (project_auto_load_enabled (session w)) as [[]|]; try discriminate.
      reflexivity.
    + right. left. destruct (loaded_at (session w)) as [t|]; [|discriminate].
      exists t. split; [reflexivity|]. apply Z.ltb_lt. exact H.
    + right. right. exact H.
Qed.

(** [auto_load_project_data], case by case. *)
Lemma auto_load_spec w :
  auto_load_project_data w =
  if negb (default true (project_auto_load_enabled (session w)))
     || match loaded_at (session w) with
        | Some t => (clock w - t <? seconds 300)%Z
        | None => false
        end
     || String.eqb (default "" (project_sheet_url (session w))) ""
  then (Ret tt, w)
  else
    let '(sheet, ws) := configured_key w in
    let '(r, m) := get_sheet_data (clock w) sheet ws true (manager w) in
    let called := calls w ++ [CallGetSheetData sheet ws true] in
    match r with
    | Ret df =>
        if empty df then
          (Ret tt, mkWorld (session w) m (clock w)
                     (shown w ++ [StWarning AutoLoadEmpty]) called)
        else
          (Ret tt,
           mkWorld (set_project_last_auto_load (clock w)
                      (set_project_data df (session w)))
                   m (clock w + seconds 3)
                   (shown w ++ [StSuccess (AutoLoaded (length (rows df)))]) called)
    | Raise e =>
        (Ret tt, mkWorld (session w) m (clock w)
                   (shown w ++ [StError (AutoLoadFailed e)]) called)
    end.
Proof.
  unfold auto_load_project_data, datetime_now, configured_sheet,
    sheets_get_sheet_data, call, show, time_sleep, datetime_now, configured_key.
  py_red.
  destruct (default true (project_auto_load_enabled (session w))); py_red;
    [|reflexivity].
  destruct (match loaded_at (session w) with
            | Some t => (clock w - t <? seconds 300)%Z
            | None => false
            end); py_red; [reflexivity|].
  destruct (String.eqb (default "" (project_sheet_url (session w))) ""); py_red;
    [reflexivity|].
  destruct (get_sheet_data _ _ _ _ _) as [[df|e] m'] eqn:Hget; py_red.
  - destruct (empty df); py_red; reflexivity.
  - rewrite (get_sheet_data_raises _ _ _ _ _ _ _ Hget). reflexivity.
Qed.


(** X13 ([auto_load_project_data], every run).  The function always
    returns.  When auto-load is disabled, or data was loaded less than 300
    seconds ago, or no sheet is configured, it changes nothing.  Otherwise
    it calls [get_sheet_data] once, for the configured sheet and with the
    cache.  The session changes only when the manager returned a table that
    is not empty: the table and the time of the load are stored, and the
    three seconds of the success notice pass. *)
Theorem auto_load_calls w :
  ∃ w', auto_load_project_data w = (Ret tt, w') ∧
    (auto_load_skips w → w' = w) ∧
    (¬ auto_load_skips w →
     calls w' = calls w ++ [CallGetSheetData (fst (configured_key w))
                              (snd (configured_key w)) true] ∧
     manager w'
     = snd (get_sheet_data (clock w) (fst (configured_key w))
              (snd (configured_key w)) true (manager w))) ∧
    (session w' = session w ∨
     ∃ df, fst (get_sheet_data (clock w) (fst (configured_key w))
                  (snd (configured_key w)) true (manager w)) = Ret df ∧
           empty df = false ∧
           session w' = set_project_last_auto_load (clock w)
                          (set_project_data df (session w)) ∧
           clock w' = clock w + seconds 3).
Proof.
  rewrite auto_load_spec. pose proof (auto_load_skips_dec w) as Hdec.
  destruct (_ || _ || _).
  - exists w. split; [reflexivity|]. split; [reflexivity|].
    split; [|left; reflexivity]. intros Hno. destruct Hno. apply Hdec. reflexivity.
  - assert (Hno : ¬ auto_load_skips w).
    { intros H. apply Hdec in H. discriminate. }
    destruct (configured_key w) as [sheet ws]. cbn [fst snd].
    destruct (get_sheet_data (clock w) sheet ws true (manager w)) as [[df|e] m].
    + destruct (empty df) eqn:He.
      * eexists. split; [reflexivity|]. split; [intros H; destruct (Hno H)|].
        split; [intros _; split; reflexivity|]. left. reflexivity.
      * eexists. split; [reflexivity|]. split; [intros H; destruct (Hno H)|].
        split; [intros _; split; reflexivity|]. right. exists df. auto.
    + eexists. split; [reflexivity|]. split; [intros H; destruct (Hno H)|].
      split; [intros _; split; reflexivity|]. left. reflexivity.
Qed.

(** [force_reload_project_data], case by case. *)
Lemma force_reload_spec w :
  force_reload_project_data w =
  if String.eqb (default "" (project_sheet_url (session w))) ""
  then (Ret tt, noting (StError NoSheetUrl) w)
  else
    let '(r, m) := refetched (clock w) (configured_key w)
                     (with_cache (λ _, ∅) (manager w)) in
    let called := calls w ++ [CallClearCache;
                              CallGetSheetData (fst (configured_key w))
                                (snd (configured_key w)) false] in
    match r with
    | Ret df =>
        if empty df then
          (Ret tt, mkWorld (session w) m (clock w)
                     (shown w ++ [StError ReloadEmpty]) called)
        else
          (Raise RerunException,
           mkWorld (set_project_last_auto_load (clock w)
                      (set_project_data df (session w)))
                   m (clock w)
                   (shown w ++ [StSuccess (Reloaded (length (rows df)))]) called)
    | Raise e =>
        (Ret tt, mkWorld (session w) m (clock w)
                   (shown w ++ [StError (ReloadFailed e)]) called)
    end.
Proof.
  unfold force_reload_project_data, datetime_now, configured_sheet,
    sheets_get_sheet_data, sheets_clear_cache, clear_cache, invalidate, call, show,
    datetime_now, configured_key, noting.
  py_red.
  destruct (String.eqb (default "" (project_sheet_url (session w))) ""); py_red;
    [reflexivity|].
  cbn [manager clock session calls shown].
  rewrite get_sheet_data_refetch by (left; reflexivity).
  destruct (refetched _ _ _) as [[df|e] m'] eqn:Hget; py_red.
  - rewrite <- app_assoc. destruct (empty df); py_red; reflexivity.
  - rewrite <- app_assoc. rewrite (refetched_raises _ _ _ _ _ Hget). reflexivity.
Qed.

(** X14 ([force_reload_project_data], every run).  Without a configured
    sheet the function shows an error and calls nothing.  With one it clears
    the whole cache, then reads the configured sheet past the cache: one
    read-all-rows request goes out, and no other key is cached afterwards.
    If it returns the session is unchanged; if it raises, it is the rerun
    request of [st.rerun()] after a table that is not empty was stored with
    the time of the load, and that table is the one entry of the cache. *)
Theorem force_reload_calls w :
  let r := fst (force_reload_project_data w) in
  let w' := snd (force_reload_project_data w) in
  (default "" (project_sheet_url (session w)) = "" →
   r = Ret tt ∧ w' = noting (StError NoSheetUrl) w) ∧
  (default "" (project_sheet_url (session w)) ≠ "" →
   calls w' = calls w ++ [CallClearCache;
                          CallGetSheetData (fst (configured_key w))
                            (snd (configured_key w)) false] ∧
   remote_calls (manager w')
   = remote_calls (manager w) ++ [ReadAllRows (configured_key w)] ∧
   (∀ k, k ≠ configured_key w → cache (manager w') !! k = None)) ∧
  match r with
  | Ret _ => session w' = session w
  | Raise e =>
      e = RerunException ∧
      ∃ t, remote (manager w) !! configured_key w = Some t ∧
           empty (normalize t) = false ∧
           session w' = set_project_last_auto_load (clock w)
                          (set_project_data (normalize t) (session w)) ∧
           cache (manager w') !! configured_key w
           = Some (mkEntry (normalize t) (clock w))
  end.
Proof.
  cbv zeta. rewrite force_reload_spec.
  destruct (String.eqb (default "" (project_sheet_url (session w))) "") eqn:Hurl.
  { apply String.eqb_eq in Hurl. split; [auto|]. split; [congruence|reflexivity]. }
  apply String.eqb_neq in Hurl. split; [congruence|].
  pose proof (refetched_calls (clock w) (configured_key w)
                (with_cache (λ _, ∅) (manager w))) as Hcalls.
  unfold refetched in *. cbn [online remote with_cache] in *.
  destruct (online (manager w)), (remote (manager w) !! configured_key w) as [t|];
    cbn [fst snd] in *.
  - destruct (empty (normalize t)) eqn:He; cbn [fst snd manager calls session].
    + split; [|reflexivity]. intros _. split; [reflexivity|]. split; [exact Hcalls|].
      intros k Hk. cbn. rewrite lookup_insert_ne by congruence. apply lookup_empty.
    + split.
      * intros _. split; [reflexivity|]. split; [exact Hcalls|].
        intros k Hk. cbn. rewrite lookup_insert_ne by congruence. apply lookup_empty.
      * split; [reflexivity|]. exists t. split; [reflexivity|]. split; [exact He|].
        split; [reflexivity|]. cbn. apply lookup_insert_eq.
  - split; [|reflexivity]. intros _. split; [reflexivity|]. split; [exact Hcalls|].
    intros k Hk. apply lookup_empty.
  - split; [|reflexivity]. intros _. split; [reflexivity|]. split; [exact Hcalls|].
    intros k Hk. apply lookup_empty.
  - split; [|reflexivity]. intros _. split; [reflexivity|]. split; [exact Hcalls|].
    intros k Hk. apply lookup_empty.
Qed.




Lemma update_sheet_data_returns sheet table ws m :
  ∃ b m', update_sheet_data sheet table ws m = (Ret b, m').
Proof.
  unfold update_sheet_data, invalidate. py_red. cbn [id online remote with_call].
  destruct (online m), (remote m !! (sheet, ws)); py_red; eauto.
Qed.

(** [save_project_changes], case by case. *)
Lemma save_project_changes_spec merge w :
  save_project_changes merge w =
  match project_data (session w) with
  | Some (Some df) =>
      let sheet := default "" (project_sheet_url (session w)) in
      let ws := default "" (project_worksheet_name (session w)) in
      let '(r, m) := update_sheet_data sheet (merge df) (Some ws) (manager w) in
      let called := calls w ++ [CallUpdateSheetData sheet (merge df) (Some ws)] in
      match r with
      | Ret true =>
          (Ret tt,
           mkWorld (set_project_last_auto_load (clock w)
                      (set_project_data (merge df) (session w)))
                   m (clock w) (shown w ++ [StSuccess ChangesSaved]) called)
      | _ =>
          (Ret tt, mkWorld (session w) m (clock w)
                     (shown w ++ [StError SaveFailed]) called)
      end
  | _ => (Ret tt, noting (StError (SaveError (AttributeError "copy"))) w)
  end.
Proof.
  unfold save_project_changes, configured_sheet, sheets_update_sheet_data, call,
    show, datetime_now, noting.
  py_red.
  destruct (project_data (session w)) as [[df|]|]; py_red; try reflexivity.
  destruct (update_sheet_data_returns
              (default "" (project_sheet_url (session w))) (merge df)
              (Some (default "" (project_worksheet_name (session w)))) (manager w))
    as (b & m' & ->).
  py_red. destruct b; reflexivity.
Qed.

(** X16 ([save_project_changes], every run).  The function always
    returns.  With project data loaded it calls [update_sheet_data] once,
    with the merged frame and the configured worksheet name.  When the
    manager reports success the merged frame and the time are stored and
    the success notice is shown, and an auto-load within the next 300
    seconds returns at once; otherwise the session is unchanged and the
    failure is shown.  Without loaded data it calls nothing and shows the
    error of the missing [copy]. *)
Theorem save_project_changes_effects merge w :
  ∃ w', save_project_changes merge w = (Ret tt, w') ∧
    match project_data (session w) with
    | Some (Some df) =>
        let sheet := default "" (project_sheet_url (session w)) in
        let ws := default "" (project_worksheet_name (session w)) in
        calls w' = calls w ++ [CallUpdateSheetData sheet (merge df) (Some ws)] ∧
        manager w' = snd (update_sheet_data sheet (merge df) (Some ws) (manager w)) ∧
        match fst (update_sheet_data sheet (merge df) (Some ws) (manager w)) with
        | Ret true =>
            session w' = set_project_last_auto_load (clock w)
                           (set_project_data (merge df) (session w)) ∧
            shown w' = shown w ++ [StSuccess ChangesSaved] ∧
            ∀ dt, (dt < seconds 300)%Z →
                  auto_load_project_data (elapse dt w') = (Ret tt, elapse dt w')
        | _ =>
            session w' = session w ∧ shown w' = shown w ++ [StError SaveFailed]
        end
    | _ => w' = noting (StError (SaveError (AttributeError "copy"))) w
    end.
Proof.
  rewrite save_project_changes_spec.
  destruct (project_data (session w)) as [[df|]|]; try (eexists; split; reflexivity).
  cbv zeta.
  destruct (update_sheet_data_returns
              (default "" (project_sheet_url (session w))) (merge df)
              (Some (default "" (project_worksheet_name (session w)))) (manager w))
    as (b & m' & ->).
  cbn [fst snd]. destruct b.
  - eexists. split; [reflexivity|]. split; [reflexivity|]. split; [reflexivity|].
    split; [reflexivity|]. split; [reflexivity|].
    intros dt Hdt. apply (auto_load_shortcut _ (clock w)); [reflexivity|].
    cbn. lia.
  - eexists. split; [reflexivity|]. split; [reflexivity|]. split; [reflexivity|].
    split; reflexivity.
Qed.


Lemma initialize_default_config_spec w :
  initialize_default_config w = (Ret tt, with_session with_defaults w).
Proof.
  unfold initialize_default_config, unless_present. py_red.
  destruct w as [[en data last url ws] m c sh cs]. cbn.
  destruct url, ws, en, last; reflexivity.
Qed.

Lemma auto_load_with_defaults w :
  auto_load_project_data (with_session with_defaults w)
  = (fst (auto_load_project_data w),
     with_session with_defaults (snd (auto_load_project_data w))).
Proof.
  rewrite !auto_load_spec.
  destruct w as [[en data last url ws] m c sh cs].
  unfold configured_key, with_session, with_defaults, loaded_at.
  cbn [session manager clock shown calls project_auto_load_enabled project_data
       project_last_auto_load project_sheet_url project_worksheet_name].
  destruct en as [[]|], data as [[d|]|], last as [[t|]|], url as [u|], ws as [n|];
    cbn [default from_option id negb orb];
    repeat match goal with
           | |- context [(?a <? ?b)%Z] => destruct (a <? b)%Z; cbn [orb]
           | |- context [String.eqb ?a ""] => destruct (String.eqb a ""); cbn [orb]
           | |- context [get_sheet_data ?a ?b ?c ?d ?e] =>
               destruct (get_sheet_data a b c d e) as [[df|e'] m']
           | |- context [empty ?df] => destruct (empty df)
           end; reflexivity.
Qed.

(** X17 ([initialize_default_config]).  The function returns, gives every
    absent configuration key its default and changes nothing else; a second
    call changes nothing.  [auto_load_project_data] does not see the
    difference: run after it, it returns what it returns without it, and
    leaves the state the defaults would be filled into afterwards.  On a
    session without sheet URL the auto-load after it does nothing. *)
Theorem initialize_default_config_commutes w :
  let w0 := snd (initialize_default_config w) in
  fst (initialize_default_config w) = Ret tt ∧
  session w0 = with_defaults (session w) ∧
  manager w0 = manager w ∧ calls w0 = calls w ∧ shown w0 = shown w ∧
  clock w0 = clock w ∧
  initialize_default_config w0 = (Ret tt, w0) ∧
  auto_load_project_data w0
  = (fst (auto_load_project_data w),
     snd (initialize_default_config (snd (auto_load_project_data w)))) ∧
  (project_sheet_url (session w) = None →
   auto_load_project_data w0 = (Ret tt, w0)).
Proof.
  cbv zeta. rewrite !initialize_default_config_spec. cbn [fst snd].
  split; [reflexivity|]. split; [reflexivity|]. split; [reflexivity|].
  split; [reflexivity|]. split; [reflexivity|]. split; [reflexivity|].
  split; [reflexivity|].
  split; [apply auto_load_with_defaults|].
  intros Hurl. rewrite auto_load_spec.
  destruct w as [[en data last url ws] m c sh cs]. cbn in *. subst url. cbn.
  rewrite !orb_true_r. reflexivity.
Qed.

Lemma total_pages_ceiling len page_size :
  (0 < page_size)%Z →
  (len = 0 → total_pages len page_size = 0)%Z ∧
  (0 < len →
   (total_pages len page_size - 1) * page_size < len
   ≤ total_pages len page_size * page_size)%Z.
Proof.
  intros Hps. unfold total_pages.
  pose proof (Z.div_mod (len - 1) page_size ltac:(lia)) as Hdm.
  pose proof (Z.mod_pos_bound (len - 1) page_size Hps) as Hb.
  split; intros Hlen; nia.
Qed.

Lemma slice_take_drop {A} (l : list A) start stop :
  (0 ≤ start ≤ stop)%Z →
  slice l start stop
  = take (Z.to_nat (stop - start)) (drop (Z.to_nat start) l).
Proof.
  intros Hb. unfold slice, slice_bound. cbv zeta.
  destruct (start <? 0)%Z eqn:H1; [apply Z.ltb_lt in H1; lia|].
  destruct (stop <? 0)%Z eqn:H2; [apply Z.ltb_lt in H2; lia|].
  destruct (Z.le_gt_cases start (Z.of_nat (length l))) as [Hs|Hs].
  - rewrite (Z.min_l start) by lia.
    destruct (Z.le_gt_cases stop (Z.of_nat (length l))) as [Ht|Ht].
    + rewrite (Z.min_l stop) by lia. reflexivity.
    + rewrite (Z.min_r stop) by lia.
      rewrite !take_ge; [reflexivity| |]; rewrite length_drop; lia.
  - rewrite !Z.min_r by lia.
    rewrite (drop_ge l (Z.to_nat start)) by lia.
    rewrite drop_ge by lia. rewrite !take_nil. reflexivity.
Qed.

Lemma pages_concat {A} (size : nat) : ∀ (k : nat) (l : list A),
  (length l ≤ k * size)%nat →
  concat (map (λ i, take size (drop (i * size) l)) (seq 0 k)) = l.
Proof.
  induction k as [|k IH]; intros l Hlen.
  - destruct l; [reflexivity|cbn in Hlen; lia].
  - cbn [seq map concat]. change (0 * size)%nat with 0%nat. rewrite drop_0.
    rewrite <- seq_shift, map_map.
    etransitivity; [|apply (take_drop size l)]. f_equal.
    etransitivity; [|apply (IH (drop size l)); rewrite length_drop; lia].
    f_equal. apply map_ext. intros i. rewrite drop_drop. do 2 f_equal; lia.
Qed.

(** X18 (the pager of the project list).  For a positive page size the
    number of pages is zero for no rows and otherwise the least number of
    pages that hold the rows.  With at most one page all rows are shown,
    whatever the page.  With more pages, page [p] shows the [page_size] rows
    from row [(p - 1) * page_size] on; no page is empty, every page but the
    last is full, and the pages in order are the rows, each once. *)
Theorem pager_partitions {A} (filtered : list A) page_size :
  (0 < page_size)%Z →
  let len := Z.of_nat (length filtered) in
  let pages := total_pages len page_size in
  (len = 0 → pages = 0)%Z ∧
  (0 < len → (pages - 1) * page_size < len ≤ pages * page_size)%Z ∧
  (pages ≤ 1 →
   (len ≤ page_size)%Z ∧ ∀ page, display_rows filtered page_size page = filtered)%Z ∧
  (1 < pages →
   (∀ page, 1 ≤ page ≤ pages →
            display_rows filtered page_size page
            = take (Z.to_nat page_size)
                   (drop (Z.to_nat ((page - 1) * page_size)) filtered) ∧
            display_rows filtered page_size page ≠ [] ∧
            (Z.of_nat (length (display_rows filtered page_size page)) ≤ page_size) ∧
            (page < pages →
             Z.of_nat (length (display_rows filtered page_size page)) = page_size)) ∧
   concat (map (display_rows filtered page_size) (seqZ 1 pages)) = filtered)%Z.
Proof.
  intros Hps. cbv zeta.
  destruct (total_pages_ceiling (Z.of_nat (length filtered)) page_size Hps)
    as [Hzero Hceil].
  set (len := Z.of_nat (length filtered)) in *.
  set (pages := total_pages len page_size) in *.
  split; [exact Hzero|]. split; [exact Hceil|].
  assert (Hshape : (1 < pages)%Z → ∀ page, (1 ≤ page ≤ pages)%Z →
            display_rows filtered page_size page
            = take (Z.to_nat page_size)
                   (drop (Z.to_nat ((page - 1) * page_size)) filtered)).
  { intros Hmany page Hpage. unfold display_rows. cbv zeta. fold len. fold pages.
    rewrite (proj2 (Z.ltb_lt 1 pages) Hmany).
    rewrite slice_take_drop by nia. do 2 f_equal. lia. }
  split.
  - intros Hone.
    assert (Hlen : (len ≤ page_size)%Z).
    { destruct (Z.eq_dec len 0) as [H0|H0]; [lia|].
      assert (0 < len)%Z by lia. specialize (Hceil H). nia. }
    split; [exact Hlen|]. intros page. unfold display_rows. cbv zeta.
    fold len. fold pages.
    rewrite (proj2 (Z.ltb_ge 1 pages) Hone). reflexivity.
  - intros Hmany.
    assert (Hpos : (0 < len)%Z).
    { destruct (Z.eq_dec len 0) as [H0|H0]; [specialize (Hzero H0); lia|lia]. }
    specialize (Hceil Hpos). split.
    + intros page Hpage. rewrite (Hshape Hmany page Hpage).
      split; [reflexivity|].
      assert (Hlen : length (take (Z.to_nat page_size)
                              (drop (Z.to_nat ((page - 1) * page_size)) filtered))
                     = Nat.min (Z.to_nat page_size)
                         (length filtered - Z.to_nat ((page - 1) * page_size))).
      { rewrite length_take, length_drop. reflexivity. }
      split; [|split].
      * intros Hnil. rewrite Hnil in Hlen. cbn in Hlen. unfold len in *. nia.
      * rewrite Hlen. lia.
      * intros Hlt. rewrite Hlen. unfold len in *. nia.
    + rewrite <- (pages_concat (Z.to_nat page_size) (Z.to_nat pages) filtered)
        at 2 by (unfold len in *; nia).
      unfold seqZ. rewrite !map_map. f_equal. apply map_ext_in. intros i Hi.
      apply in_seq in Hi. rewrite Hshape by lia. do 2 f_equal. nia.
Qed.

End ProjectPage.

(** ** The call-center page and the upload script *)

Section CallCenter.
Import call_center.

(** X19 ([readable_sec]).  For a number of seconds the function shows
    minutes and seconds exactly when the number lies between 0 and 3599,
    and hours, minutes and seconds otherwise; the parts shown add up to the
    number, and minutes and seconds lie between 0 and 59, also for a
    negative number, where the hours are negative. *)
Theorem readable_sec_decomposes seconds :
  match readable_sec (Some seconds) with
  | MinSec m s =>
      (0 ≤ seconds < 3600)%Z ∧ seconds = (60 * m + s)%Z ∧
      (0 ≤ m < 60)%Z ∧ (0 ≤ s < 60)%Z
  | HourMinSec h m s =>
      (seconds < 0 ∨ 3600 ≤ seconds)%Z ∧ seconds = (3600 * h + 60 * m + s)%Z ∧
      (0 ≤ m < 60)%Z ∧ (0 ≤ s < 60)%Z
  | AsGiven => False
  end.
Proof.
  unfold readable_sec. cbv zeta.
  pose proof (Z.div_mod seconds 3600 ltac:(lia)) as H1.
  pose proof (Z.mod_pos_bound seconds 3600 ltac:(lia)) as B1.
  pose proof (Z.div_mod (seconds mod 3600) 60 ltac:(lia)) as H2.
  pose proof (Z.mod_pos_bound (seconds mod 3600) 60 ltac:(lia)) as B2.
  pose proof (Z.div_mod seconds 60 ltac:(lia)) as H3.
  pose proof (Z.mod_pos_bound seconds 60 ltac:(lia)) as B3.
  assert (Hs : (seconds mod 3600) mod 60 = seconds mod 60).
  { apply Z.mod_mod_divide. exists 60. reflexivity. }
  destruct (seconds / 3600 =? 0)%Z eqn:Hh.
  - apply Z.eqb_eq in Hh. lia.
  - apply Z.eqb_neq in Hh. lia.
Qed.


Lemma after_last_clean c s : contains c (after_last c s) = false.
Proof.
  induction s as [|a rest IH]; [reflexivity|]. cbn [after_last].
  destruct (contains c rest) eqn:Hrest; [exact IH|].
  destruct (Ascii.eqb a c) eqn:Ha; [exact Hrest|].
  cbn [contains]. rewrite Ha, Hrest. reflexivity.
Qed.

Lemma after_last_split c s :
  contains c s = true →
  ∃ before, s = (before ++ String c (after_last c s))%string.
Proof.
  induction s as [|a rest IH]; [discriminate|]. cbn [contains after_last].
  destruct (contains c rest) eqn:Hrest.
  - intros _. destruct (IH eq_refl) as [before Hb].
    exists (String a before).
    change (String a rest
            = String a (before ++ String c (after_last c rest))%string).
    f_equal. exact Hb.
  - rewrite orb_false_r. intros Ha. rewrite Ha. apply Ascii.eqb_eq in Ha. subst.
    exists EmptyString. reflexivity.
Qed.

Lemma string_append_assoc (a b c : string) :
  ((a ++ b) ++ c)%string = (a ++ (b ++ c))%string.
Proof.
  induction a as [|x a IH]; [reflexivity|].
  change (String x ((a ++ b) ++ c)%string = String x (a ++ (b ++ c))%string).
  f_equal. exact IH.
Qed.

Lemma existsb_eqb_elem_of (x : string) l :
  existsb (String.eqb x) l = true ↔ x ∈ l.
Proof.
  rewrite existsb_exists. split.
  - intros (y & Hin & Heq). apply String.eqb_eq in Heq. subst.
    apply list_elem_of_In. exact Hin.
  - intros Hin. exists x. split; [apply list_elem_of_In; exact Hin|].
    apply String.eqb_refl.
Qed.

(** X20 (the recordings tab).  The file name taken from a URL has no
    slash and is the end of the URL, after a slash if the URL has one.  A
    file name without a dot has no extension and the URL is handed to the
    player.  Otherwise the extension is the lower-cased text after the last
    dot, and the URL is handed to the player exactly when the extension is
    one of the supported ones; any other extension gets the warning. *)
Theorem audio_file_parts (lower : string → string) url :
  let filename := filename_of url in
  contains "/" filename = false ∧
  (∃ dir, url = (dir ++ filename)%string ∧
          (dir = "" ∨ ∃ d, dir = (d ++ "/")%string)) ∧
  match ext_of lower filename with
  | None => contains "." filename = false ∧ audio_player lower url = Play url
  | Some ext =>
      (∃ stem raw, filename = (stem ++ "." ++ raw)%string ∧
                   contains "." raw = false ∧ ext = lower raw) ∧
      (ext ∈ SUPPORTED_AUDIO_EXTS → audio_player lower url = Play url) ∧
      (ext ∉ SUPPORTED_AUDIO_EXTS → audio_player lower url = UnsupportedFormat ext)
  end.
Proof.
  cbv zeta. split; [|split].
  - unfold filename_of. destruct (contains "/" url) eqn:Hc; [|exact Hc].
    apply after_last_clean.
  - unfold filename_of. destruct (contains "/" url) eqn:Hc.
    + destruct (after_last_split "/" url Hc) as [before Hb].
      exists (before ++ "/")%string. split.
      * rewrite Hb at 1. rewrite string_append_assoc. reflexivity.
      * right. exists before. reflexivity.
    + exists "". split; [reflexivity|]. left. reflexivity.
  - unfold audio_player, ext_of. cbv zeta.
    destruct (contains "." (filename_of url)) eqn:Hc; [|split; reflexivity].
    split; [|split].
    + destruct (after_last_split "." _ Hc) as [before Hb].
      exists before, (after_last "." (filename_of url)).
      split; [exact Hb|]. split; [apply after_last_clean|reflexivity].
    + intros Hin. apply existsb_eqb_elem_of in Hin. rewrite Hin. reflexivity.
    + intros Hnin. destruct (existsb _ _) eqn:He; [|reflexivity].
      apply existsb_eqb_elem_of in He. contradiction.
Qed.

End CallCenter.

Section GitAgent.
Import gitagent.

Context {env : Environment}.
Context (strip : string → string) (path_join : string → string → string).

Lemma replace_spaces_no_space s : no_space (replace_spaces s).
Proof.
  unfold no_space. induction s as [|c rest IH]; [reflexivity|].
  cbn [replace_spaces call_center.contains]. rewrite IH, orb_false_r.
  destruct (Ascii.eqb c " ") eqn:Hc; [reflexivity|exact Hc].
Qed.

Lemma replace_spaces_length s :
  String.length (replace_spaces s) = String.length s.
Proof. induction s as [|c rest IH]; [reflexivity|]. cbn. rewrite IH. reflexivity. Qed.

Lemma call_spec c w :
  call c w
  = (match raises c with Some e => Raise e | None => Ret tt end,
     mkWorld (calls w ++ [c]) (shown w)).
Proof. unfold call. py_red. destruct (raises c); reflexivity. Qed.

Lemma extract_all_cases members folder w :
  (extract_all members folder w
   = (Ret tt, mkWorld (calls w ++ ((λ m, Extract m folder) <$> members)) (shown w)) ∧
   Forall (λ m, raises (Extract m folder) = None) members)
  ∨
  (∃ e done last,
      extract_all members folder w
      = (Raise e,
         mkWorld (calls w ++ ((λ m, Extract m folder) <$> done ++ [last])) (shown w)) ∧
      (done ++ [last]) `prefix_of` members ∧
      raises (Extract last folder) = Some e).
Proof.
  revert w. induction members as [|m rest IH]; intros w.
  - left. cbn. rewrite app_nil_r. destruct w. split; [reflexivity|constructor].
  - cbn [extract_all]. unfold bind. rewrite !call_spec.
    destruct (raises (Extract m folder)) as [e|] eqn:Hm.
    + right. exists e, [], m. split; [reflexivity|]. split; [|exact Hm].
      exists rest. reflexivity.
    + destruct (IH (mkWorld (calls w ++ [Extract m folder]) (shown w)))
        as [[-> Hall]|(e & done & last & -> & Hpre & Hlast)].
      * left. cbn [calls shown]. rewrite fmap_cons, <- app_assoc. split; [reflexivity|].
        constructor; assumption.
      * right. exists e, (m :: done), last. cbn [calls shown app].
        rewrite fmap_cons, <- app_assoc. split; [reflexivity|]. split; [|exact Hlast].
        apply prefix_cons. exact Hpre.
Qed.

Ltac leaf :=
  simpl;
  eexists _, _;
  split; [rewrite <- ?app_assoc; simpl; reflexivity|];
  split; [first [symmetry; apply app_nil_r
                | rewrite <- ?app_assoc; simpl; reflexivity]|].

Ltac step_call :=
  rewrite call_spec;
  match goal with
  | |- context [match raises ?c with _ => _ end] =>
      let H := fresh "Hcall" in destruct (raises c) eqn:H
  end; py_red; cbn [calls shown].

Ltac all_succeeded Hall :=
  repeat first
    [ apply Forall_nil; exact I
    | apply Forall_cons; split;
      [first [intros _; assumption | intros H; discriminate H]|]
    | apply Forall_app; split
    | apply Forall_fmap, Forall_forall; intros ? ? _; apply Hall; assumption ].

Local Set Warnings "-clear-no-such-hyp".

Lemma create_and_push_cases token user raw z w :
  let name := replace_spaces (strip raw) in
  let r := fst (create_and_push strip path_join token user raw z w) in
  let w' := snd (create_and_push strip path_join token user raw z w) in
  ∃ new sh,
    calls w' = calls w ++ new ∧ shown w' = shown w ++ sh ∧
    (∀ tok nm, PostRepo tok nm ∈ new → tok = token ∧ nm = name) ∧
    (∀ refspec, Push refspec ∈ new →
       status_code = 201 ∧
       new = calls_up_to_push path_join token user name z ∧
       Forall (λ c, is_push c = false → raises c = None) new) ∧
    (Pushed ∈ sh →
     Push "HEAD:refs/heads/master" ∈ new ∧
     raises (Push "HEAD:refs/heads/master") = None ∧ r = Ret RanThrough) ∧
    (∀ e, r = Raise e → Pushed ∉ sh).
Proof.
  cbv zeta. unfold calls_up_to_push. cbv zeta.
  unfold create_and_push, show. py_red.
  step_call; [leaf; set_unfold; naive_solver|].
  destruct (status_code =? 201)%Z eqn:Hst; py_red.
  2:{ step_call; leaf; set_unfold; naive_solver. }
  apply Z.eqb_eq in Hst.
  do 4 (step_call; [leaf; set_unfold; naive_solver|]).
  match goal with
  | |- context [extract_all ?ms ?f ?W] =>
      destruct (extract_all_cases ms f W)
        as [[Hex Hall]|(e & done & last & Hex & Hpre & Hlast)];
      rewrite Hex; py_red
  end.
  2:{ leaf. set_unfold. naive_solver. }
  rewrite Forall_forall in Hall.
  do 6 (step_call; [leaf; set_unfold; naive_solver|]).
  destruct has_origin eqn:Horigin; py_red.
  - step_call; [leaf; set_unfold; naive_solver|].
    step_call.
    + leaf. split; [set_unfold; naive_solver|]. split.
      { intros refspec _. split; [exact Hst|]. split; [reflexivity|].
        all_succeeded Hall. }
      split; set_unfold; naive_solver.
    + leaf. split; [set_unfold; naive_solver|]. split.
      { intros refspec _. split; [exact Hst|]. split; [reflexivity|].
        all_succeeded Hall. }
      split; [|discriminate].
      intros _. split; [|auto]. set_unfold. do 13 right. left. reflexivity.
  - step_call; [leaf; set_unfold; naive_solver|].
    step_call.
    + leaf. split; [set_unfold; naive_solver|]. split.
      { intros refspec _. split; [exact Hst|]. split; [reflexivity|].
        all_succeeded Hall. }
      split; set_unfold; naive_solver.
    + leaf. split; [set_unfold; naive_solver|]. split.
      { intros refspec _. split; [exact Hst|]. split; [reflexivity|].
        all_succeeded Hall. }
      split; [|discriminate].
      intros _. split; [|auto]. set_unfold. do 13 right. left. reflexivity.
Qed.

(** X21 (the upload script).  In every run the script only adds calls.
    The repository name it uses has no space, and every request that
    creates a repository carries the token and that name.  A push is made
    only when the button was pressed, the three texts and the archive are
    there, GitHub answered 201, and every call before it succeeded: the
    calls of the run are then the request, the temporary folder, the
    archive written and opened, one extraction per member into the
    repository folder, and the git commands in order.  The page says
    "pushed" only after a push that succeeded, in a run that reaches the
    end of the script. *)
Theorem push_needs_created_repo token user raw zip button w :
  let r := fst (script strip path_join token user raw zip button w) in
  let w' := snd (script strip path_join token user raw zip button w) in
  let name := replace_spaces (strip raw) in
  ∃ new,
    calls w' = calls w ++ new ∧
    no_space name ∧
    (∀ tok nm, PostRepo tok nm ∈ new → tok = token ∧ nm = name) ∧
    (∀ refspec, Push refspec ∈ new →
       button = true ∧ token ≠ "" ∧ user ≠ "" ∧ raw ≠ "" ∧ status_code = 201 ∧
       ∃ z, zip = Some z ∧
            new = calls_up_to_push path_join token user name z ∧
            Forall (λ c, is_push c = false → raises c = None) new) ∧
    (Pushed ∈ shown w' →
     Pushed ∈ shown w ∨
     (Push "HEAD:refs/heads/master" ∈ new ∧
      raises (Push "HEAD:refs/heads/master") = None ∧ r = Ret RanThrough)).
Proof.
  cbv zeta.
  assert (Hquiet : ∀ sh,
             Pushed ∉ sh →
             ∃ new : list Call,
               calls w = calls w ++ new ∧
               no_space (replace_spaces (strip raw)) ∧
               (∀ tok nm, PostRepo tok nm ∈ new →
                          tok = token ∧ nm = replace_spaces (strip raw)) ∧
               (∀ refspec, Push refspec ∈ new →
                  button = true ∧ token ≠ "" ∧ user ≠ "" ∧ raw ≠ "" ∧
                  status_code = 201 ∧
                  ∃ z, zip = Some z ∧
                       new = calls_up_to_push path_join token user
                               (replace_spaces (strip raw)) z ∧
                       Forall (λ c, is_push c = false → raises c = None) new) ∧
               (Pushed ∈ shown w ++ sh →
                Pushed ∈ shown w ∨
                (Push "HEAD:refs/heads/master" ∈ new ∧
                 raises (Push "HEAD:refs/heads/master") = None ∧
                 Ret RanThrough = Ret RanThrough))).
  { intros sh Hsh. exists []. rewrite app_nil_r. split; [reflexivity|].
    split; [apply replace_spaces_no_space|]. split; [intros ? ? H; inversion H|].
    split; [intros ? H; inversion H|]. intros H.
    apply elem_of_app in H as [H|H]; [left; exact H|contradiction]. }
  unfold script. destruct button; cbn [negb].
  2:{ destruct (Hquiet []) as [new Hnew]; [intros H; inversion H|].
      exists new. rewrite app_nil_r in Hnew. exact Hnew. }
  assert (Hwarn : Pushed ∉ [WarnIncomplete]).
  { intros H. apply list_elem_of_singleton in H. discriminate. }
  destruct zip as [z|]; [|unfold show; py_red; apply (Hquiet _ Hwarn)].
  destruct (String.eqb token "") eqn:Ht;
    [unfold show; py_red; apply (Hquiet _ Hwarn)|].
  destruct (String.eqb user "") eqn:Hu;
    [unfold show; py_red; apply (Hquiet _ Hwarn)|].
  destruct (String.eqb raw "") eqn:Hr;
    [unfold show; py_red; apply (Hquiet _ Hwarn)|].
  cbn [orb]. apply String.eqb_neq in Ht, Hu, Hr.
  destruct (create_and_push_cases token user raw z w)
    as (new & sh & Hcalls & Hshown & Hpost & Hpush & Hpushed & Hraise).
  unfold try_except.
  destruct (create_and_push strip path_join token user raw z w) as [[ending|e] w0].
  - cbn [fst snd] in *. exists new. split; [exact Hcalls|].
    split; [apply replace_spaces_no_space|]. split; [exact Hpost|]. split.
    + intros refspec Hin. destruct (Hpush refspec Hin) as (Hst & Hnew & Hall).
      repeat split; try assumption. exists z. auto.
    + rewrite Hshown. intros Hin. apply elem_of_app in Hin as [Hin|Hin]; [auto|].
      right. apply Hpushed. exact Hin.
  - cbn [fst snd] in *. cbn [dispatch_except].
    exists new.
    assert (Hold : ∀ tail, Pushed ∈ shown w0 ++ tail → Pushed ∉ tail →
                           Pushed ∈ shown w).
    { intros tail Hin Htail. rewrite Hshown in Hin.
      repeat (apply elem_of_app in Hin as [Hin|Hin]);
        [exact Hin|destruct (Hraise e eq_refl Hin)|contradiction]. }
    assert (Herr : Pushed ∉ [ErrorShown e]).
    { intros H. apply list_elem_of_singleton in H. discriminate. }
    destruct (exn_isinstance e CException); unfold show; py_red;
      cbn [calls shown].
    + split; [exact Hcalls|].
      split; [apply replace_spaces_no_space|]. split; [exact Hpost|]. split.
      * intros refspec Hin. destruct (Hpush refspec Hin) as (Hst & Hnew & Hall).
        repeat split; try assumption. exists z. auto.
      * intros Hin. left. exact (Hold _ Hin Herr).
    + split; [exact Hcalls|].
      split; [apply replace_spaces_no_space|]. split; [exact Hpost|]. split.
      * intros refspec Hin. destruct (Hpush refspec Hin) as (Hst & Hnew & Hall).
        repeat split; try assumption. exists z. auto.
      * intros Hin. left. apply (Hold []); [rewrite app_nil_r; exact Hin|].
        intros H; inversion H.
Qed.

End GitAgent.

(** ** Concrete runs *)

Section Examples.

Import gsheet_manager project_management.

Lemma write_invalidation_witness :
  (∃ t m2,
      remote warm_manager !! ("sheet1", None) = Some t ∧
      get_sheet_data 1 "sheet1" None true
        (snd (append_row "sheet1" sample_row None warm_manager))
      = (Ret (normalize (mkTable (columns t) (rows t ++ [sample_row]))), m2) ∧
      remote_calls m2
      = remote_calls (snd (append_row "sheet1" sample_row None warm_manager))
          ++ [ReadAllRows ("sheet1", None)])
  ∧
  (∃ m2,
      get_sheet_data 1 "sheet1" None true
        (snd (update_sheet_data "sheet1" sample_table None warm_manager))
      = (Ret (normalize sample_table), m2) ∧
      remote_calls m2
      = remote_calls (snd (update_sheet_data "sheet1" sample_table None warm_manager))
          ++ [ReadAllRows ("sheet1", None)]).
Proof.
  destruct write_invalidation as [Happend Hupdate]. split.
  - apply (Happend "sheet1" sample_row None warm_manager). reflexivity.
  - apply (Hupdate "sheet1" sample_table None warm_manager). reflexivity.
Defined.

Lemma cache_freshness_witness :
  (get_sheet_data (seconds 299) "sheet1" None true
     (snd (get_sheet_data 0 "sheet1" None true cold_manager))
   = (Ret (normalize sample_table),
      snd (get_sheet_data 0 "sheet1" None true cold_manager)) ∧
   remote_calls (snd (get_sheet_data 0 "sheet1" None true cold_manager))
   = remote_calls cold_manager ++ [ReadAllRows ("sheet1", None)])
  ∧
  (∃ t, project_last_auto_load (session (snd (auto_load_project_data first_run)))
        = Some (Some t) ∧
        ∀ dt, clock (snd (auto_load_project_data first_run)) + dt - t < seconds 300 →
              auto_load_project_data (elapse dt (snd (auto_load_project_data first_run)))
              = (Ret tt, elapse dt (snd (auto_load_project_data first_run))) ∧
              calls (snd (auto_load_project_data
                            (elapse dt (snd (auto_load_project_data first_run)))))
              = calls (snd (auto_load_project_data first_run)))
  ∧
  get_sheet_data (seconds 20) "sheet1" None true warm_manager
  = (Ret (normalize sample_table), warm_manager)
  ∧
  remote_calls (snd (get_sheet_data (seconds 20) "sheet1" None true
                       (snd (get_sheet_data (seconds 10) "sheet1" None true
                               down_manager))))
  = remote_calls down_manager
      ++ [ReadAllRows ("sheet1", None); ReadAllRows ("sheet1", None)].
Proof.
  destruct cache_freshness as (Hreads & Hpage & Hfresh & Hfailed).
  split; [|split; [|split]].
  - apply (Hreads 0 (seconds 299) "sheet1" None cold_manager).
    + exact I.
    + reflexivity.
    + reflexivity.
  - apply (Hpage first_run (fst (auto_load_project_data first_run)) _ 1%nat).
    + reflexivity.
    + reflexivity.
  - apply (Hfresh (seconds 10) (seconds 20) "sheet1" None warm_manager
             (mkEntry (normalize sample_table) 0)); reflexivity.
  - apply (Hfailed (seconds 10) (seconds 20) "sheet1" None down_manager
             (DataSourceError "read failed")).
    + exact I.
    + reflexivity.
    + discriminate.
Defined.

Lemma cache_freshness_counterexample :
  remote_calls
    (snd (get_sheet_data (seconds 20) "sheet1" None true
            (snd (get_sheet_data (seconds 10) "sheet1" None true warm_manager))))
  = remote_calls warm_manager
  ∧
  remote_calls
    (snd (get_sheet_data (seconds 20) "sheet1" None true
            (snd (get_sheet_data (seconds 10) "sheet1" None true down_manager))))
  = remote_calls down_manager
      ++ [ReadAllRows ("sheet1", None); ReadAllRows ("sheet1", None)].
Proof. split; reflexivity. Qed.

Lemma add_project_never_appends_witness :
  render_add_project_tab false sample_widget true loaded_run
  = (Ret tt,
     mkWorld (session loaded_run) (manager loaded_run) (clock loaded_run)
       (shown loaded_run ++
          [StError (AddError (TypeError
             "isinstance() arg 2 must be a type, a tuple of types, or a union"))])
       (calls loaded_run)).
Proof.
  apply (proj2 add_project_never_appends false sample_widget loaded_run
           (normalize sample_table)).
  - reflexivity.
  - reflexivity.
Defined.

End Examples.

Section DispatcherExamples.

Import record.

Lemma retry_bound_witness :
  ∃ w',
    send_to_webhook (env := offline) "rec" (Some "audio") initial_world
    = (Ret (false, MsgTimedOut, timeout_record (seconds 3) "audio" audio_url), w') ∧
    length (filter (λ e, is_post e = true) (events w')) = 3%nat ∧
    dict_get "attempt_count" (timeout_record (seconds 3) "audio" audio_url) = None.
Proof.
  destruct (@retry_bound string offline "rec" (Some "audio") initial_world
              audio_url (mkStats 0 0 0))
    as (w' & Hrun & _ & Hposts & _ & Hcount & _).
  - reflexivity.
  - reflexivity.
  - split; [reflexivity|]. split; [reflexivity|].
    exists 3%N. split; [reflexivity|]. discriminate.
  - intros seen. reflexivity.
  - exists w'. split; [exact Hrun|]. split; [exact Hposts|exact Hcount].
Defined.

Lemma retry_bound_counterexample :
  ∃ data w',
    send_to_webhook (env := offline) "rec" (Some "audio") initial_world
    = (Ret (false, MsgTimedOut, data), w') ∧
    length (filter (λ e, is_post e = true) (events w')) = 3%nat ∧
    webhook_responses w' = [data] ∧
    dict_get "attempt_count" data ≠ Some (VInt 3).
Proof.
  do 2 eexists. split; [vm_compute; reflexivity|].
  split; [reflexivity|]. split; [reflexivity|]. discriminate.
Qed.

Lemma gate_order_witness :
  ∃ new posts,
    events (snd (send_to_webhook (env := flaky) "rec" (Some "audio")
                   initial_world))
    = events initial_world ++ new ∧
    (posts ≤ 3)%nat ∧
    filter (λ e, is_gate e = true) new
    = [ EvRateCheck "Multi-Webhook User" "audio"; EvValidate; EvSanitize; EvDumps ]
        ++ replicate posts (EvPost audio_url).
Proof.
  destruct (@gate_order string flaky "rec" (Some "audio") initial_world audio_url)
    as (new & posts & Hev & Hle & _ & Hgates).
  - reflexivity.
  - exists new, posts. split; [exact Hev|]. split; [exact Hle|exact Hgates].
Defined.

Lemma gate_order_counterexample :
  let w' := snd (send_to_webhook (env := refusing) "rec" (Some "audio")
                   initial_world) in
  fst (validate_webhook_payload (Collaborators := refusing) "rec") = false ∧
  events w' = [EvRateCheck "Multi-Webhook User" "audio"; EvLogError "audio"] ∧
  ¬ filter (λ e, is_gate e = true) (events w')
      `prefix_of` claimed_gate_order "Multi-Webhook User" "audio" audio_url.
Proof.
  split; [reflexivity|]. split; [reflexivity|].
  intros [rest Hrest]. vm_compute in Hrest. discriminate.
Qed.

Lemma pre_network_gates_witness :
  (let w' := snd (send_to_webhook (env := refusing) "rec" (Some "audio")
                    initial_world) in
   filter (λ e, is_post e = true) (events w') = [] ∧
   sent <$> (webhook_stats w' !! "audio") = Some 0)
  ∧
  ∃ msg data w',
    send_to_webhook (env := refusing) "rec" (Some "audio") initial_world
    = (Ret (false, msg, data), w') ∧
    dict_get "error" data = Some (VStr "Rate limit exceeded") ∧
    webhook_responses w' = [data].
Proof.
  destruct (@pre_network_gates string refusing "rec" (Some "audio") initial_world)
    as [Hquiet Hrecord].
  split.
  - destruct Hquiet as [Hposts Hsent]; [left; reflexivity|].
    split; [exact Hposts|]. apply (Hsent (mkStats 0 0 0)). reflexivity.
  - destruct (Hrecord audio_url (mkStats 0 0 0))
      as (msg & data & w' & Hrun & Herr & Hhist & _).
    + reflexivity.
    + reflexivity.
    + left. reflexivity.
    + exists msg, data, w'. split; [exact Hrun|]. split; [exact Herr|exact Hhist].
Defined.

Lemma retry_boundary_witness :
  retry_loop (env := flaky) audio_url "rec" [1; 2] (after_post audio_url initial_world)
  = (Ret (503, "busy", 1), after_post audio_url (after_post audio_url initial_world))
  ∧
  ∃ new,
    events (snd (send_to_webhook (env := flaky) "rec" (Some "audio")
                   initial_world))
    = events initial_world ++ new ∧
    (length (post_outcomes (env := flaky) (events initial_world) new "rec") ≤ 3)%nat.
Proof.
  destruct (@retry_boundary string flaky) as [Hloop Hcall]. split.
  - apply Hloop. reflexivity.
  - destruct (Hcall "rec" (Some "audio") initial_world) as (new & Hev & Hlen & _).
    exists new. split; [exact Hev|exact Hlen].
Defined.

Lemma fan_out_witness :
  (send_to_multiple_webhooks (env := refusing) "rec" ["audio"; "books"] initial_world
   = (Ret (uniform_failure ["audio"; "books"] ["content: field required"]),
      with_event EvValidate initial_world))
  ∧
  (∃ results w',
      send_to_multiple_webhooks (env := audio_down) "rec" ["audio"; "books"]
        initial_world
      = (Ret results, w') ∧
      (∃ data, results !! "books" = Some (FanResult true (MsgSent "📚 Books") data)) ∧
      (∃ data, results !! "audio" = Some (FanResult false MsgTimedOut data)) ∧
      (∃ new, events w' = events initial_world ++ EvValidate :: new ∧
              validations_in new = 2%nat)).
Proof.
  split.
  - apply (@fan_out string refusing "rec" ["audio"; "books"] initial_world);
      [discriminate|reflexivity].
  - destruct (@fan_out string audio_down "rec" ["audio"; "books"] initial_world)
      as [_ Hvalid]; [discriminate|].
    destruct Hvalid as (results & w' & Hrun & _ & Hok & Hdown & _ & Hagain);
      [reflexivity|].
    exists results, w'. split; [exact Hrun|]. split; [|split].
    + destruct (Hok "books" books_url "📚 Books") as (data & Hdata & _).
      * apply list_elem_of_further, list_elem_of_here.
      * reflexivity.
      * split; [reflexivity|]. split; [eexists; reflexivity|].
        split; [intros seen u; reflexivity|].
        exists 3%N. split; [reflexivity|discriminate].
      * intros seen. eexists. reflexivity.
      * exists data. exact Hdata.
    + destruct (Hdown "audio" audio_url) as (data & Hdata & _).
      * apply list_elem_of_here.
      * reflexivity.
      * split; [reflexivity|]. split; [eexists; reflexivity|].
        split; [intros seen u; reflexivity|].
        exists 3%N. split; [reflexivity|discriminate].
      * intros seen. reflexivity.
      * exists data. exact Hdata.
    + destruct Hagain as (new & Hev & _ & Hcount).
      exists new. split; [exact Hev|]. apply Hcount.
      intros wt Hwt. split; [|split; [|intros seen u; reflexivity]].
      * apply elem_of_cons in Hwt as [->|Hwt]; [reflexivity|].
        apply elem_of_cons in Hwt as [->|Hwt]; [reflexivity|inversion Hwt].
      * apply elem_of_cons in Hwt as [->|Hwt]; [eexists; reflexivity|].
        apply elem_of_cons in Hwt as [->|Hwt]; [eexists; reflexivity|inversion Hwt].
Defined.

Lemma fan_out_counterexample :
  let w' := snd (send_to_multiple_webhooks (env := audio_down) "rec"
                   ["audio"; "books"] initial_world) in
  fst (validate_webhook_payload (Collaborators := audio_down) "rec") = true ∧
  filter (λ e, is_validate e = true) (events w')
  = [EvValidate; EvValidate; EvValidate] ∧
  validations_in (events w') ≠ 1%nat.
Proof.
  split; [reflexivity|]. split; [vm_compute; reflexivity|].
  vm_compute. discriminate.
Qed.

(** C5 at its failing input.  Twenty-one calls while the network is down
    leave twenty-one "Request timeout" records in the history: the error
    handlers insert their record without cutting the list to twenty. *)
Theorem history_cap_missed_on_failures :
  let w' := snd (send_many (env := offline) 21 "rec" "audio" initial_world) in
  length (webhook_responses w') = 21%nat ∧
  Forall (λ d, dict_get "error" d = Some (VStr "Request timeout"))
         (webhook_responses w').
Proof.
  vm_compute. split; [reflexivity|]. repeat constructor.
Qed.

(** C8 at its failing inputs.  [send_to_webhook] raises instead of
    returning a triple: [KeyError] for a webhook type without a URL (the
    lookup is outside the [try]), and [AttributeError] for an exception no
    clause before [json.JSONEncodeError] catches, here the [TypeError] of
    [json.dumps] and a [requests] exception that is neither a timeout nor a
    connection error. *)
Theorem dispatch_raises :
  fst (send_to_webhook (env := offline) "rec" (Some "minutes")
         initial_world)
  = Raise (KeyError "minutes") ∧
  fst (send_to_webhook (env := unserialisable) "rec" (Some "audio")
         initial_world)
  = Raise attribute_error ∧
  fst (send_to_webhook (env := redirect_loop) "rec" (Some "audio")
         initial_world)
  = Raise attribute_error.
Proof. repeat split; reflexivity. Qed.

End DispatcherExamples.

(** ** Concrete runs of the frame and fan-out statements *)

Section FrameExamples.

Import record.

Lemma dispatch_frame_witness :
  let w' := snd (send_to_webhook (env := flaky) "rec" (Some "audio") initial_world) in
  webhook_urls w' = webhook_urls initial_world ∧
  webhook_stats w' !! "books" = Some (mkStats 0 0 0) ∧
  (0 ≤ clock w' ≤ seconds 3)%Z.
Proof.
  destruct (@dispatch_frame string flaky "rec" (Some "audio") initial_world)
    as (Hurls & _ & _ & Hclock & Hother & _).
  split; [exact Hurls|]. split; [|exact Hclock].
  rewrite Hother; [reflexivity|discriminate].
Defined.

Lemma dispatch_counters_witness :
  ∃ s', webhook_stats (snd (send_to_webhook (env := flaky) "rec" (Some "audio")
                              initial_world))
        = <["audio" := s']> (webhook_stats initial_world) ∧
        sent s' = 1 ∧ success s' = 0 ∧ errors s' = 1.
Proof.
  destruct (@dispatch_counters string flaky "rec" (Some "audio") initial_world
              audio_url (mkStats 0 0 0))
    as (s' & Hstats & Hsent & _ & Hout).
  - reflexivity.
  - reflexivity.
  - exists s'. split; [exact Hstats|]. split.
    + apply Hsent. split; [reflexivity|]. split; [reflexivity|].
      exists 3%N. split; [reflexivity|]. discriminate.
    + exact Hout.
Defined.

Lemma dispatch_record_witness :
  ∃ msg data w',
    send_to_webhook (env := flaky) "rec" (Some "audio") initial_world
    = (Ret (false, msg, data), w') ∧
    dict_get "webhook_type" data = Some (VStr "audio") ∧
    dict_get "url" data = Some (VStr audio_url) ∧
    dict_get "timestamp" data = Some (VTime (clock w')) ∧
    dict_get "status_code" data ≠ Some (VInt 200).
Proof.
  assert (Hrun : ∃ msg data w',
             send_to_webhook (env := flaky) "rec" (Some "audio") initial_world
             = (Ret (false, msg, data), w'))
    by (do 3 eexists; vm_compute; reflexivity).
  destruct Hrun as (msg & data & w' & Hrun).
  destruct (@dispatch_record string flaky "rec" (Some "audio") initial_world
              false msg data w' Hrun) as (Hwt & Hurl & Hts & _ & Hsc & _).
  exists msg, data, w'. split; [exact Hrun|]. split; [exact Hwt|].
  split; [symmetry; exact Hurl|]. split; [exact Hts|].
  intros H. apply Hsc in H. discriminate.
Defined.

Lemma attempt_count_counts_requests_witness :
  ∃ msg data w',
    send_to_webhook (env := flaky) "rec" (Some "audio") initial_world
    = (Ret (false, msg, data), w') ∧
    dict_get "attempt_count" data = Some (VInt 2) ∧
    posts_in (events w') = 2%nat.
Proof.
  assert (Hrun : ∃ msg data w',
             send_to_webhook (env := flaky) "rec" (Some "audio") initial_world
             = (Ret (false, msg, data), w') ∧
             dict_get "attempt_count" data = Some (VInt 2))
    by (do 3 eexists; vm_compute; split; reflexivity).
  destruct Hrun as (msg & data & w' & Hrun & Hcount).
  destruct (@attempt_count_counts_requests string flaky "rec" (Some "audio")
              initial_world false msg data w' Hrun) as (_ & Hposts).
  destruct (Hposts _ Hcount) as (a & Ha & _ & Hn).
  exists msg, data, w'. split; [exact Hrun|]. split; [exact Hcount|].
  injection Ha as Ha. rewrite Hn. change (posts_in (events initial_world)) with 0%nat.
  lia.
Defined.

Lemma dispatch_outcomes_witness :
  (∃ ok msg data w',
      send_to_webhook (env := flaky) "rec" (Some "audio") initial_world
      = (Ret (ok, msg, data), w'))
  ∧
  (∀ e w', send_to_webhook (env := redirect_loop) "rec" (Some "audio") initial_world
           = (Raise e, w') → e = attribute_error).
Proof.
  destruct (@dispatch_outcomes string flaky "rec" (Some "audio") initial_world)
    as [_ Hreturns].
  destruct (@dispatch_outcomes string redirect_loop "rec" (Some "audio") initial_world)
    as [Hescape _].
  split.
  - apply (Hreturns audio_url (mkStats 0 0 0) "🎵 Audio Files" 3%N);
      try reflexivity.
    intros seen e. cbn. destruct (existsb is_post seen); [discriminate|].
    intros [= <-]. reflexivity.
  - intros e w' Hrun. destruct (Hescape e w' Hrun) as [He|[_ [Hno|Hno]]];
      [exact He|discriminate|discriminate].
Defined.

Lemma dispatch_history_witness :
  ∃ d, webhook_responses
         (snd (send_to_webhook (env := flaky) "rec" (Some "audio") initial_world))
       = [d] ∧ is_Some (dict_get "status_code" d).
Proof.
  destruct (@dispatch_history string flaky "rec" (Some "audio") initial_world)
    as [[_ Hraise]|[(d & _ & _ & Hnone & Hret)|(d & Hcut & Hsome & _)]].
  - discriminate.
  - exfalso.
    assert (Hrun : ∃ msg data,
               fst (send_to_webhook (env := flaky) "rec" (Some "audio") initial_world)
               = Ret (false, msg, data) ∧ is_Some (dict_get "status_code" data))
      by (do 2 eexists; vm_compute; split; [reflexivity|eexists; reflexivity]).
    destruct Hrun as (msg & data & Hrun & [v Hv]).
    rewrite (Hret _ _ _ Hrun) in Hv. congruence.
  - exists d. split; [exact Hcut|exact Hsome].
Defined.


Lemma fan_out_keys_witness :
  ∃ results w',
    send_to_multiple_webhooks (env := audio_down) "rec" ["audio"; "minutes"]
      initial_world = (Ret results, w') ∧
    results !! "books" = None ∧
    ∃ v, results !! "minutes" = Some v ∧ is_result v.
Proof.
  destruct (@fan_out_keys string audio_down "rec" ["audio"; "minutes"] initial_world)
    as (results & w' & Hrun & _ & Hkeys).
  exists results, w'. split; [exact Hrun|].
  assert (Hne : ["audio"; "minutes"] ≠ @nil string) by discriminate.
  split.
  - pose proof (Hkeys Hne "books") as Hb.
    destruct (results !! "books") as [v|]; [|reflexivity].
    destruct Hb as [Hin _].
    repeat (apply elem_of_cons in Hin as [Hin|Hin]; [discriminate|]). inversion Hin.
  - pose proof (Hkeys Hne "minutes") as Hm.
    destruct (results !! "minutes") as [v|].
    + exists v. split; [reflexivity|apply Hm].
    + exfalso. apply Hm. apply list_elem_of_further, list_elem_of_here.
Defined.

End FrameExamples.

Section FileSizeExamples.

Import record.

Lemma format_file_size_unit_witness :
  format_file_size (5 * 1024 * 1024) = Ret (mkFileSize (5 * 1024 * 1024) "MB") ∧
  format_file_size (2 ^ 40) = Raise (IndexError "list index out of range") ∧
  format_file_size (2 ^ 1024) = Raise OverflowError.
Proof.
  destruct (format_file_size_unit (5 * 1024 * 1024)) as (_ & Hunit & _).
  destruct (format_file_size_unit (2 ^ 40)) as (_ & _ & Hbig & _).
  destruct (format_file_size_unit (2 ^ 1024)) as (_ & _ & _ & Hfloat).
  split; [|split].
  - apply (Hunit 2%N "MB"); [reflexivity|]. split; [discriminate|reflexivity].
  - apply Hbig. split; [discriminate|]. vm_compute. reflexivity.
  - apply Hfloat. vm_compute. discriminate.
Defined.

End FileSizeExamples.

(** ** Concrete runs of the statements about the tabs *)

Section ViewExamples.

Import record.

Lemma success_rate_bounded_witness :
  let w' := snd (send_to_multiple_webhooks (env := audio_down) "rec"
                   ["audio"; "books"] initial_world) in
  (0 <= success_rate (render_webhook_stats w'))%Q ∧
  (success_rate (render_webhook_stats w') <= 100)%Q.
Proof.
  destruct (@success_rate_bounded string audio_down) as (H0 & _ & Hfan & Hb).
  destruct (Hb _ (Hfan "rec" ["audio"; "books"] initial_world H0))
    as (_ & _ & Hlo & Hhi & _).
  split; assumption.
Defined.

Lemma history_status_of_record_witness :
  ∃ msg data w',
    send_to_webhook (env := flaky) "rec" (Some "audio") initial_world
    = (Ret (false, msg, data), w') ∧
    has_status plain_str no_errors flat_isoformat "" OnlySuccess data = false ∧
    has_status plain_str no_errors flat_isoformat "" OnlyError data = true.
Proof.
  assert (Hrun : ∃ msg data w',
             send_to_webhook (env := flaky) "rec" (Some "audio") initial_world
             = (Ret (false, msg, data), w') ∧
             is_Some (dict_get "status_code" data))
    by (do 3 eexists; vm_compute; split; [reflexivity|eexists; reflexivity]).
  destruct Hrun as (msg & data & w' & Hrun & Hcode).
  destruct (@history_status_of_record string flaky plain_str no_errors
              flat_isoformat "" "rec" (Some "audio") initial_world
              false msg data w' Hrun) as (Hok & _ & _ & _ & Herr & _).
  exists msg, data, w'. split; [exact Hrun|]. split; [exact Hok|].
  apply Herr. split; [reflexivity|exact Hcode].
Defined.

Lemma history_summary_witness :
  let w := snd (send_to_webhook (env := flaky) "rec" (Some "audio")
                  initial_world) in
  ∃ cards s,
    render_webhook_history plain_str no_errors flat_isoformat ""
      None OnlyError w = Some (cards, Some s) ∧
    total_responses s = 1 ∧
    other_errors s
    = cards_with plain_str no_errors flat_isoformat "" CardError
        (filter_responses plain_str no_errors flat_isoformat ""
           None OnlyError (webhook_responses w)).
Proof.
  cbv zeta.
  destruct (@history_summary string flaky plain_str no_errors flat_isoformat ""
              None AllStatuses initial_world) as [Hmade _]; [constructor|].
  destruct (@history_summary string flaky plain_str no_errors flat_isoformat ""
              None OnlyError _ (Hmade "rec" (Some "audio"))) as [_ Hview].
  assert (Hrun : ∃ cards s,
             render_webhook_history plain_str no_errors flat_isoformat ""
               None OnlyError
               (snd (send_to_webhook (env := flaky) "rec" (Some "audio")
                       initial_world)) = Some (cards, Some s) ∧
             total_responses s = 1)
    by (do 2 eexists; vm_compute; split; reflexivity).
  destruct Hrun as (cards & s & Hrun & Htotal).
  rewrite Hrun in Hview. destruct Hview as (_ & _ & _ & _ & Hother).
  exists cards, s. split; [exact Hrun|]. split; [exact Htotal|exact Hother].
Defined.

End ViewExamples.

(** ** Concrete runs of the statements about the project page *)

Section ProjectExamples.

Import gsheet_manager project_management.

Lemma auto_load_calls_witness :
  calls (snd (auto_load_project_data first_run))
  = [CallGetSheetData "sheet1" None true] ∧
  snd (auto_load_project_data loaded_run) = loaded_run.
Proof.
  destruct (auto_load_calls first_run) as (w1 & Hrun1 & _ & Hload & _).
  destruct (auto_load_calls loaded_run) as (w2 & Hrun2 & Hskip & _).
  rewrite Hrun1, Hrun2. split.
  - apply Hload. intros [H|[(t & Ht & _)|H]]; discriminate.
  - apply Hskip. right; left. exists 0. split; [reflexivity|reflexivity].
Defined.

Lemma force_reload_calls_witness :
  calls (snd (force_reload_project_data first_run))
  = [CallClearCache; CallGetSheetData "sheet1" None false] ∧
  fst (force_reload_project_data unconfigured_run) = Ret tt.
Proof.
  destruct (force_reload_calls first_run) as (_ & Hreload & _).
  destruct (force_reload_calls unconfigured_run) as (Hnone & _).
  split.
  - apply Hreload. discriminate.
  - apply Hnone. reflexivity.
Defined.


Lemma save_project_changes_effects_witness :
  let w' := snd (save_project_changes id named_run) in
  shown w' = [StSuccess ChangesSaved] ∧
  auto_load_project_data (elapse (seconds 299) w')
  = (Ret tt, elapse (seconds 299) w') ∧
  shown (snd (save_project_changes id loaded_run)) = [StError SaveFailed].
Proof.
  cbv zeta.
  destruct (save_project_changes_effects id named_run) as (w1 & Hrun1 & Hsaved).
  destruct (save_project_changes_effects id loaded_run) as (w2 & Hrun2 & Hfailed).
  rewrite Hrun1, Hrun2. cbn [snd].
  change (project_data (session named_run))
    with (Some (Some (normalize sample_table))) in Hsaved.
  change (project_data (session loaded_run))
    with (Some (Some (normalize sample_table))) in Hfailed.
  destruct Hsaved as (_ & _ & Hsaved). destruct Hfailed as (_ & _ & Hfailed).
  change (fst (update_sheet_data
                 (default "" (project_sheet_url (session named_run)))
                 (id (normalize sample_table))
                 (Some (default "" (project_worksheet_name (session named_run))))
                 (manager named_run)))
    with (Ret (A := bool) true) in Hsaved.
  change (fst (update_sheet_data
                 (default "" (project_sheet_url (session loaded_run)))
                 (id (normalize sample_table))
                 (Some (default "" (project_worksheet_name (session loaded_run))))
                 (manager loaded_run)))
    with (Ret (A := bool) false) in Hfailed.
  destruct Hsaved as (_ & Hshown & Hauto). destruct Hfailed as (_ & Hfail).
  split; [exact Hshown|]. split; [apply Hauto; reflexivity|exact Hfail].
Defined.

Lemma initialize_default_config_commutes_witness :
  let w0 := snd (initialize_default_config unconfigured_run) in
  project_sheet_url (session w0) = Some "" ∧
  project_auto_load_enabled (session w0) = Some true ∧
  auto_load_project_data w0 = (Ret tt, w0).
Proof.
  cbv zeta.
  destruct (initialize_default_config_commutes unconfigured_run)
    as (_ & Hsession & _ & _ & _ & _ & _ & _ & Hauto).
  split; [rewrite Hsession; reflexivity|].
  split; [rewrite Hsession; reflexivity|]. apply Hauto. reflexivity.
Defined.

Lemma pager_partitions_witness :
  total_pages 60 25 = 3 ∧
  display_rows sixty_rows 25 3 = seq 50 10 ∧
  concat (map (display_rows sixty_rows 25) (seqZ 1 3)) = sixty_rows.
Proof.
  destruct (pager_partitions sixty_rows 25) as (_ & _ & _ & Hpages); [lia|].
  destruct Hpages as [Hpage Hall]; [reflexivity|].
  split; [reflexivity|]. split.
  - destruct (Hpage 3) as (Hrows & _); [split; [lia|reflexivity]|].
    rewrite Hrows. reflexivity.
  - exact Hall.
Defined.

End ProjectExamples.

(** ** Concrete runs of the statements about the other pages *)

Section CallCenterExamples.

Import call_center.

Lemma readable_sec_decomposes_witness :
  readable_sec (Some 3725) = HourMinSec 1 2 5 ∧ 3725 = 3600 * 1 + 60 * 2 + 5 ∧
  readable_sec (Some (-1)) = HourMinSec (-1) 59 59.
Proof.
  pose proof (readable_sec_decomposes 3725) as Hpos.
  pose proof (readable_sec_decomposes (-1)) as Hneg.
  change (readable_sec (Some 3725)) with (HourMinSec 1 2 5) in Hpos.
  change (readable_sec (Some (-1))) with (HourMinSec (-1) 59 59) in Hneg.
  destruct Hpos as (_ & Hsum & _).
  split; [reflexivity|]. split; [exact Hsum|reflexivity].
Defined.

Lemma audio_file_parts_witness :
  audio_player lower_ascii "https://cdn.example.org/calls/v1.2/rec-17.MP3"
  = Play "https://cdn.example.org/calls/v1.2/rec-17.MP3" ∧
  audio_player lower_ascii "https://cdn.example.org/calls/rec-18.wma"
  = UnsupportedFormat "wma" ∧
  audio_player lower_ascii "https://cdn.example.org/stream"
  = Play "https://cdn.example.org/stream".
Proof.
  pose proof (audio_file_parts lower_ascii
                "https://cdn.example.org/calls/v1.2/rec-17.MP3") as (_ & _ & Hmp3).
  pose proof (audio_file_parts lower_ascii
                "https://cdn.example.org/calls/rec-18.wma") as (_ & _ & Hwma).
  pose proof (audio_file_parts lower_ascii
                "https://cdn.example.org/stream") as (_ & _ & Hnone).
  change (ext_of lower_ascii
            (filename_of "https://cdn.example.org/calls/v1.2/rec-17.MP3"))
    with (Some "mp3") in Hmp3.
  change (ext_of lower_ascii
            (filename_of "https://cdn.example.org/calls/rec-18.wma"))
    with (Some "wma") in Hwma.
  change (ext_of lower_ascii (filename_of "https://cdn.example.org/stream"))
    with (@None string) in Hnone.
  destruct Hmp3 as (_ & Hplay & _). destruct Hwma as (_ & _ & Hwarn).
  destruct Hnone as (_ & Hany).
  split; [|split].
  - apply Hplay. apply list_elem_of_here.
  - apply Hwarn. unfold SUPPORTED_AUDIO_EXTS. intros Hin.
    repeat (apply elem_of_cons in Hin as [Hin|Hin]; [discriminate|]).
    inversion Hin.
  - exact Hany.
Defined.

End CallCenterExamples.

Section GitAgentExamples.

Import gitagent.

Lemma push_needs_created_repo_witness :
  calls (snd (script (env := github_accepts) strip_ascii join_posix
                "ghp_token" "octo" " my site " (Some sample_zip) true start))
  = calls_up_to_push (H := github_accepts) join_posix "ghp_token" "octo"
      "my-site" sample_zip ∧
  ∀ refspec,
    Push refspec ∉
      calls (snd (script (env := github_refuses) strip_ascii join_posix
                    "ghp_token" "octo" " my site " (Some sample_zip) true start)).
Proof.
  destruct (@push_needs_created_repo github_accepts strip_ascii join_posix
              "ghp_token" "octo" " my site " (Some sample_zip) true start)
    as (new & Hcalls & _ & _ & Hpush & _).
  destruct (@push_needs_created_repo github_refuses strip_ascii join_posix
              "ghp_token" "octo" " my site " (Some sample_zip) true start)
    as (new' & Hcalls' & _ & _ & Hpush' & _).
  split.
  - rewrite Hcalls. change (calls start) with (@nil Call). rewrite app_nil_l.
    destruct (Hpush "HEAD:refs/heads/master") as (_ & _ & _ & _ & _ & z & Hz & Hnew & _).
    + assert (Hin : Push "HEAD:refs/heads/master"
                    ∈ calls (snd (script (env := github_accepts) strip_ascii
                                    join_posix "ghp_token" "octo" " my site "
                                    (Some sample_zip) true start))).
      { vm_compute. do 14 apply list_elem_of_further. apply list_elem_of_here. }
      rewrite Hcalls in Hin. exact Hin.
    + injection Hz as <-. exact Hnew.
  - intros refspec Hin. rewrite Hcalls' in Hin.
    change (calls start) with (@nil Call) in Hin. rewrite app_nil_l in Hin.
    destruct (Hpush' refspec Hin) as (_ & _ & _ & _ & Hcode & _).
    discriminate Hcode.
Defined.

End GitAgentExamples.
